(** * Playwright UX/UI tester: orchestration, probes, scoring and evidence

    A shallow embedding of [src/testers/ux-ui-tester.ts] (class [UXUITester])
    and of the evidence recorder (class [ScreenshotAnalyzer]).

    Conventions of the embedding.
    - JavaScript numbers that the code only ever uses as integers (counts,
      lengths, [Date.now()] readings) are [Z] or [nat].  Fractional finite
      numbers (scores, paint timings, pixel sizes) are exact rationals [Q];
      values that can be [NaN] or [Infinity] have type [number].  The
      rounding of binary64 arithmetic is not modelled.
    - Code that runs inside the browser through [page.evaluate] is either
      embedded as a function over the part of the DOM it reads, or, where no
      property below depends on it, taken as the value the call returns.
    - Every call that reaches into the browser is a page operation: it is
      numbered, and the environment says which operations reject.
    - Methods are computations in a state-and-exception monad in which the
      state written before a [throw] is kept, as with JavaScript objects. *)

From Stdlib Require Import String Ascii List Bool Arith ZArith QArith Qround
  Qminmax Lia DecimalString DecimalNat.
From Stdlib Require Import Reals Rpower Psatz.
From Stdlib Require Import Relations RelationClasses.
Import ListNotations.

Close Scope R_scope.
Close Scope Q_scope.
Close Scope Z_scope.
Local Open Scope string_scope.

(** ** JavaScript helpers *)

Module JS.

(** *** Strings *)

Definition string_of_nat (n : nat) : string :=
  NilZero.string_of_uint (Nat.to_uint n).

Definition string_of_Z (z : Z) : string :=
  NilZero.string_of_int (Z.to_int z).

Definition isUpper (c : ascii) : bool :=
  let n := nat_of_ascii c in (65 <=? n)%nat && (n <=? 90)%nat.

Definition lowerChar (c : ascii) : ascii :=
  if isUpper c then ascii_of_nat (nat_of_ascii c + 32) else c.

(** [s.toLowerCase()], on ASCII letters. *)
Fixpoint toLowerCase (s : string) : string :=
  match s with
  | EmptyString => EmptyString
  | String c r => String (lowerChar c) (toLowerCase r)
  end.

(** [s.includes(kw)] *)
Fixpoint includes (s kw : string) : bool :=
  if prefix kw s then true
  else match s with
       | EmptyString => false
       | String _ r => includes r kw
       end.

(** [s.startsWith(p)] *)
Definition startsWith (s p : string) : bool := prefix p s.

Definition isSpace (c : ascii) : bool :=
  let n := nat_of_ascii c in
  (n =? 32)%nat || ((9 <=? n)%nat && (n <=? 13)%nat).

Fixpoint trimStart (s : string) : string :=
  match s with
  | EmptyString => EmptyString
  | String c r => if isSpace c then trimStart r else s
  end.

Fixpoint trimEnd (s : string) : string :=
  match s with
  | EmptyString => EmptyString
  | String c r =>
      match trimEnd r with
      | EmptyString => if isSpace c then EmptyString else String c EmptyString
      | r' => String c r'
      end
  end.

(** [s.trim()] *)
Definition trim (s : string) : string := trimEnd (trimStart s).

(** [s.split(' ')[0]] *)
Fixpoint firstWord (s : string) : string :=
  match s with
  | EmptyString => EmptyString
  | String c r => if Ascii.eqb c " " then EmptyString else String c (firstWord r)
  end.

(** [s.replace(/\s+/g, '_')] *)
Fixpoint replaceSpaces (inRun : bool) (s : string) : string :=
  match s with
  | EmptyString => EmptyString
  | String c r =>
      if isSpace c
      then (if inRun then replaceSpaces true r else String "_" (replaceSpaces true r))
      else String c (replaceSpaces false r)
  end.

(** [l.join(sep)] *)
Definition join (sep : string) (l : list string) : string := String.concat sep l.

(** [s] between double quotes. *)
Definition quote (s : string) : string :=
  String (ascii_of_nat 34) s ++ String (ascii_of_nat 34) EmptyString.

(** Truthiness of a string. *)
Definition truthy (s : string) : bool := negb (s =? "").

(** [a || b] on strings. *)
Definition orElse (a b : string) : string := if truthy a then a else b.

(** *** Numbers *)

(** A JavaScript number that may fail to be finite. *)
Inductive number : Type :=
| NaN
| Infinity (negative : bool)
| Finite (q : Q).

Definition Qltb (a b : Q) : bool := negb (Qle_bool b a).

(** [x / y] on finite operands. *)
Definition div (x y : Q) : number :=
  if Qeq_bool y 0
  then (if Qeq_bool x 0 then NaN else Infinity (Qltb x 0))
  else Finite (x / y).

(** [a * q] with [q] finite. *)
Definition mul (a : number) (q : Q) : number :=
  match a with
  | NaN => NaN
  | Infinity s => if Qeq_bool q 0 then NaN else Infinity (xorb s (Qltb q 0))
  | Finite x => Finite (x * q)
  end.

(** [Math.round] on a finite number: the nearest integer, ties upwards. *)
Definition mathRound (q : Q) : Z := Qfloor (q + (1 # 2)).

(** [Math.round] *)
Definition round (a : number) : number :=
  match a with
  | Finite q => Finite (inject_Z (mathRound q))
  | other => other
  end.

(** [a >= q] and [a < q]: every comparison with [NaN] is false. *)
Definition geb (a : number) (q : Q) : bool :=
  match a with
  | NaN => false
  | Infinity s => negb s
  | Finite x => Qle_bool q x
  end.

Definition ltb (a : number) (q : Q) : bool :=
  match a with
  | NaN => false
  | Infinity s => s
  | Finite x => Qltb x q
  end.

(** [0 <= a <= 100], as a proposition. *)
Definition between (lo hi : Q) (a : number) : Prop :=
  match a with
  | Finite x => (lo <= x /\ x <= hi)%Q
  | _ => False
  end.

Fixpoint zeros (n : nat) : string :=
  match n with
  | O => EmptyString
  | S k => String "0" (zeros k)
  end.

(** The digits of [n / 10^d] with [d] digits after the point. *)
Definition renderFixed (d : nat) (neg : bool) (n : Z) : string :=
  let digits := string_of_Z n in
  let padded := zeros (S d - String.length digits) ++ digits in
  let k := (String.length padded - d)%nat in
  let body :=
    match d with
    | O => padded
    | _ => substring 0 k padded ++ "." ++ substring k d padded
    end in
  if neg then "-" ++ body else body.

(** [q.toFixed(d)]: the decimal with [d] digits after the point nearest to
    [q], ties away from zero. *)
Definition toFixedQ (d : nat) (q : Q) : string :=
  let neg := Qltb q 0 in
  let a := if neg then (- q)%Q else q in
  renderFixed d neg (Qfloor (a * inject_Z (10 ^ Z.of_nat d) + (1 # 2))).

Definition toFixed (d : nat) (a : number) : string :=
  match a with
  | NaN => "NaN"
  | Infinity true => "-Infinity"
  | Infinity false => "Infinity"
  | Finite q => toFixedQ d q
  end.

(** [list.slice(0, n)] *)
Definition slice0 {A : Type} (n : nat) (l : list A) : list A := firstn n l.

(** [list.map((x, i) => f x i)] *)
Fixpoint mapi_from {A B : Type} (i : nat) (f : A -> nat -> B) (l : list A) : list B :=
  match l with
  | [] => []
  | x :: r => f x i :: mapi_from (S i) f r
  end.

Definition mapi {A B : Type} (f : A -> nat -> B) (l : list A) : list B :=
  mapi_from 0 f l.

End JS.

(** ** Data model *)

Inductive Status : Type := pass | fail | warning.
Inductive Severity : Type := high | medium | low.

Definition Status_eqb (a b : Status) : bool :=
  match a, b with
  | pass, pass | fail, fail | warning, warning => true
  | _, _ => false
  end.

Definition Severity_eqb (a b : Severity) : bool :=
  match a, b with
  | high, high | medium, medium | low, low => true
  | _, _ => false
  end.

Module ElementIssue.
Record t : Type := mk {
  selector : string;
  x : Z;
  y : Z;
  width : Z;
  height : Z;
  description : string;
  severity : Severity;
  recommendation : string;
  screenshotPath : option string
}.
End ElementIssue.

Module ProblemArea.
Record t : Type := mk {
  category : string;
  test : string;
  issues : list ElementIssue.t;
  fullPageScreenshot : option string
}.
End ProblemArea.

Module TestResult.
Record t : Type := mk {
  category : string;
  test : string;
  status : Status;
  score : Q;
  details : string;
  severity : Severity;
  timestamp : Z;
  elements : option (list ElementIssue.t);
  recommendations : option (list string)
}.
End TestResult.

Module LargestContentfulPaintEntry.
Record t : Type := mk {
  startTime : Q;
  renderTime : Q;
  loadTime : Q;
  size : option Q;
  url : option string;
  element : option string
}.
End LargestContentfulPaintEntry.

Module PerformanceMetrics.
Record t : Type := mk {
  loadTime : Z;
  domContentLoaded : Q;
  firstPaint : Q;
  firstContentfulPaint : Q;
  largestContentfulPaint : Q;
  largestContentfulPaintEntry : option LargestContentfulPaintEntry.t;
  totalSize : Z;
  requestCount : nat
}.

Definition initial : t :=
  mk 0%Z 0%Q 0%Q 0%Q 0%Q None 0%Z 0%nat.
End PerformanceMetrics.

Module AccessibilityIssue.
Record t : Type := mk {
  type : string;
  severity : string;
  element : string;
  description : string;
  wcagLevel : string
}.
End AccessibilityIssue.

Module ResponsiveTestResult.
Record t : Type := mk {
  device : string;
  width : Z;
  height : Z;
  issues : list string;
  screenshot : option string
}.
End ResponsiveTestResult.

Module UXReport.
Record t : Type := mk {
  url : string;
  testDate : Z;
  overallScore : JS.number;
  results : list TestResult.t;
  performance : PerformanceMetrics.t;
  accessibility : list AccessibilityIssue.t;
  responsive : list ResponsiveTestResult.t;
  recommendations : list string
}.
End UXReport.

(** ** Configuration *)

Module Device.
Record t : Type := mk { name : string; width : Z; height : Z }.
End Device.

Module Config.
Definition url : string := "https://jigsawaiteam.com/".
Definition outputDir : string := "outputs/ux-report".
Definition screenshotsDir : string := "outputs/ux-report/screenshots".
Definition devices : list Device.t :=
  [ Device.mk "Desktop 1920x1080" 1920 1080;
    Device.mk "Desktop 1366x768" 1366 768;
    Device.mk "Tablet iPad" 768 1024;
    Device.mk "Mobile iPhone 12" 390 844;
    Device.mk "Mobile Samsung S21" 360 800 ].
Definition navigationTimeout : Z := 30000.
Definition defaultTimeout : Z := 10000.
End Config.

(** ** What the browser shows *)

Module BoundingBox.
Record t : Type := mk { x : Q; y : Q; width : Q; height : Q }.
End BoundingBox.

(** An [<img>] as the alt-text check reads it. *)
Module Img.
Record t : Type := mk { alt : string; id : string; className : string }.
End Img.

(** A text-bearing element as the contrast check reads it. *)
Module TextElement.
Record t : Type := mk {
  tagName : string;
  id : string;
  className : string;
  textContent : string;
  color : string;
  backgroundColor : string
}.
End TextElement.

(** An element matched by [button, a[role="button"], input[type="submit"]]. *)
Module Button.
Record t : Type := mk {
  textContent : string;
  id : string;
  className : string;
  rect : BoundingBox.t;
  ariaLabel : option string
}.
End Button.

Module NavigationTiming.
Record t : Type := mk {
  domContentLoaded : Q;
  firstPaint : Q;
  firstContentfulPaint : Q
}.
End NavigationTiming.

(** The last largest-contentful-paint entry handed to the observer. *)
Module RawLCP.
Record t : Type := mk {
  startTime : Q;
  renderTime : Q;
  loadTime : Q;
  size : Q;
  url : string;
  element : option string
}.
End RawLCP.

Module MenuItem.
Record t : Type := mk { text : string; href : string }.
End MenuItem.

Module TextMetrics.
Record t : Type := mk {
  avgFontSize : Q;
  minFontSize : JS.number;
  avgLineHeight : Q;
  textElementsCount : nat
}.
End TextMetrics.

Module KeyboardAnalysis.
Record t : Type := mk {
  totalFocusable : nat;
  withoutVisibleFocus : nat;
  tabIndexIssues : nat
}.
End KeyboardAnalysis.

Module SeoAnalysis.
Record t : Type := mk {
  hasMetaDescription : bool;
  metaDescription : string;
  hasMetaKeywords : bool;
  hasCanonical : bool;
  hasOGTags : bool;
  hasStructuredData : bool;
  hasH1 : bool;
  title : string
}.
Definition titleLength (a : t) : nat := String.length (title a).
End SeoAnalysis.

Module FormAnalysis.
Record t : Type := mk {
  formCount : nat;
  inputCount : nat;
  inputsWithLabelsCount : nat;
  requiredCount : nat;
  placeholderCount : nat
}.
End FormAnalysis.

Module InteractiveAnalysis.
Record t : Type := mk {
  buttonCount : nat;
  linkCount : nat;
  externalLinkCount : nat;
  smallTouchTargetCount : nat
}.
End InteractiveAnalysis.

(** One violation of the audit engine's [run()] result. *)
Module Violation.
Record t : Type := mk {
  id : string;
  impact : string;
  description : string;
  tags : list string;
  nodes : list (list string);
  help : string
}.
End Violation.

(** The page opened by [initialize] and loaded by [runAllTests]. *)
Module Page.
Record t : Type := mk {
  (** [locator(selector)]: the matched elements, each with its bounding box
      when it is rendered; [None] when the selector does not parse. *)
  locate : string -> option (list (option BoundingBox.t));
  navigationTiming : NavigationTiming.t;
  (** [transferSize] of each resource entry *)
  resources : list Z;
  lcp : option RawLCP.t;
  (** [document.querySelectorAll(tag).length] *)
  tagCount : string -> nat;
  images : list Img.t;
  logoExists : bool;
  menuItems : list MenuItem.t;
  mobileMenuExists : bool;
  textMetrics : TextMetrics.t;
  overflowCount : nat;
  textElements : list TextElement.t;
  buttons : list Button.t;
  innerHeight : Q;
  keyboardAnalysis : KeyboardAnalysis.t;
  seoAnalysis : SeoAnalysis.t;
  formAnalysis : FormAnalysis.t;
  interactiveAnalysis : InteractiveAnalysis.t;
  (** the audit engine's [violations], when the result has the field *)
  violations : option (list Violation.t);
  (** descriptor of [document.activeElement] after the i-th Tab *)
  focusAfterTab : nat -> string;
  hasSkipLink : bool;
  hasLang : bool;
  (** count of a landmark role, its HTML element included *)
  landmarkCount : string -> nat
}.
End Page.

(** The page as one simulated device renders it. *)
Module DevicePage.
Record t : Type := mk {
  hasHorizontalScroll : bool;
  textTooSmall : nat;
  smallTargets : nat
}.
End DevicePage.

(** Where a script tag for the audit engine comes from. *)
Inductive ScriptSource : Type :=
| CDN (url : string)
| LocalPackage (path : string).

Module Env.
Record t : Type := mk {
  (** which page operations reject, by their number *)
  fault : nat -> bool;
  (** successive readings of [Date.now()] *)
  clock : nat -> Z;
  page : Page.t;
  devicePage : Device.t -> DevicePage.t;
  (** does the script define [window.axe] once its tag is added *)
  definesAxe : ScriptSource -> bool;
  (** [require.resolve('axe-core/axe.min.js')] *)
  localAxePath : option string
}.
End Env.

(** What the run changes outside the tester object. *)
Module World.
Record t : Type := mk {
  ops : nat;
  ticks : nat;
  browserOpen : bool;
  contexts : list nat;
  nextContext : nat;
  (** every call of [addScriptTag], in order *)
  scriptRequests : list ScriptSource;
  (** the script tags that were added *)
  scriptTags : list ScriptSource;
  files : list string
}.

Definition initial : t := mk 0 0 false [] 0 [] [] [].

Definition tickOp (w : t) : t :=
  mk (S (ops w)) (ticks w) (browserOpen w) (contexts w) (nextContext w)
     (scriptRequests w) (scriptTags w) (files w).
Definition tickClock (w : t) : t :=
  mk (ops w) (S (ticks w)) (browserOpen w) (contexts w) (nextContext w)
     (scriptRequests w) (scriptTags w) (files w).
Definition launch (w : t) : t :=
  mk (ops w) (ticks w) true (contexts w) (nextContext w)
     (scriptRequests w) (scriptTags w) (files w).
(** [browser.close()] closes every context of the browser. *)
Definition closeBrowser (w : t) : t :=
  mk (ops w) (ticks w) false [] (nextContext w)
     (scriptRequests w) (scriptTags w) (files w).
Definition openContext (w : t) : t :=
  mk (ops w) (ticks w) (browserOpen w) (contexts w ++ [nextContext w])
     (S (nextContext w)) (scriptRequests w) (scriptTags w) (files w).
Definition closeContext (c : nat) (w : t) : t :=
  mk (ops w) (ticks w) (browserOpen w)
     (filter (fun c' => negb (c' =? c)%nat) (contexts w))
     (nextContext w) (scriptRequests w) (scriptTags w) (files w).
Definition requestScript (src : ScriptSource) (w : t) : t :=
  mk (ops w) (ticks w) (browserOpen w) (contexts w) (nextContext w)
     (scriptRequests w ++ [src]) (scriptTags w) (files w).
Definition addScript (src : ScriptSource) (w : t) : t :=
  mk (ops w) (ticks w) (browserOpen w) (contexts w) (nextContext w)
     (scriptRequests w) (scriptTags w ++ [src]) (files w).
Definition writeFile (path : string) (w : t) : t :=
  mk (ops w) (ticks w) (browserOpen w) (contexts w) (nextContext w)
     (scriptRequests w) (scriptTags w) (files w ++ [path]).
End World.

(** ** The monad of methods *)

Inductive Error : Type :=
| OpFailed (op : nat)
| SelectorError (selector : string)
| ModuleNotFound (name : string)
| TypeError (msg : string).

Inductive result (A : Type) : Type :=
| Ok (a : A)
| Throw (e : Error).
Arguments Ok {A} a.
Arguments Throw {A} e.

Definition M (St A : Type) : Type :=
  Env.t -> World.t -> St -> result A * World.t * St.

Definition ret {St A} (a : A) : M St A := fun _ w s => (Ok a, w, s).

Definition bind {St A B} (m : M St A) (k : A -> M St B) : M St B :=
  fun env w s =>
    match m env w s with
    | (Ok a, w', s') => k a env w' s'
    | (Throw e, w', s') => (Throw e, w', s')
    end.

Definition throw {St A} (e : Error) : M St A := fun _ w s => (Throw e, w, s).

(** [try { m } catch (e) { h e }] *)
Definition tryCatch {St A} (m : M St A) (h : Error -> M St A) : M St A :=
  fun env w s =>
    match m env w s with
    | (Ok a, w', s') => (Ok a, w', s')
    | (Throw e, w', s') => h e env w' s'
    end.

(** [try { m } finally { f }] *)
Definition tryFinally {St A} (m : M St A) (f : M St unit) : M St A :=
  fun env w s =>
    match m env w s with
    | (r, w', s') =>
        match f env w' s' with
        | (Ok _, w'', s'') => (r, w'', s'')
        | (Throw e, w'', s'') => (Throw e, w'', s'')
        end
    end.

Definition ask {St} : M St Env.t := fun env w s => (Ok env, w, s).
Definition get {St} : M St St := fun _ w s => (Ok s, w, s).
Definition gets {St A} (f : St -> A) : M St A := fun _ w s => (Ok (f s), w, s).
Definition modify {St} (f : St -> St) : M St unit := fun _ w s => (Ok tt, w, f s).
Definition getWorld {St} : M St World.t := fun _ w s => (Ok w, w, s).
Definition modifyWorld {St} (f : World.t -> World.t) : M St unit :=
  fun _ w s => (Ok tt, f w, s).

(** Run a method of a member object on that member. *)
Definition zoom {St Sub A} (proj : St -> Sub) (inj : Sub -> St -> St)
  (m : M Sub A) : M St A :=
  fun env w s =>
    match m env w (proj s) with
    | (r, w', sub') => (r, w', inj sub' s)
    end.

Declare Scope monad_scope.
Delimit Scope monad_scope with monad.
Notation "x <- c1 ;; c2" := (bind c1 (fun x => c2))
  (at level 100, c1 at next level, right associativity) : monad_scope.
Notation "c1 ;; c2" := (bind c1 (fun _ => c2))
  (at level 100, right associativity) : monad_scope.
Local Open Scope monad_scope.

(** [for (const x of l) { f x }] *)
Fixpoint forEach {St A} (l : list A) (f : A -> M St unit) : M St unit :=
  match l with
  | [] => ret tt
  | x :: r => f x ;; forEach r f
  end.

(** [if (c) { m }] *)
Definition when {St} (c : bool) (m : M St unit) : M St unit :=
  if c then m else ret tt.

(** A call into the browser: it takes the next operation number and rejects
    when the environment says so. *)
Definition pageOp {St} : M St unit :=
  fun env w s =>
    let n := World.ops w in
    if Env.fault env n
    then (Throw (OpFailed n), World.tickOp w, s)
    else (Ok tt, World.tickOp w, s).

(** [Date.now()] *)
Definition now {St} : M St Z :=
  fun env w s => (Ok (Env.clock env (World.ticks w)), World.tickClock w, s).

(** [await page.evaluate(f)] where [f] computes [v] in the page. *)
Definition evaluate {St A} (v : A) : M St A := pageOp ;; ret v.

(** [await page.locator(selector).count()] *)
Definition locatorCount {St} (page : Page.t) (selector : string) : M St nat :=
  pageOp ;;
  match Page.locate page selector with
  | None => throw (SelectorError selector)
  | Some els => ret (length els)
  end.

(** [await page.locator(selector).first().boundingBox()] *)
Definition boundingBox {St} (page : Page.t) (selector : string)
  : M St (option BoundingBox.t) :=
  pageOp ;;
  match Page.locate page selector with
  | None => throw (SelectorError selector)
  | Some [] => throw (SelectorError selector)
  | Some (el :: _) => ret el
  end.

(** [await x.screenshot({ path })] *)
Definition screenshot {St} (path : string) : M St unit :=
  pageOp ;; modifyWorld (World.writeFile path).

(** ** Evidence recorder *)

Module ScreenshotAnalyzer.

Record t : Type := mk {
  screenshotsDir : string;
  problemAreas : list ProblemArea.t
}.

Definition new (dir : string) : t := mk dir [].

Definition setProblemAreas (l : list ProblemArea.t) (a : t) : t :=
  mk (screenshotsDir a) l.

Definition takeFullPageScreenshot (testName : string) : M t string :=
  t0 <- now ;;
  dir <- gets screenshotsDir ;;
  let filename := testName ++ "-fullpage-" ++ JS.string_of_Z t0 ++ ".png" in
  let filepath := dir ++ "/" ++ filename in
  screenshot filepath ;;
  ret filepath.

Definition takeElementScreenshot (page : Page.t) (selector testName : string)
  : M t (option string) :=
  tryCatch
    (count <- locatorCount page selector ;;
     if (count =? 0)%nat then ret None
     else
       t0 <- now ;;
       dir <- gets screenshotsDir ;;
       let filename := testName ++ "-element-" ++ JS.string_of_Z t0 ++ ".png" in
       let filepath := dir ++ "/" ++ filename in
       screenshot filepath ;;
       ret (Some filepath))
    (fun _ => ret None).

(** [pa.category === category && pa.test === test] *)
Definition isArea (category test : string) (pa : ProblemArea.t) : bool :=
  (ProblemArea.category pa =? category) && (ProblemArea.test pa =? test).

(** [existing.issues.push(issue)] on the first area that [find] returns. *)
Fixpoint pushIssue (category test : string) (issue : ElementIssue.t)
  (areas : list ProblemArea.t) : list ProblemArea.t :=
  match areas with
  | [] => []
  | pa :: rest =>
      if isArea category test pa
      then ProblemArea.mk (ProblemArea.category pa) (ProblemArea.test pa)
             (ProblemArea.issues pa ++ [issue])
             (ProblemArea.fullPageScreenshot pa) :: rest
      else pa :: pushIssue category test issue rest
  end.

Definition storeProblemArea (category test : string) (issue : ElementIssue.t)
  : M t unit :=
  areas <- gets problemAreas ;;
  match find (isArea category test) areas with
  | Some _ => modify (setProblemAreas (pushIssue category test issue areas))
  | None =>
      modify (setProblemAreas
                (areas ++ [ProblemArea.mk category test [issue] None]))
  end.

Definition recordProblemArea (page : Page.t) (category test selector : string)
  (description : string) (severity : Severity) (recommendation : string)
  (takeScreenshot : bool) : M t (option ElementIssue.t) :=
  tryCatch
    (count <- locatorCount page selector ;;
     if (count =? 0)%nat then ret None
     else
       boundingBox <- boundingBox page selector ;;
       match boundingBox with
       | None => ret None
       | Some box =>
           screenshotPath <-
             (if takeScreenshot
              then takeElementScreenshot page selector (category ++ "-" ++ test)
              else ret None) ;;
           let issue :=
             ElementIssue.mk selector
               (JS.mathRound (BoundingBox.x box))
               (JS.mathRound (BoundingBox.y box))
               (JS.mathRound (BoundingBox.width box))
               (JS.mathRound (BoundingBox.height box))
               description severity recommendation screenshotPath in
           storeProblemArea category test issue ;;
           ret (Some issue)
       end)
    (fun _ => ret None).

Definition getProblemAreas : M t (list ProblemArea.t) := gets problemAreas.

Definition clearProblemAreas : M t unit := modify (setProblemAreas []).

Definition getHighSeverityIssues : M t (list ElementIssue.t) :=
  areas <- gets problemAreas ;;
  ret (filter (fun issue => Severity_eqb (ElementIssue.severity issue) high)
         (flat_map ProblemArea.issues areas)).

(** For now the full page screenshot stands for the annotated one. *)
Definition generateAnnotatedScreenshot (testName : string)
  (issues : list ElementIssue.t) : M t (option string) :=
  tryCatch
    (filepath <- takeFullPageScreenshot ("annotated-" ++ testName) ;;
     ret (Some filepath))
    (fun _ => ret None).

End ScreenshotAnalyzer.

(** ** Colour contrast, as computed in the page

    The contrast callback raises to the power 2.4, so its numbers are read
    as real numbers; [None] stands for [NaN]. *)

Module Contrast.

Local Open Scope R_scope.

(** One channel of [getLuminance]: [x / 255], then the sRGB transfer. *)
Definition linearize (x : R) : R :=
  let x := x / 255 in
  if Rle_dec x (3928 / 100000)
  then x / (1292 / 100)
  else Rpower ((x + 55 / 1000) / (1055 / 1000)) (24 / 10).

Definition getLuminance (r g b : R) : R :=
  let rs := linearize r in
  let gs := linearize g in
  let bs := linearize b in
  2126 / 10000 * rs + 7152 / 10000 * gs + 722 / 10000 * bs.

Definition isDigit (c : ascii) : bool :=
  let n := nat_of_ascii c in (48 <=? n)%nat && (n <=? 57)%nat.

(** [rgb.match(/\d+/g)] with [parseInt] applied to each match; [cur] is
    the value of the run being read. *)
Fixpoint digitRuns (cur : option nat) (s : string) : list nat :=
  match s with
  | EmptyString => match cur with Some n => [n] | None => [] end
  | String c rest =>
      if isDigit c
      then digitRuns
             (Some (10 * match cur with Some n => n | None => 0 end
                    + (nat_of_ascii c - 48))%nat) rest
      else match cur with
           | Some n => n :: digitRuns None rest
           | None => digitRuns None rest
           end
  end.

(** [parseRgb]: no match gives black; a match with fewer than three
    numbers gives a [NaN] channel. *)
Definition parseRgb (rgb : string) : option (R * R * R) :=
  match digitRuns None rgb with
  | [] => Some (0, 0, 0)
  | r :: g :: b :: _ => Some (INR r, INR g, INR b)
  | _ => None
  end.

Definition getContrast (rgb1 rgb2 : string) : option R :=
  match parseRgb rgb1, parseRgb rgb2 with
  | Some (r1, g1, b1), Some (r2, g2, b2) =>
      let l1 := getLuminance r1 g1 b1 in
      let l2 := getLuminance r2 g2 b2 in
      let lighter := Rmax l1 l2 in
      let darker := Rmin l1 l2 in
      Some ((lighter + 5 / 100) / (darker + 5 / 100))
  | _, _ => None
  end.

(** [contrast < 4.5] *)
Definition belowAA (contrast : option R) : bool :=
  match contrast with
  | Some c => if Rlt_dec c (45 / 10) then true else false
  | None => false
  end.

(** [contrast.toFixed(2)] *)
Definition toFixed2 (contrast : option R) : string :=
  match contrast with
  | None => "NaN"
  | Some c =>
      if Rlt_dec c 0
      then JS.renderFixed 2 true (up (- c * 100 + 1 / 2) - 1)
      else JS.renderFixed 2 false (up (c * 100 + 1 / 2) - 1)
  end.

Record Issue : Type := mkIssue {
  tag : string;
  selector : string;
  contrast : string;
  text : string
}.

(** The element goes through the contrast test. *)
Definition examined (el : TextElement.t) : bool :=
  let text := JS.trim (TextElement.textContent el) in
  (0 <? String.length text)%nat
  && JS.truthy (TextElement.color el)
  && JS.truthy (TextElement.backgroundColor el)
  && negb (TextElement.backgroundColor el =? "rgba(0, 0, 0, 0)")%string.

Definition selectorOf (el : TextElement.t) (index : nat) : string :=
  if JS.truthy (TextElement.id el) then "#" ++ TextElement.id el
  else if JS.truthy (TextElement.className el)
  then "." ++ JS.firstWord (TextElement.className el)
  else JS.toLowerCase (TextElement.tagName el) ++ ":nth-of-type("
         ++ JS.string_of_nat index ++ ")".

(** The element is pushed on [issues]. *)
Definition flagged (el : TextElement.t) : bool :=
  examined el
  && belowAA (getContrast (TextElement.color el) (TextElement.backgroundColor el)).

Fixpoint collect (index : nat) (els : list TextElement.t) : list Issue :=
  match els with
  | [] => []
  | el :: rest =>
      if flagged el
      then mkIssue (TextElement.tagName el) (selectorOf el index)
             (toFixed2 (getContrast (TextElement.color el)
                          (TextElement.backgroundColor el)))
             (substring 0 50 (JS.trim (TextElement.textContent el)))
           :: collect (S index) rest
      else collect (S index) rest
  end.

(** The callback of [testColorContrast], on the elements that
    [querySelectorAll] returns. *)
Definition contrastIssues (els : list TextElement.t) : list Issue :=
  collect 0 (JS.slice0 100 els).

End Contrast.

(** ** The tester *)

Module UXUITester.

Record t : Type := mk {
  results : list TestResult.t;
  performanceMetrics : PerformanceMetrics.t;
  accessibilityIssues : list AccessibilityIssue.t;
  responsiveResults : list ResponsiveTestResult.t;
  screenshotAnalyzer : ScreenshotAnalyzer.t
}.

(** [new UXUITester()] *)
Definition new : t :=
  mk [] PerformanceMetrics.initial [] []
     (ScreenshotAnalyzer.new Config.screenshotsDir).

Definition pushResult (r : TestResult.t) (s : t) : t :=
  mk (results s ++ [r]) (performanceMetrics s) (accessibilityIssues s)
     (responsiveResults s) (screenshotAnalyzer s).
Definition setPerformanceMetrics (m : PerformanceMetrics.t) (s : t) : t :=
  mk (results s) m (accessibilityIssues s) (responsiveResults s)
     (screenshotAnalyzer s).
Definition pushAccessibilityIssue (i : AccessibilityIssue.t) (s : t) : t :=
  mk (results s) (performanceMetrics s) (accessibilityIssues s ++ [i])
     (responsiveResults s) (screenshotAnalyzer s).
Definition pushResponsiveResult (r : ResponsiveTestResult.t) (s : t) : t :=
  mk (results s) (performanceMetrics s) (accessibilityIssues s)
     (responsiveResults s ++ [r]) (screenshotAnalyzer s).
Definition setScreenshotAnalyzer (a : ScreenshotAnalyzer.t) (s : t) : t :=
  mk (results s) (performanceMetrics s) (accessibilityIssues s)
     (responsiveResults s) a.

(** A method of [this.screenshotAnalyzer]. *)
Definition onAnalyzer {A} (m : M ScreenshotAnalyzer.t A) : M t A :=
  zoom screenshotAnalyzer setScreenshotAnalyzer m.

(** *** Browser setup *)

Definition initialize : M t unit :=
  pageOp ;; modifyWorld World.launch ;;
  pageOp ;; modifyWorld World.openContext ;;
  pageOp.

(** [this.browser.close()]; [this.browser] is undefined until [launch]
    has returned. *)
Definition cleanup : M t unit :=
  w <- getWorld ;;
  if World.browserOpen w
  then pageOp ;; modifyWorld World.closeBrowser
  else throw (TypeError "Cannot read properties of undefined (reading 'close')").

(** *** Helper methods *)

(** The pattern in which three probes record their evidence:
    [if (items.length > 0) for (const item of items)
       try { await this.screenshotAnalyzer.recordProblemArea(...) } catch (e) {}] *)
Definition recordEvidence {A : Type} (items : list A)
  (record : A -> M ScreenshotAnalyzer.t (option ElementIssue.t)) : M t unit :=
  when (0 <? length items)%nat
    (forEach items (fun item =>
       tryCatch (onAnalyzer (record item) ;; ret tt) (fun _ => ret tt))).

Definition addResult (category test : string) (status : Status) (score : Q)
  (details : string) (severity : Severity)
  (elements : option (list ElementIssue.t))
  (recommendations : option (list string)) : M t unit :=
  timestamp <- now ;;
  modify (pushResult
            (TestResult.mk category test status score details severity
               timestamp elements recommendations)).

(** [a || b] on numbers: zero is falsy. *)
Definition orQ (a b : Q) : Q := if Qeq_bool a 0 then b else a.

(** *** Performance *)

(** The value the largest-contentful-paint promise resolves with. *)
Definition lcpResult (observed : option RawLCP.t)
  : Q * option LargestContentfulPaintEntry.t :=
  match observed with
  | Some e =>
      let entry :=
        LargestContentfulPaintEntry.mk
          (RawLCP.startTime e)
          (orQ (RawLCP.renderTime e) (RawLCP.loadTime e))
          (RawLCP.loadTime e)
          (if Qeq_bool (RawLCP.size e) 0 then None else Some (RawLCP.size e))
          (if JS.truthy (RawLCP.url e) then Some (RawLCP.url e) else None)
          (RawLCP.element e) in
      (LargestContentfulPaintEntry.renderTime entry, Some entry)
  | None => (0%Q, None)
  end.

Definition loadStatus (loadTime : Z) : Status :=
  if (loadTime <? 3000)%Z then pass
  else if (loadTime <? 5000)%Z then warning else fail.

Definition loadScore (loadTime : Z) : Q :=
  if (loadTime <? 3000)%Z then 10
  else if (loadTime <? 5000)%Z then 7
  else if (loadTime <? 8000)%Z then 4 else 1.

Definition loadSeverity (loadTime : Z) : Severity :=
  if (loadTime >? 5000)%Z then high else medium.

Definition testPerformance : M t unit :=
  env <- ask ;;
  let page := Env.page env in
  startTime <- now ;;
  t1 <- now ;;
  let loadTime := (t1 - startTime)%Z in
  metrics <- evaluate (Page.navigationTiming page) ;;
  resources <- evaluate (length (Page.resources page),
                         fold_left Z.add (Page.resources page) 0%Z) ;;
  lcpResult <- evaluate (lcpResult (Page.lcp page)) ;;
  let lcp := orQ (fst lcpResult) 0 in
  let lcpEntry := snd lcpResult in
  let count := fst resources in
  let totalSize := snd resources in
  modify (setPerformanceMetrics
            (PerformanceMetrics.mk loadTime
               (NavigationTiming.domContentLoaded metrics)
               (NavigationTiming.firstPaint metrics)
               (NavigationTiming.firstContentfulPaint metrics)
               lcp lcpEntry totalSize count)) ;;
  addResult "Performance" "Page Load Time"
    (loadStatus loadTime) (loadScore loadTime)
    ("Page loaded in " ++ JS.string_of_Z loadTime ++ "ms. Recommended: < 3000ms")
    (loadSeverity loadTime) None None ;;
  let lcpScore : Q :=
    (if JS.Qltb lcp 2500 then 10 else if JS.Qltb lcp 4000 then 7 else 4)%Q in
  addResult "Performance" "Largest Contentful Paint"
    (if JS.Qltb lcp 2500 then pass else if JS.Qltb lcp 4000 then warning else fail)
    lcpScore
    ("LCP: " ++ JS.string_of_Z (JS.mathRound lcp) ++ "ms. Recommended: < 2500ms")
    (if JS.Qltb 4000 lcp then high else medium) None None ;;
  let sizeScore : Q :=
    (if (totalSize <? 3000000)%Z then 10
    else if (totalSize <? 5000000)%Z then 7 else 4)%Q in
  addResult "Performance" "Total Page Size"
    (if (totalSize <? 3000000)%Z then pass else warning)
    sizeScore
    ("Total size: "
       ++ JS.toFixedQ 2 (inject_Z totalSize / 1024 / 1024)
       ++ "MB, " ++ JS.string_of_nat count ++ " requests")
    low None None.

(** *** Visual hierarchy *)

Definition headingTags : list string := ["h1"; "h2"; "h3"; "h4"; "h5"; "h6"].

(** [!img.alt || img.alt.trim() === ''] *)
Definition missingAlt (img : Img.t) : bool :=
  negb (JS.truthy (Img.alt img)) || (JS.trim (Img.alt img) =? "").

Definition imgSelector (img : Img.t) (i : nat) : string :=
  if JS.truthy (Img.id img) then "#" ++ Img.id img
  else if JS.truthy (Img.className img)
  then "." ++ JS.firstWord (Img.className img)
  else "img:nth-of-type(" ++ JS.string_of_nat i ++ ")".

Definition altScore (withoutAlt : nat) : Q :=
  if (withoutAlt =? 0)%nat then 10
  else inject_Z (Z.max 0 (10 - Z.of_nat withoutAlt * 2)).

Definition testVisualHierarchy : M t unit :=
  env <- ask ;;
  let page := Env.page env in
  h1Count <- locatorCount page "h1" ;;
  addResult "Visual Design" "H1 Heading"
    (if (h1Count =? 1)%nat then pass else fail)
    (if (h1Count =? 1)%nat then 10 else 0)
    ("Found " ++ JS.string_of_nat h1Count ++ " H1 tag(s). Recommended: exactly 1")
    (if (h1Count =? 0)%nat then high else medium) None None ;;
  headings <- evaluate (map (fun tag => (tag, Page.tagCount page tag)) headingTags) ;;
  let hasProperHierarchy :=
    (0 <? snd (nth 0 headings ("", 0)))%nat
    && (0 <? snd (nth 1 headings ("", 0)))%nat in
  addResult "Visual Design" "Heading Hierarchy"
    (if hasProperHierarchy then pass else warning)
    (if hasProperHierarchy then 10 else 6)
    ("Heading structure: "
       ++ JS.join ", "
            (map (fun h => fst h ++ ":" ++ JS.string_of_nat (snd h)) headings))
    medium None None ;;
  images <- evaluate
    (let imgs := Page.images page in
     let withoutAlt := filter missingAlt imgs in
     (length imgs, length withoutAlt,
      JS.mapi imgSelector (JS.slice0 3 withoutAlt))) ;;
  let total := fst (fst images) in
  let withoutAlt := snd (fst images) in
  let missingAltSelectors := snd images in
  recordEvidence missingAltSelectors (fun selector =>
    ScreenshotAnalyzer.recordProblemArea page
      "Visual Design" "Image Alt Text" selector
      "Image missing alt text - impacts accessibility" high
      "Add descriptive alt text to all images for better accessibility"
      true) ;;
  addResult "Visual Design" "Image Alt Text"
    (if (withoutAlt =? 0)%nat then pass else fail)
    (altScore withoutAlt)
    (JS.string_of_nat withoutAlt ++ " out of " ++ JS.string_of_nat total
       ++ " images missing alt text")
    (if (0 <? withoutAlt)%nat then high else low) None None.

(** *** Navigation *)

Definition testNavigation : M t unit :=
  env <- ask ;;
  let page := Env.page env in
  navCount <- locatorCount page ("nav, [role=" ++ JS.quote "navigation" ++ "]") ;;
  let navExists := (0 <? navCount)%nat in
  addResult "Navigation" "Navigation Element"
    (if navExists then pass else fail)
    (if navExists then 10 else 0)
    (if navExists then "Navigation element found"
     else "No semantic navigation element found")
    high None None ;;
  logoExists <- evaluate (Page.logoExists page) ;;
  addResult "Navigation" "Logo/Home Link"
    (if logoExists then pass else warning)
    (if logoExists then 10 else 7)
    (if logoExists then "Logo/home link found" else "No clear home link found")
    medium None None ;;
  menuItems <- evaluate (Page.menuItems page) ;;
  addResult "Navigation" "Menu Items"
    (if (0 <? length menuItems)%nat then pass else fail)
    (if (2 <? length menuItems)%nat then 10 else 5)
    ("Found " ++ JS.string_of_nat (length menuItems) ++ " navigation links")
    medium None None ;;
  mobileMenuExists <- evaluate (Page.mobileMenuExists page) ;;
  addResult "Navigation" "Mobile Menu"
    (if mobileMenuExists then pass else warning)
    (if mobileMenuExists then 10 else 7)
    (if mobileMenuExists then "Mobile menu button found"
     else "No mobile menu button detected")
    medium None None.

(** *** Readability *)

Definition testReadability : M t unit :=
  env <- ask ;;
  let page := Env.page env in
  textMetrics <- evaluate (Page.textMetrics page) ;;
  let minFontSize := TextMetrics.minFontSize textMetrics in
  let avgLineHeight := TextMetrics.avgLineHeight textMetrics in
  let fontSizeScore : Q :=
    (if JS.geb minFontSize 16 then 10 else if JS.geb minFontSize 14 then 7 else 4)%Q in
  addResult "Readability" "Font Size"
    (if JS.geb minFontSize 16 then pass else warning)
    fontSizeScore
    ("Minimum font size: " ++ JS.toFixed 1 minFontSize ++ "px. Recommended: >= 16px")
    (if JS.ltb minFontSize 14 then high else medium) None None ;;
  let lineHeightScore : Q :=
    (if Qle_bool (3 # 2) avgLineHeight then 10
    else if Qle_bool (13 # 10) avgLineHeight then 7 else 4)%Q in
  addResult "Readability" "Line Height"
    (if Qle_bool (3 # 2) avgLineHeight then pass else warning)
    lineHeightScore
    ("Average line height: " ++ JS.toFixedQ 2 avgLineHeight ++ ". Recommended: >= 1.5")
    low None None ;;
  hasOverflow <- evaluate (Page.overflowCount page) ;;
  addResult "Readability" "Text Overflow"
    (if (hasOverflow =? 0)%nat then pass else warning)
    (if (hasOverflow =? 0)%nat then 10 else 7)
    (if (0 <? hasOverflow)%nat
     then JS.string_of_nat hasOverflow ++ " elements with horizontal overflow detected"
     else "No overflow detected")
    medium None None.

(** *** Colour contrast *)

Definition contrastScore (issues : nat) : Q :=
  if (issues =? 0)%nat then 10
  else Qmax 0 (10 - inject_Z (Z.of_nat issues) * (1 # 2)).

Definition testColorContrast : M t unit :=
  env <- ask ;;
  let page := Env.page env in
  contrastIssues <- evaluate (Contrast.contrastIssues (Page.textElements page)) ;;
  recordEvidence (JS.slice0 2 contrastIssues) (fun issue =>
    ScreenshotAnalyzer.recordProblemArea page
      "Visual Design" "Color Contrast" (Contrast.selector issue)
      ("Text has low contrast ratio (" ++ Contrast.contrast issue
         ++ ":1, requires 4.5:1)")
      high
      "Increase contrast ratio to meet WCAG AA standards (4.5:1)"
      true) ;;
  let recommendations :=
    if (0 <? length contrastIssues)%nat
    then [ "Increase contrast ratio between text and background colors";
           "Use tools like WebAIM Color Contrast Checker to validate WCAG AA compliance (4.5:1)";
           "Consider using darker text on light backgrounds or lighter text on dark backgrounds" ]
    else [] in
  addResult "Visual Design" "Color Contrast (WCAG AA)"
    (if (length contrastIssues =? 0)%nat then pass else warning)
    (contrastScore (length contrastIssues))
    (if (length contrastIssues =? 0)%nat
     then "All text has sufficient contrast"
     else JS.string_of_nat (length contrastIssues)
            ++ " text elements have low contrast (< 4.5:1)")
    (if (5 <? length contrastIssues)%nat then high else medium)
    None (Some recommendations).

(** *** Call-to-action buttons *)

Definition ctaKeywords : list string :=
  [ "subscribe"; "contact"; "get started"; "learn more"; "download"; "buy";
    "register"; "sign up"; "join"; "submit" ].

Definition isCTA (btn : Button.t) : bool :=
  let text := JS.toLowerCase (Button.textContent btn) in
  existsb (fun kw => JS.includes text kw) ctaKeywords.

(** [rect.width < 80 || rect.height < 40] *)
Definition isSmallCTA (btn : Button.t) : bool :=
  JS.Qltb (BoundingBox.width (Button.rect btn)) 80
  || JS.Qltb (BoundingBox.height (Button.rect btn)) 40.

(** [rect.top < 0 || rect.top > window.innerHeight] *)
Definition notVisibleCTA (innerHeight : Q) (btn : Button.t) : bool :=
  JS.Qltb (BoundingBox.y (Button.rect btn)) 0
  || JS.Qltb innerHeight (BoundingBox.y (Button.rect btn)).

Definition hasAriaLabel (btn : Button.t) : bool :=
  match Button.ariaLabel btn with
  | Some l => JS.truthy l
  | None => false
  end.

Definition buttonSelector (btn : Button.t) (i : nat) : string :=
  if JS.truthy (Button.id btn) then "#" ++ Button.id btn
  else if JS.truthy (Button.className btn)
  then "." ++ JS.firstWord (Button.className btn)
  else "button:nth-of-type(" ++ JS.string_of_nat i ++ ")".

Module ButtonAnalysis.
Record t : Type := mk {
  totalCTAs : nat;
  smallCTAs : nat;
  smallCTASelectors : list string;
  notVisible : nat;
  withAriaLabel : nat
}.
End ButtonAnalysis.

(** The callback of [testCTAButtons]. *)
Definition buttonAnalysis (page : Page.t) : ButtonAnalysis.t :=
  let ctas := filter isCTA (Page.buttons page) in
  let smallCTAs := filter isSmallCTA ctas in
  ButtonAnalysis.mk
    (length ctas)
    (length smallCTAs)
    (JS.mapi buttonSelector (JS.slice0 1 smallCTAs))
    (length (filter (notVisibleCTA (Page.innerHeight page)) ctas))
    (length (filter hasAriaLabel ctas)).

Definition ctaRecommendations (a : ButtonAnalysis.t) : list string :=
  ((if (0 <? ButtonAnalysis.smallCTAs a)%nat
    then [ "Increase CTA button size to at least 80x40px for better touch targets";
           "Ensure buttons are easily clickable on mobile devices (minimum 44x44px recommended)" ]
    else [])
   ++ (if (0 <? ButtonAnalysis.notVisible a)%nat
       then [ "Move CTA buttons above the fold to improve visibility";
              "Ensure primary CTAs are visible without scrolling on initial page load" ]
       else [])
   ++ (if (ButtonAnalysis.withAriaLabel a <? ButtonAnalysis.totalCTAs a)%nat
       then [ "Add proper aria-label attributes to all CTA buttons for accessibility" ]
       else []))%list.

Definition ctaDetails (a : ButtonAnalysis.t) : string :=
  "Found " ++ JS.string_of_nat (ButtonAnalysis.totalCTAs a)
    ++ " CTA buttons, " ++ JS.string_of_nat (ButtonAnalysis.smallCTAs a)
    ++ " are too small, " ++ JS.string_of_nat (ButtonAnalysis.notVisible a)
    ++ " not visible above fold".

Definition testCTAButtons : M t unit :=
  env <- ask ;;
  let page := Env.page env in
  buttonAnalysis <- evaluate (buttonAnalysis page) ;;
  recordEvidence (ButtonAnalysis.smallCTASelectors buttonAnalysis)
    (fun selector =>
       ScreenshotAnalyzer.recordProblemArea page
         "Interactive Elements" "CTA Buttons Size" selector
         "CTA button is too small (< 80x40px)" high
         "Increase button size to at least 80x40px for better usability"
         true) ;;
  let visibility :=
    if (ButtonAnalysis.notVisible buttonAnalysis
        <? ButtonAnalysis.totalCTAs buttonAnalysis)%nat
    then pass else warning in
  let recommendations := ctaRecommendations buttonAnalysis in
  addResult "Interactive Elements" "Call-to-Action Buttons"
    visibility
    (if (0 <? ButtonAnalysis.totalCTAs buttonAnalysis)%nat
     then (if (ButtonAnalysis.notVisible buttonAnalysis =? 0)%nat then 10 else 7)
     else 5)
    (ctaDetails buttonAnalysis)
    (if (2 <? ButtonAnalysis.smallCTAs buttonAnalysis)%nat then high else medium)
    None
    (if (0 <? length recommendations)%nat then Some recommendations else None).

(** *** Keyboard navigation *)

Definition testKeyboardNavigation : M t unit :=
  env <- ask ;;
  let page := Env.page env in
  keyboardAnalysis <- evaluate (Page.keyboardAnalysis page) ;;
  let totalFocusable := KeyboardAnalysis.totalFocusable keyboardAnalysis in
  let withoutVisibleFocus := KeyboardAnalysis.withoutVisibleFocus keyboardAnalysis in
  let tabIndexIssues := KeyboardAnalysis.tabIndexIssues keyboardAnalysis in
  let recommendations :=
    ((if (0 <? withoutVisibleFocus)%nat
      then [ "Add visible focus indicators to all interactive elements";
             "Use CSS :focus or :focus-visible pseudo-classes with clear styling (outline, box-shadow, or border)";
             "Ensure focus styles have sufficient contrast to be visible" ]
      else [])
     ++ (if (0 <? tabIndexIssues)%nat
         then [ "Avoid using positive tabindex values; let natural HTML order define tab sequence";
                ("Use tabindex=" ++ JS.quote "0"
                  ++ " for elements that need focus but are not naturally focusable")%string ]
         else []))%list in
  addResult "Accessibility" "Keyboard Navigation"
    (if (3 <? totalFocusable)%nat then pass else warning)
    (inject_Z (Z.of_nat (Nat.min 10 totalFocusable)))
    (JS.string_of_nat totalFocusable ++ " focusable elements, "
       ++ JS.string_of_nat withoutVisibleFocus ++ " without visible focus, "
       ++ JS.string_of_nat tabIndexIssues ++ " with positive tabindex")
    (if (5 <? withoutVisibleFocus)%nat then high else medium)
    None
    (if (0 <? length recommendations)%nat then Some recommendations else None).

(** *** SEO basics *)

Definition testSEOBasics : M t unit :=
  env <- ask ;;
  let page := Env.page env in
  seoAnalysis <- evaluate (Page.seoAnalysis page) ;;
  let hasMetaDescription := SeoAnalysis.hasMetaDescription seoAnalysis in
  let descLength := String.length (SeoAnalysis.metaDescription seoAnalysis) in
  let title := SeoAnalysis.title seoAnalysis in
  let titleLength := SeoAnalysis.titleLength seoAnalysis in
  let descScore : Q :=
    (if hasMetaDescription && (120 <=? descLength)%nat && (descLength <=? 160)%nat
    then 10 else 7)%Q in
  let descRecommendations :=
    ((if negb hasMetaDescription
      then [ "Add a meta description tag in the <head> section" ] else [])
     ++ (if (descLength <? 120)%nat || (160 <? descLength)%nat
         then [ "Keep meta description between 120-160 characters for optimal display in search results" ]
         else []))%list in
  addResult "SEO" "Meta Description"
    (if hasMetaDescription then pass else fail)
    descScore
    (if hasMetaDescription
     then "Found (" ++ JS.string_of_nat descLength ++ " chars)"
     else "Missing meta description")
    (if hasMetaDescription then low else high)
    None
    (if (0 <? length descRecommendations)%nat then Some descRecommendations else None) ;;
  let titleScore : Q :=
    (if (30 <=? titleLength)%nat && (titleLength <=? 60)%nat then 10 else 7)%Q in
  let titleRecommendations :=
    ((if negb (JS.truthy title) || (titleLength =? 0)%nat
      then [ "Add a meaningful page title in the <head> section" ] else [])
     ++ (if (titleLength <? 30)%nat || (60 <? titleLength)%nat
         then [ "Keep page title between 30-60 characters for optimal search result display" ]
         else []))%list in
  addResult "SEO" "Page Title"
    (if JS.truthy title then pass else fail)
    titleScore
    (JS.quote (substring 0 50 title ++ "...") ++ " ("
       ++ JS.string_of_nat titleLength ++ " chars)")
    low None
    (if (0 <? length titleRecommendations)%nat then Some titleRecommendations else None) ;;
  let hasCanonical := SeoAnalysis.hasCanonical seoAnalysis in
  addResult "SEO" "Canonical Tag"
    (if hasCanonical then pass else warning)
    (if hasCanonical then 10 else 7)
    (if hasCanonical then "Canonical tag present" else "No canonical tag found")
    low None
    (if hasCanonical then None
     else Some [ "Add a canonical tag to prevent duplicate content issues" ]) ;;
  let hasStructuredData := SeoAnalysis.hasStructuredData seoAnalysis in
  addResult "SEO" "Structured Data"
    (if hasStructuredData then pass else warning)
    (if hasStructuredData then 10 else 5)
    (if hasStructuredData then "JSON-LD structured data found"
     else "No structured data detected")
    medium None
    (if hasStructuredData then None
     else Some [ "Add JSON-LD structured data (schema.org) to help search engines understand your content" ]).

(** *** Forms *)

Definition testForms : M t unit :=
  env <- ask ;;
  let page := Env.page env in
  formAnalysis <- evaluate (Page.formAnalysis page) ;;
  let inputCount := FormAnalysis.inputCount formAnalysis in
  let inputsWithLabelsCount := FormAnalysis.inputsWithLabelsCount formAnalysis in
  let placeholderCount := FormAnalysis.placeholderCount formAnalysis in
  if (FormAnalysis.formCount formAnalysis =? 0)%nat
  then addResult "Forms" "Form Existence" pass 10
         "No forms found on this page" low None None
  else
    let labelScore : Q :=
      (if (inputsWithLabelsCount =? inputCount)%nat then 10
      else if (0 <? inputsWithLabelsCount)%nat then 5 else 0)%Q in
    addResult "Forms" "Input Labels"
      (if (inputsWithLabelsCount =? inputCount)%nat then pass else fail)
      labelScore
      (JS.string_of_nat inputsWithLabelsCount ++ " out of "
         ++ JS.string_of_nat inputCount ++ " inputs have associated labels")
      (if (inputsWithLabelsCount <? inputCount)%nat then high else low)
      None None ;;
    addResult "Forms" "Required Fields" pass 10
      (JS.string_of_nat (FormAnalysis.requiredCount formAnalysis)
         ++ " required fields marked")
      low None None ;;
    addResult "Forms" "Placeholder Text"
      (if (0 <? placeholderCount)%nat then pass else warning)
      (if (0 <? placeholderCount)%nat then 10 else 7)
      (JS.string_of_nat placeholderCount ++ " inputs have placeholder text")
      low None None.

(** *** Interactive elements *)

Definition testInteractiveElements : M t unit :=
  env <- ask ;;
  let page := Env.page env in
  interactiveAnalysis <- evaluate (Page.interactiveAnalysis page) ;;
  let buttonCount := InteractiveAnalysis.buttonCount interactiveAnalysis in
  let linkCount := InteractiveAnalysis.linkCount interactiveAnalysis in
  let smallTouchTargetCount :=
    InteractiveAnalysis.smallTouchTargetCount interactiveAnalysis in
  addResult "Interactive Elements" "Buttons"
    (if (0 <? buttonCount)%nat then pass else warning)
    (if (0 <? buttonCount)%nat then 10 else 7)
    ("Found " ++ JS.string_of_nat buttonCount ++ " buttons")
    low None None ;;
  addResult "Interactive Elements" "Links"
    (if (0 <? linkCount)%nat then pass else warning)
    (if (0 <? linkCount)%nat then 10 else 7)
    ("Found " ++ JS.string_of_nat linkCount ++ " links ("
       ++ JS.string_of_nat (InteractiveAnalysis.externalLinkCount interactiveAnalysis)
       ++ " external)")
    low None None ;;
  let touchScore : Q :=
    (if (smallTouchTargetCount =? 0)%nat then 10
    else if (smallTouchTargetCount <? 3)%nat then 7 else 4)%Q in
  addResult "Interactive Elements" "Touch Target Size"
    (if (smallTouchTargetCount =? 0)%nat then pass else warning)
    touchScore
    (JS.string_of_nat smallTouchTargetCount ++ " buttons/links smaller than 44x44px")
    (if (3 <? smallTouchTargetCount)%nat then high else medium)
    None None.

(** *** Responsive design *)

(** [/mobile|iphone|android|s21/i.test(name) || width <= 420] *)
Definition isMobile (device : Device.t) : bool :=
  let name := JS.toLowerCase (Device.name device) in
  existsb (fun kw => JS.includes name kw) ["mobile"; "iphone"; "android"; "s21"]
  || (Device.width device <=? 420)%Z.

(** [this.browser.newContext(...)]: the new context's handle. *)
Definition newContext : M t nat :=
  pageOp ;;
  w <- getWorld ;;
  modifyWorld World.openContext ;;
  ret (World.nextContext w).

(** [ctx.close()] *)
Definition closeContext (ctx : nat) : M t unit :=
  pageOp ;; modifyWorld (World.closeContext ctx).

(** The body of the loop of [testResponsive], for one device. *)
Definition testDevice (device : Device.t) : M t unit :=
  tryCatch
    (env <- ask ;;
     let view := Env.devicePage env device in
     let isMobile := isMobile device in
     ctx <- newContext ;;
     pageOp ;;
     pageOp ;;
     hasHorizontalScroll <- evaluate (DevicePage.hasHorizontalScroll view) ;;
     let issues1 :=
       if hasHorizontalScroll then [ "Horizontal scrollbar detected" ] else [] in
     textTooSmall <- evaluate (DevicePage.textTooSmall view) ;;
     let issues2 :=
       if (5 <? textTooSmall)%nat
       then (issues1 ++ [ (JS.string_of_nat textTooSmall
                             ++ " text elements smaller than 14px")%string ])%list
       else issues1 in
     issues <-
       (if isMobile
        then
          smallTargets <- evaluate (DevicePage.smallTargets view) ;;
          ret (if (0 <? smallTargets)%nat
               then (issues2 ++ [ (JS.string_of_nat smallTargets
                                     ++ " touch targets smaller than 44x44")%string ])%list
               else issues2)
        else ret issues2) ;;
     t0 <- now ;;
     let screenshotPath :=
       Config.screenshotsDir ++ "/" ++ JS.replaceSpaces false (Device.name device)
         ++ "-" ++ JS.string_of_Z t0 ++ ".png" in
     screenshot screenshotPath ;;
     modify (pushResponsiveResult
               (ResponsiveTestResult.mk (Device.name device) (Device.width device)
                  (Device.height device) issues (Some screenshotPath))) ;;
     let deviceScore : Q :=
       (if (length issues =? 0)%nat then 10
       else if (length issues =? 1)%nat then 7 else 5)%Q in
     addResult "Responsive Design" (Device.name device)
       (if (length issues =? 0)%nat then pass else warning)
       deviceScore
       (if (length issues =? 0)%nat then "No issues detected" else JS.join ", " issues)
       (if (1 <? length issues)%nat then medium else low)
       None None ;;
     pageOp ;;
     closeContext ctx)
    (fun err =>
       addResult "Responsive Design" (Device.name device) warning 5
         "Could not fully test responsive design for this device" low None None).

(** [testResponsive] over a list of devices. *)
Definition testResponsiveOn (devices : list Device.t) : M t unit :=
  forEach devices testDevice.

Definition testResponsive : M t unit := testResponsiveOn Config.devices.

(** *** Accessibility *)

Definition axeUrl : string :=
  "https://cdnjs.cloudflare.com/ajax/libs/axe-core/4.7.2/axe.min.js".

(** [this.page.addScriptTag(...)] *)
Definition addScriptTag (src : ScriptSource) : M t unit :=
  modifyWorld (World.requestScript src) ;;
  pageOp ;;
  modifyWorld (World.addScript src).

(** [this.page.evaluate(() => typeof window.axe !== 'undefined')] *)
Definition axeDefined : M t bool :=
  pageOp ;;
  env <- ask ;;
  w <- getWorld ;;
  ret (existsb (Env.definesAxe env) (World.scriptTags w)).

(** [require.resolve('axe-core/axe.min.js')] *)
Definition requireResolve : M t string :=
  env <- ask ;;
  match Env.localAxePath env with
  | Some path => ret path
  | None => throw (ModuleNotFound "axe-core/axe.min.js")
  end.

Definition ruleRecommendations : list (string * string) :=
  [ ("button-name",
     "Ensure buttons with only icons have accessible names (aria-label or visually hidden text)");
    ("aria-input-field-name",
     "Provide accessible names for form inputs (label element or aria-label)");
    ("color-contrast",
     "Increase color contrast to meet WCAG AA (4.5:1 for normal text)");
    ("scrollable-region-focusable",
     "Ensure scrollable regions are keyboard focusable and have a visible focus indicator") ].

Definition ruleRecommendation (id : string) : option string :=
  match find (fun kv => fst kv =? id) ruleRecommendations with
  | Some kv => Some (snd kv)
  | None => None
  end.

(** The body of [violations.forEach]. *)
Definition recordViolation (violation : Violation.t) : M t unit :=
  let target :=
    match Violation.nodes violation with
    | [] => None
    | node :: _ => Some (JS.join ", " node)
    end in
  modify (pushAccessibilityIssue
            (AccessibilityIssue.mk
               (Violation.id violation)
               (Violation.impact violation)
               (match target with
                | Some s => JS.orElse s "Unknown"
                | None => "Unknown"
                end)
               (Violation.description violation)
               (JS.join ", "
                  (filter (fun tag => JS.startsWith tag "wcag")
                     (Violation.tags violation))))) ;;
  match ruleRecommendation (Violation.id violation) with
  | Some recommendation =>
      addResult "Accessibility" (Violation.id violation) fail 0
        (Violation.help violation ++ ": "
           ++ match target with Some s => s | None => "undefined" end)
        high None (Some [recommendation])
  | None => ret tt
  end.

(** [focusedSelectors.add(desc)] *)
Definition setAdd (desc : string) (seen : list string) : list string :=
  if existsb (String.eqb desc) seen then seen else (seen ++ [desc])%list.

(** [for (let i = ...; i < 30; i++)] with [n] rounds left. *)
Fixpoint pressTab (n i : nat) (focusedSelectors : list string)
  : M t (list string) :=
  match n with
  | O => ret focusedSelectors
  | S n' =>
      pageOp ;;
      env <- ask ;;
      desc <- evaluate (Page.focusAfterTab (Env.page env) i) ;;
      pressTab n' (S i) (setAdd (JS.orElse desc "none") focusedSelectors)
  end.

Definition landmarkRoles : list string :=
  [ "banner"; "navigation"; "main"; "contentinfo"; "complementary" ].

(** [i.severity === 'critical' || i.severity === 'serious'] *)
Definition isCritical (i : AccessibilityIssue.t) : bool :=
  (AccessibilityIssue.severity i =? "critical")
  || (AccessibilityIssue.severity i =? "serious").

(** The first part of [testAccessibility]: load axe-core, the CDN first
    and then the local package; the value is [axeLoaded]. *)
Definition loadAxe : M t bool :=
  axeLoaded <-
    tryCatch (addScriptTag (CDN axeUrl) ;; axeDefined) (fun _ => ret false) ;;
  if negb axeLoaded
  then tryCatch
         (axePath <- requireResolve ;;
          addScriptTag (LocalPackage axePath) ;;
          axeDefined)
         (fun _ => ret false)
  else ret axeLoaded.

(** [if (axeLoaded) { ... } else { ... }] *)
Definition runAxe (axeLoaded : bool) : M t unit :=
  if axeLoaded
  then
    env <- ask ;;
    axeResults <- evaluate (Page.violations (Env.page env)) ;;
    let violations :=
      match axeResults with Some l => l | None => [] end in
    forEach violations recordViolation
  else
    addResult "Accessibility" "axe-core" warning 5
      "axe-core could not be loaded; accessibility automated checks were limited"
      low None None.

(** The keyboard navigation block. *)
Definition checkTabOrder : M t unit :=
  tryCatch
    (focusedSelectors <- pressTab 30 0 [] ;;
     let size := length focusedSelectors in
     addResult "Accessibility" "Keyboard Navigation"
       (if (1 <? size)%nat then pass else fail)
       (if (1 <? size)%nat then 10 else 0)
       (JS.string_of_nat size ++ " distinct focus targets reached via Tab")
       (if (1 <? size)%nat then low else high) None None)
    (fun _ =>
       addResult "Accessibility" "Keyboard Navigation" warning 5
         "Could not simulate keyboard navigation" low None None).

(** The skip link block. *)
Definition checkSkipLink : M t unit :=
  tryCatch
    (env <- ask ;;
     hasSkipLink <- evaluate (Page.hasSkipLink (Env.page env)) ;;
     addResult "Accessibility" "Skip Link"
       (if hasSkipLink then pass else warning)
       (if hasSkipLink then 10 else 7)
       (if hasSkipLink then "Skip link present"
        else "Consider adding a " ++ JS.quote "skip to content"
               ++ " link for keyboard users")
       (if hasSkipLink then low else medium) None None)
    (fun _ =>
       addResult "Accessibility" "Skip Link" warning 5
         "Could not test for skip link" low None None).

(** The language attribute block. *)
Definition checkLang : M t unit :=
  tryCatch
    (env <- ask ;;
     hasLang <- evaluate (Page.hasLang (Env.page env)) ;;
     addResult "Accessibility" "Language Attribute"
       (if hasLang then pass else fail)
       (if hasLang then 10 else 0)
       (if hasLang then "Language attribute present"
        else "Missing lang attribute on <html>")
       high None None)
    (fun _ =>
       addResult "Accessibility" "Language Attribute" warning 5
         "Could not test language attribute" low None None).

(** The ARIA landmarks block. *)
Definition checkLandmarks : M t unit :=
  tryCatch
    (env <- ask ;;
     landmarks <- evaluate
       (map (fun role => (role, Page.landmarkCount (Env.page env) role))
          landmarkRoles) ;;
     let hasMainLandmark :=
       existsb (fun l => (fst l =? "main") && (0 <? snd l)%nat) landmarks in
     addResult "Accessibility" "ARIA Landmarks"
       (if hasMainLandmark then pass else warning)
       (if hasMainLandmark then 10 else 7)
       ("Landmarks found: "
          ++ JS.join ", "
               (map fst (filter (fun l => (0 <? snd l)%nat) landmarks)))
       medium None None)
    (fun _ =>
       addResult "Accessibility" "ARIA Landmarks" warning 5
         "Could not test ARIA landmarks" low None None).

(** The overall accessibility score. *)
Definition scoreAccessibility : M t unit :=
  issues <- gets accessibilityIssues ;;
  let criticalCount := length (filter isCritical issues) in
  let accessibilityScore : Q :=
    (if (criticalCount =? 0)%nat then 10
     else if (criticalCount <=? 2)%nat then 7
     else if (criticalCount <=? 5)%nat then 4 else 1)%Q in
  addResult "Accessibility" "Overall A11y Issues"
    (if (criticalCount =? 0)%nat then pass
     else if (criticalCount <=? 2)%nat then warning else fail)
    accessibilityScore
    (JS.string_of_nat (length issues) ++ " total issues ("
       ++ JS.string_of_nat criticalCount ++ " critical/serious)")
    (if (2 <? criticalCount)%nat then high else medium) None None.

Definition testAccessibility : M t unit :=
  tryCatch
    (axeLoaded <- loadAxe ;;
     runAxe axeLoaded ;;
     checkTabOrder ;;
     checkSkipLink ;;
     checkLang ;;
     checkLandmarks ;;
     scoreAccessibility)
    (fun _ =>
       addResult "Accessibility" "Overall A11y Issues" warning 5
         "Accessibility testing could not be fully completed" low None None).

(** *** Recommendations *)

Definition isHighPriority (r : TestResult.t) : bool :=
  Severity_eqb (TestResult.severity r) high && Status_eqb (TestResult.status r) fail.

Definition isMediumPriority (r : TestResult.t) : bool :=
  Severity_eqb (TestResult.severity r) medium && Status_eqb (TestResult.status r) fail.

Definition itemize (issue : TestResult.t) : string :=
  "   • " ++ TestResult.category issue ++ " - " ++ TestResult.test issue
    ++ ": " ++ TestResult.details issue.

Definition generalBestPractices : list string :=
  [ "📊 Consider implementing user analytics to track real user behavior";
    "🔍 Conduct user testing with real users to validate these findings";
    "✅ Create a prioritized action plan based on severity and business impact" ].

(** [recommendations.push(...items)] when [c] holds. *)
Definition pushIf (c : bool) (items : list string) (recommendations : list string)
  : list string :=
  if c then (recommendations ++ items)%list else recommendations.

Definition highPriorityHeader (n : nat) : string :=
  "🔴 HIGH PRIORITY: Found " ++ JS.string_of_nat n
    ++ " critical issues that need immediate attention".

Definition loadTimeAdvice : string :=
  "⚡ Optimize page load time by compressing images, minifying CSS/JS, and enabling caching".

Definition lcpAdvice : string :=
  "⚡ Improve Largest Contentful Paint (LCP) by optimizing above-the-fold content".

Definition lcpResourceAdvice (lcpUrl : string) : string :=
  "⚡ Consider optimizing LCP resource: " ++ lcpUrl
    ++ " — compress/convert (AVIF/WebP), resize to display size, or preload if it is the hero image".

Definition altTextAdvice : string :=
  "♿ Add descriptive alt text to all images for better accessibility".

Definition responsiveAdvice (devices : list string) : string :=
  "📱 Fix responsive design issues on " ++ JS.join ", " devices.

Definition criticalA11yAdvice (n : nat) : string :=
  "♿ Address " ++ JS.string_of_nat n
    ++ " critical accessibility issues for WCAG compliance".

Definition mediumPriorityAdvice (n : nat) : string :=
  "🟡 MEDIUM PRIORITY: " ++ JS.string_of_nat n
    ++ " issues that should be addressed soon".

(** [this.results.find(r => r.test === 'Image Alt Text' && r.status === 'fail')] *)
Definition isMissingAlt (r : TestResult.t) : bool :=
  (TestResult.test r =? "Image Alt Text") && Status_eqb (TestResult.status r) fail.

Definition hasIssues (r : ResponsiveTestResult.t) : bool :=
  (0 <? length (ResponsiveTestResult.issues r))%nat.

(** The URL of the stored LCP entry, when both are truthy. *)
Definition lcpUrlOf (metrics : PerformanceMetrics.t) : option string :=
  match PerformanceMetrics.largestContentfulPaintEntry metrics with
  | Some entry =>
      match LargestContentfulPaintEntry.url entry with
      | Some lcpUrl => if JS.truthy lcpUrl then Some lcpUrl else None
      | None => None
      end
  | None => None
  end.

Definition recommendationsOf (s : t) : list string :=
  let recommendations : list string := [] in
  let highPriorityIssues := filter isHighPriority (results s) in
  let mediumPriorityIssues := filter isMediumPriority (results s) in
  let metrics := performanceMetrics s in
  let recommendations :=
    pushIf (0 <? length highPriorityIssues)%nat
      (highPriorityHeader (length highPriorityIssues)
         :: map itemize (JS.slice0 3 highPriorityIssues))
      recommendations in
  let recommendations :=
    pushIf (PerformanceMetrics.loadTime metrics >? 3000)%Z
      [ loadTimeAdvice ] recommendations in
  let recommendations :=
    pushIf (JS.Qltb 2500 (PerformanceMetrics.largestContentfulPaint metrics))
      [ lcpAdvice ] recommendations in
  let recommendations :=
    match lcpUrlOf metrics with
    | Some lcpUrl => pushIf true [ lcpResourceAdvice lcpUrl ] recommendations
    | None => recommendations
    end in
  let missingAltImages := find isMissingAlt (results s) in
  let recommendations :=
    pushIf (match missingAltImages with Some _ => true | None => false end)
      [ altTextAdvice ] recommendations in
  let responsiveIssues := filter hasIssues (responsiveResults s) in
  let recommendations :=
    pushIf (0 <? length responsiveIssues)%nat
      [ responsiveAdvice (map ResponsiveTestResult.device responsiveIssues) ]
      recommendations in
  let criticalA11yIssues := filter isCritical (accessibilityIssues s) in
  let recommendations :=
    pushIf (0 <? length criticalA11yIssues)%nat
      [ criticalA11yAdvice (length criticalA11yIssues) ] recommendations in
  let recommendations :=
    pushIf (5 <? length mediumPriorityIssues)%nat
      [ mediumPriorityAdvice (length mediumPriorityIssues) ] recommendations in
  (recommendations ++ generalBestPractices)%list.

Definition generateRecommendations : M t (list string) := gets recommendationsOf.

(** *** Report *)

(** [this.results.reduce((sum, r) => sum + r.score, 0)] *)
Definition totalScore (results : list TestResult.t) : Q :=
  fold_left (fun sum r => (sum + TestResult.score r)%Q) results 0%Q.

Definition maxScore (results : list TestResult.t) : Q :=
  (inject_Z (Z.of_nat (length results)) * 10)%Q.

(** [Math.round((totalScore / maxScore) * 100)] *)
Definition overallScore (results : list TestResult.t) : JS.number :=
  JS.round (JS.mul (JS.div (totalScore results) (maxScore results)) 100).

Definition generateReport : M t UXReport.t :=
  s <- get ;;
  let overallScore := overallScore (results s) in
  recommendations <- generateRecommendations ;;
  testDate <- now ;;
  ret (UXReport.mk Config.url testDate overallScore (results s)
         (performanceMetrics s) (accessibilityIssues s) (responsiveResults s)
         recommendations).

(** *** Main test runner *)

(** [this.page.goto(config.url, ...)] *)
Definition goto : M t unit := pageOp.

Definition runAllTests : M t UXReport.t :=
  tryFinally
    (tryCatch
       (initialize ;;
        goto ;;
        testPerformance ;;
        testVisualHierarchy ;;
        testColorContrast ;;
        testNavigation ;;
        testReadability ;;
        testCTAButtons ;;
        testForms ;;
        testInteractiveElements ;;
        testKeyboardNavigation ;;
        testSEOBasics ;;
        testResponsive ;;
        testAccessibility ;;
        report <- generateReport ;;
        ret report)
       (fun error => throw error))
    cleanup.

(** The probes, in the order in which [runAllTests] calls them. *)
Definition probes : list (M t unit) :=
  [ testPerformance; testVisualHierarchy; testColorContrast; testNavigation;
    testReadability; testCTAButtons; testForms; testInteractiveElements;
    testKeyboardNavigation; testSEOBasics; testResponsive; testAccessibility ].

(** [await p1(); await p2(); ...] *)
Definition inOrder (l : list (M t unit)) : M t unit := forEach l (fun p => p).

(** The body of the [try] of [runAllTests]: setup, the probes in order,
    the report. *)
Definition attempt : M t UXReport.t :=
  initialize ;; goto ;; inOrder probes ;; generateReport.

(** Run a method on a fresh tester in a fresh world. *)
Definition run {A} (m : M t A) (env : Env.t) : result A * World.t * t :=
  m env World.initial new.

End UXUITester.

(** ** Concrete pages and environments *)

Module Fixture.

Definition box (x y w h : Q) : BoundingBox.t := BoundingBox.mk x y w h.

(** A page on which no selector matches and every count is zero. *)
Definition blankPage : Page.t :=
  Page.mk
    (fun _ => Some [])
    (NavigationTiming.mk 0 0 0)
    []
    None
    (fun _ => 0)
    []
    false
    []
    false
    (TextMetrics.mk 0 (JS.Infinity false) 0 0)
    0
    []
    []
    1080
    (KeyboardAnalysis.mk 0 0 0)
    (SeoAnalysis.mk false "" false false false false false "")
    (FormAnalysis.mk 0 0 0 0 0)
    (InteractiveAnalysis.mk 0 0 0 0)
    (Some [])
    (fun _ => "BODY")
    false
    false
    (fun _ => 0).

Definition getStarted : Button.t :=
  Button.mk "Get Started" "" "" (box 100 200 60 30) None.

Definition navSelector : string := "nav, [role=" ++ JS.quote "navigation" ++ "]".

(** One [<h1>], two images of which the second has no alt text, a [<nav>]
    with three links, and a 60x30 button labelled Get Started. *)
Definition scenarioPage : Page.t :=
  Page.mk
    (fun selector =>
       if selector =? "h1" then Some [Some (box 0 0 800 60)]
       else if selector =? navSelector then Some [Some (box 0 60 800 40)]
       else if selector =? "img:nth-of-type(0)" then Some []
       else if selector =? "button:nth-of-type(0)" then Some []
       else Some [])
    (NavigationTiming.mk 12 300 320)
    [1200; 34000]%Z
    None
    (fun tag => if tag =? "h1" then 1 else 0)
    [ Img.mk "Company logo" "" ""; Img.mk "" "" "" ]
    true
    [ MenuItem.mk "Home" "/"; MenuItem.mk "About" "/about";
      MenuItem.mk "Contact" "/contact" ]
    false
    (TextMetrics.mk 16 (JS.Finite 16) (3 # 2) 4)
    0
    [ TextElement.mk "BUTTON" "" "" "Get Started" "rgb(0, 0, 0)" "rgba(0, 0, 0, 0)" ]
    [ getStarted ]
    1080
    (KeyboardAnalysis.mk 4 0 0)
    (SeoAnalysis.mk false "" false false false false true "Fixture")
    (FormAnalysis.mk 0 0 0 0 0)
    (InteractiveAnalysis.mk 1 3 0 1)
    (Some [])
    (fun i => if (i mod 2 =? 0)%nat then "A" else "BUTTON")
    false
    true
    (fun _ => 0).

Definition localAxe : string := "node_modules/axe-core/axe.min.js".

(** No operation rejects; both copies of the audit engine are usable. *)
Definition quiet (page : Page.t) : Env.t :=
  Env.mk (fun _ => false)
    (fun n => (1700000000000 + Z.of_nat n)%Z)
    page
    (fun _ => DevicePage.mk false 0 0)
    (fun _ => true)
    (Some localAxe).

(** As [quiet], with 3000 ms between two readings of the clock. *)
Definition slow (page : Page.t) : Env.t :=
  Env.mk (fun _ => false)
    (fun n => (1700000000000 + 3000 * Z.of_nat n)%Z)
    page
    (fun _ => DevicePage.mk false 0 0)
    (fun _ => true)
    (Some localAxe).

(** As [quiet], but operation number [k] rejects. *)
Definition failingAt (k : nat) (page : Page.t) : Env.t :=
  Env.mk (fun n => (n =? k)%nat)
    (fun n => (1700000000000 + Z.of_nat n)%Z)
    page
    (fun _ => DevicePage.mk false 0 0)
    (fun _ => true)
    (Some localAxe).

(** As [quiet], but neither copy of the audit engine defines [axe] and the
    local package is not installed. *)
Definition withoutAxe (page : Page.t) : Env.t :=
  Env.mk (fun _ => false)
    (fun n => (1700000000000 + Z.of_nat n)%Z)
    page
    (fun _ => DevicePage.mk false 0 0)
    (fun _ => false)
    None.

End Fixture.

(** ** Properties stated below: their vocabulary *)

(** Every run of [m] takes a world and a state to related ones, whether it
    returns or throws. *)
Definition preserves {St A : Type} (R : relation (World.t * St)) (m : M St A)
  : Prop :=
  forall env w s, R (w, s) (snd (fst (m env w s)), snd (m env w s)).

(** In the environment [env], [m] returns and does not throw. *)
Definition succeeds {St A : Type} (env : Env.t) (m : M St A) : Prop :=
  forall w s, exists a w' s', m env w s = (Ok a, w', s').

(** No page operation rejects. *)
Definition faultless (env : Env.t) : Prop :=
  forall n, Env.fault env n = false.

(** A relation on worlds and one on states, together. *)
Definition both {St : Type} (Rw : relation World.t) (Rs : relation St)
  : relation (World.t * St) :=
  fun before after => Rw (fst before) (fst after) /\ Rs (snd before) (snd after).

(** The browser is neither launched nor closed. *)
Definition sameBrowser : relation World.t :=
  fun w w' => World.browserOpen w' = World.browserOpen w.

(** Neither the browser nor the log of requested scripts changes. *)
Definition sameScripts : relation World.t :=
  fun w w' =>
    World.browserOpen w' = World.browserOpen w
    /\ World.scriptRequests w' = World.scriptRequests w
    /\ World.scriptTags w' = World.scriptTags w.

(** Findings are only appended. *)
Definition grows : relation UXUITester.t :=
  fun s s' =>
    exists added, UXUITester.results s' = (UXUITester.results s ++ added)%list.

(** The findings are as they were. *)
Definition sameResults : relation UXUITester.t :=
  fun s s' =>
    UXUITester.results s' = UXUITester.results s
    /\ UXUITester.responsiveResults s' = UXUITester.responsiveResults s.

(** Any state of the analyzer is related to any other. *)
Definition anyAnalyzer : relation ScreenshotAnalyzer.t := fun _ _ => True.

Module Evidence.

(** Every problem area holds at least one issue. *)
Definition nonEmptyAreas (a : ScreenshotAnalyzer.t) : Prop :=
  Forall (fun pa => ProblemArea.issues pa <> []) (ScreenshotAnalyzer.problemAreas a).

(** The operations of the analyzer that touch the browser or the recorded
    areas, each with its arguments.  The other methods (the summaries and
    the export to a file) only read the areas. *)
Inductive Op : Type :=
| OpStore (category test : string) (issue : ElementIssue.t)
| OpRecord (page : Page.t) (category test selector description : string)
    (severity : Severity) (recommendation : string) (takeScreenshot : bool)
| OpElementScreenshot (page : Page.t) (selector testName : string)
| OpFullPageScreenshot (testName : string)
| OpAnnotatedScreenshot (testName : string) (issues : list ElementIssue.t)
| OpGet
| OpHighSeverity
| OpClear.

(** Run one operation, dropping its value. *)
Definition step (env : Env.t) (op : Op) (st : World.t * ScreenshotAnalyzer.t)
  : World.t * ScreenshotAnalyzer.t :=
  let '(w, a) := st in
  match op with
  | OpStore c t i =>
      let '(_, w', a') := ScreenshotAnalyzer.storeProblemArea c t i env w a in (w', a')
  | OpRecord p c t sel d sev r shot =>
      let '(_, w', a') :=
        ScreenshotAnalyzer.recordProblemArea p c t sel d sev r shot env w a in (w', a')
  | OpElementScreenshot p sel n =>
      let '(_, w', a') := ScreenshotAnalyzer.takeElementScreenshot p sel n env w a in (w', a')
  | OpFullPageScreenshot n =>
      let '(_, w', a') := ScreenshotAnalyzer.takeFullPageScreenshot n env w a in (w', a')
  | OpAnnotatedScreenshot n issues =>
      let '(_, w', a') :=
        ScreenshotAnalyzer.generateAnnotatedScreenshot n issues env w a in (w', a')
  | OpGet =>
      let '(_, w', a') := ScreenshotAnalyzer.getProblemAreas env w a in (w', a')
  | OpHighSeverity =>
      let '(_, w', a') := ScreenshotAnalyzer.getHighSeverityIssues env w a in (w', a')
  | OpClear =>
      let '(_, w', a') := ScreenshotAnalyzer.clearProblemAreas env w a in (w', a')
  end.

Definition steps (env : Env.t) (ops : list Op) (st : World.t * ScreenshotAnalyzer.t)
  : World.t * ScreenshotAnalyzer.t :=
  fold_left (fun st op => step env op st) ops st.

(** The areas after [issue] is stored under [(category, test)]. *)
Definition stored (category test : string) (issue : ElementIssue.t)
  (areas : list ProblemArea.t) : list ProblemArea.t :=
  match find (ScreenshotAnalyzer.isArea category test) areas with
  | Some _ => ScreenshotAnalyzer.pushIssue category test issue areas
  | None => (areas ++ [ProblemArea.mk category test [issue] None])%list
  end.

(** The issue that [recordProblemArea] builds from a bounding box. *)
Definition issueOf (selector description : string) (severity : Severity)
  (recommendation : string) (box : BoundingBox.t) (path : option string)
  : ElementIssue.t :=
  ElementIssue.mk selector
    (JS.mathRound (BoundingBox.x box)) (JS.mathRound (BoundingBox.y box))
    (JS.mathRound (BoundingBox.width box)) (JS.mathRound (BoundingBox.height box))
    description severity recommendation path.

(** A page on which [.hero] matches one element that is not rendered. *)
Definition hiddenHero : Page.t :=
  Page.mk
    (fun selector => if selector =? ".hero" then Some [None] else Some [])
    (NavigationTiming.mk 0 0 0) [] None (fun _ => 0) [] false [] false
    (TextMetrics.mk 0 (JS.Infinity false) 0 0) 0 [] [] 1080
    (KeyboardAnalysis.mk 0 0 0)
    (SeoAnalysis.mk false "" false false false false false "")
    (FormAnalysis.mk 0 0 0 0 0) (InteractiveAnalysis.mk 0 0 0 0)
    (Some []) (fun _ => "BODY") false false (fun _ => 0).

(** A page on which [.hero] matches one rendered element. *)
Definition visibleHero : Page.t :=
  Page.mk
    (fun selector =>
       if selector =? ".hero" then Some [Some (Fixture.box (21 # 2) 20 300 (401 # 2))]
       else Some [])
    (NavigationTiming.mk 0 0 0) [] None (fun _ => 0) [] false [] false
    (TextMetrics.mk 0 (JS.Infinity false) 0 0) 0 [] [] 1080
    (KeyboardAnalysis.mk 0 0 0)
    (SeoAnalysis.mk false "" false false false false false "")
    (FormAnalysis.mk 0 0 0 0 0) (InteractiveAnalysis.mk 0 0 0 0)
    (Some []) (fun _ => "BODY") false false (fun _ => 0).

Definition sampleIssue : ElementIssue.t :=
  ElementIssue.mk ".hero" 11 20 300 201 "Image missing alt text" high
    "Add alt text" (Some "outputs/ux-report/screenshots/c-t-element-1700000000000.png").

End Evidence.

(** The contrast ratio of two colours as WCAG defines it: each channel is
    divided by 255 and linearized, the relative luminance weighs the three
    channels, and the ratio sets the lighter luminance over the darker one,
    each raised by 0.05. *)
Module Wcag.

Local Open Scope R_scope.

Definition Colour : Type := (nat * nat * nat)%type.

Definition linear (c : R) : R :=
  if Rle_dec c (3928 / 100000)
  then c / (1292 / 100)
  else Rpower ((c + 55 / 1000) / (1055 / 1000)) (24 / 10).

Definition luminance (colour : Colour) : R :=
  let '(r, g, b) := colour in
  2126 / 10000 * linear (INR r / 255)
  + 7152 / 10000 * linear (INR g / 255)
  + 722 / 10000 * linear (INR b / 255).

Definition contrastRatio (foreground background : Colour) : R :=
  let lf := luminance foreground in
  let lb := luminance background in
  if Rle_dec lf lb
  then (lb + 5 / 100) / (lf + 5 / 100)
  else (lf + 5 / 100) / (lb + 5 / 100).

(** The computed style's serialization of an opaque colour. *)
Definition rgb (r g b : nat) : string :=
  "rgb(" ++ (JS.string_of_nat r ++ (", " ++ (JS.string_of_nat g
    ++ (", " ++ (JS.string_of_nat b ++ ")"))))).

End Wcag.

(** The end-to-end scenario: what the page shows. *)
Module Scenario.


End Scenario.

Module Degraded.

(** The finding that [testResponsive] appends for a device that could not
    be tested. *)
Definition device (name : string) (timestamp : Z) : TestResult.t :=
  TestResult.mk "Responsive Design" name warning 5
    "Could not fully test responsive design for this device" low
    timestamp None None.

End Degraded.

Module Loading.



End Loading.

Module Scoring.

(** Every finding has a score between 0 and 10. *)
Definition scoresInRange (results : list TestResult.t) : Prop :=
  forall r, In r results -> (0 <= TestResult.score r /\ TestResult.score r <= 10)%Q.

End Scoring.

(** The recommendation list as the specification words it: itemized
    high-severity failures, load time, LCP with the resource when known,
    alt text, responsive design, the count of medium-severity failures, and
    the general suggestions, with no other entry. *)
Module Claimed.

Import UXUITester.

Definition recommendations (s : UXUITester.t) : list string :=
  let metrics := performanceMetrics s in
  let mediumPriorityIssues := filter isMediumPriority (results s) in
  let responsiveIssues := filter hasIssues (responsiveResults s) in
  (map itemize (JS.slice0 3 (filter isHighPriority (results s)))
   ++ (if (PerformanceMetrics.loadTime metrics >? 3000)%Z
       then [ loadTimeAdvice ] else [])
   ++ (if JS.Qltb 2500 (PerformanceMetrics.largestContentfulPaint metrics)
       then lcpAdvice
              :: match lcpUrlOf metrics with
                 | Some lcpUrl => [ lcpResourceAdvice lcpUrl ]
                 | None => []
                 end
       else [])
   ++ (match find isMissingAlt (results s) with
       | Some _ => [ altTextAdvice ]
       | None => []
       end)
   ++ (if (0 <? length responsiveIssues)%nat
       then [ responsiveAdvice (map ResponsiveTestResult.device responsiveIssues) ]
       else [])
   ++ (if (5 <? length mediumPriorityIssues)%nat
       then [ mediumPriorityAdvice (length mediumPriorityIssues) ] else [])
   ++ generalBestPractices)%list.

(** A tester that has recorded one critical violation and nothing else. *)
Definition oneCriticalViolation : UXUITester.t :=
  UXUITester.pushAccessibilityIssue
    (AccessibilityIssue.mk "button-name" "critical" ".icon-button"
       "Buttons must have discernible text" "wcag2a, wcag412")
    UXUITester.new.

End Claimed.

From Stdlib Require Import Permutation.

(** ** Further vocabulary *)

Module Findings.

(** The score of the finding is between 0 and 10. *)
Definition scoreInRange (r : TestResult.t) : Prop :=
  (0 <= TestResult.score r /\ TestResult.score r <= 10)%Q.

(** Findings are only appended, each with a score between 0 and 10. *)
Definition scored : relation UXUITester.t :=
  fun s s' =>
    exists added,
      UXUITester.results s' = (UXUITester.results s ++ added)%list
      /\ Forall scoreInRange added.

(** Any world is related to any other. *)
Definition anyWorld : relation World.t := fun _ _ => True.

End Findings.

(** A method that only appends findings with scores between 0 and 10. *)
Abbreviation scoring := (preserves (both Findings.anyWorld Findings.scored)).

Module Devices.

(** The handles of the open contexts are below the next handle that the
    browser gives out. *)
Definition wellNumbered (w : World.t) : Prop :=
  Forall (fun c => c < World.nextContext w) (World.contexts w).

(** The issues that [testResponsive] lists for a device, from what the page
    shows on it. *)
Definition issuesOn (view : DevicePage.t) (mobile : bool) : list string :=
  let issues1 :=
    if DevicePage.hasHorizontalScroll view
    then [ "Horizontal scrollbar detected" ] else [] in
  let issues2 :=
    if (5 <? DevicePage.textTooSmall view)%nat
    then (issues1 ++ [ (JS.string_of_nat (DevicePage.textTooSmall view)
                          ++ " text elements smaller than 14px")%string ])%list
    else issues1 in
  if mobile && (0 <? DevicePage.smallTargets view)%nat
  then (issues2 ++ [ (JS.string_of_nat (DevicePage.smallTargets view)
                        ++ " touch targets smaller than 44x44")%string ])%list
  else issues2.

End Devices.

(** ** Objects used as maps

    An object literal that the code uses as a map from strings.  Its own
    properties are kept in the order in which they were added; a lookup
    that misses them finds the members that every object inherits from
    [Object.prototype]. *)

Module Obj.

Definition t (A : Type) : Type := list (string * A).

(** [Object.getOwnPropertyNames(Object.prototype)] *)
Definition inheritedNames : list string :=
  [ "constructor"; "__defineGetter__"; "__defineSetter__"; "hasOwnProperty";
    "__lookupGetter__"; "__lookupSetter__"; "isPrototypeOf";
    "propertyIsEnumerable"; "toString"; "valueOf"; "__proto__";
    "toLocaleString" ].

Definition inherited (name : string) : bool :=
  existsb (String.eqb name) inheritedNames.

(** The own property [key], when there is one. *)
Definition own {A : Type} (o : t A) (key : string) : option A :=
  match find (fun kv => fst kv =? key) o with
  | Some kv => Some (snd kv)
  | None => None
  end.

(** [o[key] = v], for a name that is not inherited. *)
Fixpoint set {A : Type} (o : t A) (key : string) (v : A) : t A :=
  match o with
  | [] => [(key, v)]
  | (k, x) :: rest =>
      if k =? key then (k, v) :: rest else (k, x) :: set rest key v
  end.

End Obj.

(** ** Evidence recorder: the summaries *)

Module Recommendations.

(** [if (!list.includes(r)) list.push(r)] *)
Definition addOnce (r : string) (l : list string) : list string :=
  if existsb (String.eqb r) l then l else (l ++ [r])%list.

(** The loop of [getRecommendationsByCategory] over the areas.  For a
    category that names an inherited member, [recommendations[category]]
    is that member: it is truthy, so no list is created, and it has no
    [includes] method, so the first issue of the area throws. *)
Fixpoint collect (areas : list ProblemArea.t) (recommendations : Obj.t (list string))
  : result (Obj.t (list string)) :=
  match areas with
  | [] => Ok recommendations
  | area :: rest =>
      let category := ProblemArea.category area in
      if Obj.inherited category
      then
        match ProblemArea.issues area with
        | [] => collect rest recommendations
        | _ :: _ =>
            Throw (TypeError "recommendations[area.category].includes is not a function")
        end
      else
        let recommendations :=
          match Obj.own recommendations category with
          | Some _ => recommendations
          | None => Obj.set recommendations category []
          end in
        let current :=
          match Obj.own recommendations category with
          | Some l => l
          | None => []
          end in
        collect rest
          (Obj.set recommendations category
             (fold_left
                (fun l issue => addOnce (ElementIssue.recommendation issue) l)
                (ProblemArea.issues area) current))
  end.

Definition getRecommendationsByCategory
  : M ScreenshotAnalyzer.t (Obj.t (list string)) :=
  areas <- gets ScreenshotAnalyzer.problemAreas ;;
  match collect areas [] with
  | Ok recommendations => ret recommendations
  | Throw e => throw e
  end.

End Recommendations.

Module Areas.

(** The category and the test under which an area is kept. *)
Definition key (pa : ProblemArea.t) : string * string :=
  (ProblemArea.category pa, ProblemArea.test pa).

(** No two areas have the same category and test. *)
Definition distinctKeys (a : ScreenshotAnalyzer.t) : Prop :=
  NoDup (map key (ScreenshotAnalyzer.problemAreas a)).

(** The issues on record under a category and test: those of the area
    that [find] returns, none when there is no such area. *)
Definition issuesOf (category test : string) (a : ScreenshotAnalyzer.t)
  : list ElementIssue.t :=
  match find (ScreenshotAnalyzer.isArea category test)
          (ScreenshotAnalyzer.problemAreas a) with
  | Some pa => ProblemArea.issues pa
  | None => []
  end.

(** All the issues on record, area by area. *)
Definition allIssues (a : ScreenshotAnalyzer.t) : list ElementIssue.t :=
  flat_map ProblemArea.issues (ScreenshotAnalyzer.problemAreas a).

End Areas.

Module RecommendationsFixture.

Definition issue (selector recommendation : string) : ElementIssue.t :=
  ElementIssue.mk selector 0 0 10 10 "" medium recommendation None.

(** Two areas of one category that share a recommendation, and an area of
    another category. *)
Definition analyzer : ScreenshotAnalyzer.t :=
  ScreenshotAnalyzer.mk Config.screenshotsDir
    [ ProblemArea.mk "Visual Design" "Image Alt Text"
        [ issue "#a" "Add alt text"; issue "#b" "Add alt text" ] None;
      ProblemArea.mk "Forms" "Input Labels" [ issue "#c" "Add a label" ] None;
      ProblemArea.mk "Visual Design" "Color Contrast"
        [ issue "#d" "Increase contrast"; issue "#e" "Add alt text" ] None ].

(** An area whose category is the name of an inherited member. *)
Definition named (category : string) : ScreenshotAnalyzer.t :=
  ScreenshotAnalyzer.mk Config.screenshotsDir
    [ ProblemArea.mk category "t" [ issue "#a" "Add alt text" ] None ].

End RecommendationsFixture.

(** ** Colours as computed styles serialize them *)

Module Css.

(** A colour with an alpha channel, [alpha] being its decimal. *)
Definition rgba (r g b : nat) (alpha : string) : string :=
  "rgba(" ++ (JS.string_of_nat r ++ (", " ++ (JS.string_of_nat g
    ++ (", " ++ (JS.string_of_nat b ++ (", " ++ (alpha ++ ")"))))))).

(** The string holds no decimal digit. *)
Fixpoint digitless (s : string) : bool :=
  match s with
  | EmptyString => true
  | String c rest => negb (Contrast.isDigit c) && digitless rest
  end.

End Css.

(** ** The HTML report: its helpers *)

(** A [Map] with string keys: its entries, in insertion order. *)
Module JSMap.

Definition t (A : Type) : Type := list (string * A).

Definition get {A : Type} (m : t A) (key : string) : option A :=
  match find (fun kv => fst kv =? key) m with
  | Some kv => Some (snd kv)
  | None => None
  end.

Definition has {A : Type} (m : t A) (key : string) : bool :=
  match get m key with
  | Some _ => true
  | None => false
  end.

(** An entry that exists keeps its place; a new one goes last. *)
Fixpoint set {A : Type} (m : t A) (key : string) (v : A) : t A :=
  match m with
  | [] => [(key, v)]
  | (k, x) :: rest =>
      if k =? key then (k, v) :: rest else (k, x) :: set rest key v
  end.

Definition keys {A : Type} (m : t A) : list string := map fst m.

End JSMap.

Module ReportGenerator.

(** The body of the loop of [categorizeResults]:
    [categorized.get(result.category)!.push(result)], after the category
    got an empty list if it had none. *)
Definition categorize (categorized : JSMap.t (list TestResult.t))
  (result : TestResult.t) : Error + JSMap.t (list TestResult.t) :=
  let category := TestResult.category result in
  let categorized :=
    if negb (JSMap.has categorized category)
    then JSMap.set categorized category []
    else categorized in
  match JSMap.get categorized category with
  | Some group => inr (JSMap.set categorized category (group ++ [result])%list)
  | None => inl (TypeError "Cannot read properties of undefined (reading 'push')")
  end.

Fixpoint categorizeFrom (results : list TestResult.t)
  (categorized : JSMap.t (list TestResult.t))
  : Error + JSMap.t (list TestResult.t) :=
  match results with
  | [] => inr categorized
  | result :: rest =>
      match categorize categorized result with
      | inr categorized => categorizeFrom rest categorized
      | inl e => inl e
      end
  end.

Definition categorizeResults (results : list TestResult.t)
  : Error + JSMap.t (list TestResult.t) :=
  categorizeFrom results [].

(** What [o[key] || fallback] evaluates to, for an object literal [o]
    whose values are strings: a string, or the member of
    [Object.prototype] of that name, which is truthy. *)
Inductive Value : Type :=
| Str (s : string)
| Member (name : string).

Definition lookupOr (o : Obj.t string) (key fallback : string) : Value :=
  match Obj.own o key with
  | Some v => Str (JS.orElse v fallback)
  | None => if Obj.inherited key then Member key else Str fallback
  end.

Definition getCategoryIcon (category : string) : Value :=
  lookupOr
    [ ("Performance", "⚡");
      ("Visual Design", "👁️");
      ("Navigation", "🧭");
      ("Readability", "📖");
      ("Forms", "📝");
      ("Interactive Elements", "🖱️");
      ("Responsive Design", "📱");
      ("Accessibility", "♿");
      ("SEO", "🔍") ]
    category "📌".

Definition getScoreColor (score : JS.number) : string :=
  if JS.geb score 80 then "linear-gradient(135deg, #4caf50 0%, #45a049 100%)"
  else if JS.geb score 60 then "linear-gradient(135deg, #ff9800 0%, #f57c00 100%)"
  else "linear-gradient(135deg, #f44336 0%, #d32f2f 100%)".

Definition mapSeverity (severity : string) : Value :=
  lookupOr
    [ ("critical", "high"); ("serious", "high"); ("moderate", "medium");
      ("minor", "low") ]
    severity "medium".

End ReportGenerator.

Module Grouping.

(** What holds of the map once the results [done] have been grouped. *)
Record grouped (categorized : JSMap.t (list TestResult.t))
  (done : list TestResult.t) : Prop := {
  distinct : NoDup (JSMap.keys categorized);
  groups :
    forall category,
      JSMap.get categorized category
      = if existsb (fun r => TestResult.category r =? category) done
        then Some (filter (fun r => TestResult.category r =? category) done)
        else None;
  nonEmpty : Forall (fun entry => snd entry <> []) categorized;
  complete : Permutation (flat_map snd categorized) done
}.

End Grouping.

(** ** The HTML sections for the evidence *)

Module ReportHTMLGenerator.

(** [s.replace(/c/g, by)] for a pattern that is the one character [c]. *)
Fixpoint replaceAll (c : ascii) (replacement : string) (s : string) : string :=
  match s with
  | EmptyString => EmptyString
  | String x rest =>
      if Ascii.eqb x c
      then replacement ++ replaceAll c replacement rest
      else String x (replaceAll c replacement rest)
  end.

Definition doubleQuote : ascii := ascii_of_nat 34.

Definition escapeHtml (text : string) : string :=
  replaceAll "'" "&#039;"
    (replaceAll doubleQuote "&quot;"
       (replaceAll ">" "&gt;"
          (replaceAll "<" "&lt;"
             (replaceAll "&" "&amp;" text)))).

(** [/[\\\/]/]: a slash or a backslash. *)
Definition isSeparator (c : ascii) : bool :=
  Ascii.eqb c "/" || Ascii.eqb c "\".

(** [s.split(/[\\\/]/)] *)
Fixpoint split (s : string) : list string :=
  match s with
  | EmptyString => [EmptyString]
  | String c rest =>
      if isSeparator c then EmptyString :: split rest
      else match split rest with
           | part :: parts => String c part :: parts
           | [] => [String c EmptyString]
           end
  end.

Definition getRelativePath (fullPath : string) : string :=
  let parts := split fullPath in
  "./screenshots/" ++ nth (length parts - 1) parts "undefined".

(** What [escapeHtml] makes of one character. *)
Definition escapeChar (c : ascii) : string := escapeHtml (String c EmptyString).

(** The characters that [escapeHtml] replaces. *)
Definition special (c : ascii) : bool :=
  Ascii.eqb c "&" || Ascii.eqb c "<" || Ascii.eqb c ">"
  || Ascii.eqb c doubleQuote || Ascii.eqb c "'".

(** None of the characters that open a tag or close an attribute value
    occurs in the string. *)
Fixpoint inert (s : string) : bool :=
  match s with
  | EmptyString => true
  | String c rest =>
      negb (Ascii.eqb c "<" || Ascii.eqb c ">" || Ascii.eqb c doubleQuote
            || Ascii.eqb c "'")
      && inert rest
  end.

(** No slash and no backslash occurs in the string. *)
Fixpoint plain (s : string) : bool :=
  match s with
  | EmptyString => true
  | String c rest => negb (isSeparator c) && plain rest
  end.

End ReportHTMLGenerator.

(** ** Export of a report to Excel and Word

    [convertToExcel] and [convertToWord] read the report from its JSON file,
    build a workbook or a document from it, and write that to a file.  What
    is embedded here is what they build.  Two conversions of the JavaScript
    runtime are taken as given: the Thai rendering of the test date, and
    the rendering of the overall score in a string. *)

Module ReportConverter.







(** A cell of a sheet: a string or a number. *)
Inductive Cell : Type :=
| Text (s : string)
| Number (q : Q).

Definition count (n : nat) : Cell := Number (inject_Z (Z.of_nat n)).


(** [heading] of a paragraph *)
Inductive Heading : Type := HEADING_1 | HEADING_2.

Record Paragraph : Type := mkParagraph {
  text : string;
  heading : option Heading;
  centered : bool;
  (** [spacing.after] *)
  after : option nat;
  bold : bool;
  italics : bool
}.

(** A paragraph with its text only. *)
Definition plain (text : string) : Paragraph :=
  mkParagraph text None false None false false.







Section Built.

(** [new Date(testDate).toLocaleString('th-TH')] *)
Variable localeString : Z -> string.
(** the overall score as string concatenation renders it *)
Variable scoreString : JS.number -> string.










(** *** The Word document *)









End Built.



End ReportConverter.

(** ** What a probe leaves alone *)

Module Browser.

(** Neither the browser, nor its contexts, nor the scripts of the page
    change. *)
Definition untouched : relation World.t :=
  fun w w' =>
    World.browserOpen w' = World.browserOpen w
    /\ World.contexts w' = World.contexts w
    /\ World.nextContext w' = World.nextContext w
    /\ World.scriptRequests w' = World.scriptRequests w
    /\ World.scriptTags w' = World.scriptTags w.

(** Findings are only appended; the accessibility issues and the
    responsive results are as they were. *)
Definition onlyFindings : relation UXUITester.t :=
  fun s s' =>
    grows s s'
    /\ UXUITester.accessibilityIssues s' = UXUITester.accessibilityIssues s
    /\ UXUITester.responsiveResults s' = UXUITester.responsiveResults s.

(** The probes that look at the page that [runAllTests] has loaded. *)
Definition pageProbes : list (M UXUITester.t unit) :=
  [ UXUITester.testPerformance; UXUITester.testVisualHierarchy;
    UXUITester.testColorContrast; UXUITester.testNavigation;
    UXUITester.testReadability; UXUITester.testCTAButtons;
    UXUITester.testForms; UXUITester.testInteractiveElements;
    UXUITester.testKeyboardNavigation; UXUITester.testSEOBasics ].

End Browser.

(** ** The audit engine's violations, as the tester records them *)

Module Audit.

(** [violation.nodes[0]?.target.join(', ')] *)
Definition target (violation : Violation.t) : option string :=
  match Violation.nodes violation with
  | [] => None
  | node :: _ => Some (JS.join ", " node)
  end.

(** The accessibility issue pushed for a violation. *)
Definition issueOf (violation : Violation.t) : AccessibilityIssue.t :=
  AccessibilityIssue.mk
    (Violation.id violation)
    (Violation.impact violation)
    (match target violation with
     | Some s => JS.orElse s "Unknown"
     | None => "Unknown"
     end)
    (Violation.description violation)
    (JS.join ", "
       (filter (fun tag => JS.startsWith tag "wcag") (Violation.tags violation))).

(** The violations of the result of [axe.run()]: [axeResults.violations || []] *)
Definition violations (page : Page.t) : list Violation.t :=
  match Page.violations page with
  | Some l => l
  | None => []
  end.

(** [criticalCount]: the issues whose severity is critical or serious. *)
Definition criticalCount (issues : list AccessibilityIssue.t) : nat :=
  length (filter UXUITester.isCritical issues).

End Audit.

(** ** The keyboard walk of the accessibility probe *)

Module Focus.

(** What the [i]-th press of Tab adds to the set: [desc || 'none']. *)
Definition descriptor (page : Page.t) (i : nat) : string :=
  JS.orElse (Page.focusAfterTab page i) "none".

(** The descriptors of the presses [start], ..., [start + n - 1], added to
    the set [seen] in turn. *)
Fixpoint walk (page : Page.t) (n start : nat) (seen : list string) : list string :=
  match n with
  | O => seen
  | S n' => walk page n' (S start) (UXUITester.setAdd (descriptor page start) seen)
  end.

End Focus.

Module AuditFixture.

(** The blank page, on which the audit engine reports one critical
    violation without nodes and a minor one. *)
Definition page : Page.t :=
  Page.mk
    (fun _ => Some [])
    (NavigationTiming.mk 0 0 0) [] None (fun _ => 0) [] false [] false
    (TextMetrics.mk 0 (JS.Infinity false) 0 0) 0 [] [] 1080
    (KeyboardAnalysis.mk 0 0 0)
    (SeoAnalysis.mk false "" false false false false false "")
    (FormAnalysis.mk 0 0 0 0 0) (InteractiveAnalysis.mk 0 0 0 0)
    (Some [ Violation.mk "button-name" "critical"
              "Buttons must have discernible text" [ "cat.name-role-value"; "wcag2a" ]
              [] "Buttons must have discernible text";
            Violation.mk "region" "minor" "Content should be in landmarks"
              [ "best-practice" ] [ [ "#footer" ] ]
              "All page content should be contained by landmarks" ])
    (fun _ => "BODY") false false (fun _ => 0).

End AuditFixture.

Module Lenient.

(** Findings are only appended, none of them with the status [fail]. *)
Definition neverFails : relation UXUITester.t :=
  fun s s' =>
    exists added,
      UXUITester.results s' = (UXUITester.results s ++ added)%list
      /\ Forall (fun r => TestResult.status r <> fail) added.

(** The probes none of whose findings can fail. *)
Definition probes : list (M UXUITester.t unit) :=
  [ UXUITester.testColorContrast; UXUITester.testReadability;
    UXUITester.testCTAButtons; UXUITester.testInteractiveElements;
    UXUITester.testKeyboardNavigation; UXUITester.testResponsive ].

End Lenient.

(** ** Running the monad *)

Lemma bind_Ok {St A B} (m : M St A) (k : A -> M St B) env w s a w' s' :
  m env w s = (Ok a, w', s') -> bind m k env w s = k a env w' s'.
Proof. intros H. unfold bind. rewrite H. reflexivity. Qed.

Lemma bind_Throw {St A B} (m : M St A) (k : A -> M St B) env w s e w' s' :
  m env w s = (Throw e, w', s') -> bind m k env w s = (Throw e, w', s').
Proof. intros H. unfold bind. rewrite H. reflexivity. Qed.

Lemma pageOp_run {St} env w (s : St) :
  pageOp env w s =
  (if Env.fault env (World.ops w) then Throw (OpFailed (World.ops w)) else Ok tt,
   World.tickOp w, s).
Proof. unfold pageOp. destruct (Env.fault env (World.ops w)); reflexivity. Qed.

(** Unfold the monad's combinators, leaving page operations folded. *)
Ltac unfold_monad :=
  cbv beta iota zeta delta
    [bind ret throw tryCatch tryFinally ask get gets modify getWorld modifyWorld
     zoom when now evaluate locatorCount boundingBox screenshot].

(** Reduce projections of an updated world. *)
Ltac simpl_world :=
  cbn [World.ops World.ticks World.browserOpen World.contexts World.nextContext
       World.scriptRequests World.scriptTags World.files World.tickOp
       World.tickClock World.launch World.closeBrowser World.openContext
       World.closeContext World.requestScript World.addScript World.writeFile].

(** The next page operation succeeds, by [H]. *)
Ltac op_ok H :=
  rewrite pageOp_run; simpl_world; rewrite H; cbv beta iota.

(** ** Evidence recorder *)

Section AnalyzerFacts.

Import ScreenshotAnalyzer Evidence.

Lemma pushIssue_nonEmpty category test issue areas :
  Forall (fun pa => ProblemArea.issues pa <> []) areas ->
  Forall (fun pa => ProblemArea.issues pa <> [])
    (pushIssue category test issue areas).
Proof.
  induction 1 as [|pa rest Hpa Hrest IH]; simpl; [constructor|].
  destruct (isArea category test pa).
  - constructor; [|assumption]. simpl. intros E.
    apply app_eq_nil in E. destruct E as [_ E]. discriminate.
  - constructor; assumption.
Qed.

Lemma stored_nonEmpty category test issue areas :
  Forall (fun pa => ProblemArea.issues pa <> []) areas ->
  Forall (fun pa => ProblemArea.issues pa <> [])
    (stored category test issue areas).
Proof.
  intros H. unfold stored.
  destruct (find (isArea category test) areas).
  - apply pushIssue_nonEmpty; assumption.
  - apply Forall_app; split; [assumption|].
    constructor; [simpl; discriminate | constructor].
Qed.

(** [pushIssue] changes the first area with the key, and only it. *)
Lemma pushIssue_first category test issue areas pa :
  find (isArea category test) areas = Some pa ->
  exists before after,
    areas = (before ++ pa :: after)%list
    /\ Forall (fun pa' => isArea category test pa' = false) before
    /\ pushIssue category test issue areas =
       (before
          ++ ProblemArea.mk (ProblemArea.category pa) (ProblemArea.test pa)
               (ProblemArea.issues pa ++ [issue])
               (ProblemArea.fullPageScreenshot pa) :: after)%list.
Proof.
  induction areas as [|pa0 rest IH]; simpl; [discriminate|].
  destruct (isArea category test pa0) eqn:E; intros H.
  - injection H as <-. exists [], rest. repeat split. constructor.
  - destruct (IH H) as (before & after & -> & Hb & Hp).
    exists (pa0 :: before), after. repeat split.
    + constructor; assumption.
    + simpl. rewrite Hp. reflexivity.
Qed.

Lemma storeProblemArea_run category test issue env w a :
  storeProblemArea category test issue env w a =
  (Ok tt, w, setProblemAreas (stored category test issue (problemAreas a)) a).
Proof.
  unfold storeProblemArea, stored, bind, gets, modify.
  destruct (find (isArea category test) (problemAreas a)); reflexivity.
Qed.

(** [takeElementScreenshot] never throws and leaves the areas alone. *)
Lemma takeElementScreenshot_run page selector testName env w a :
  exists path w',
    takeElementScreenshot page selector testName env w a = (Ok path, w', a).
Proof.
  unfold takeElementScreenshot. unfold_monad.
  rewrite pageOp_run.
  destruct (Env.fault env (World.ops w)); [do 2 eexists; reflexivity|].
  destruct (Page.locate page selector) as [els|]; [|do 2 eexists; reflexivity].
  destruct (length els =? 0)%nat; [do 2 eexists; reflexivity|].
  rewrite pageOp_run. cbn [World.ops World.tickClock World.tickOp].
  destruct (Env.fault env (S (World.ops w))); do 2 eexists; reflexivity.
Qed.

Lemma takeFullPageScreenshot_areas testName env w a :
  snd (takeFullPageScreenshot testName env w a) = a.
Proof.
  unfold takeFullPageScreenshot. unfold_monad.
  rewrite pageOp_run. cbn [World.ops World.tickClock].
  destruct (Env.fault env (World.ops w)); reflexivity.
Qed.

(** What [recordProblemArea] does, by cases. *)
Lemma recordProblemArea_cases page category test selector description
  severity recommendation takeScreenshot env w a :
  exists w',
    (recordProblemArea page category test selector description severity
       recommendation takeScreenshot env w a = (Ok None, w', a)
     /\ (Env.fault env (World.ops w) = true
         \/ Page.locate page selector = None
         \/ Page.locate page selector = Some []
         \/ Env.fault env (S (World.ops w)) = true
         \/ exists rest, Page.locate page selector = Some (None :: rest)))
    \/ (exists box rest path,
          Page.locate page selector = Some (Some box :: rest)
          /\ Env.fault env (World.ops w) = false
          /\ Env.fault env (S (World.ops w)) = false
          /\ (takeScreenshot = false -> path = None)
          /\ recordProblemArea page category test selector description severity
               recommendation takeScreenshot env w a =
             (Ok (Some (issueOf selector description severity recommendation box path)),
              w',
              setProblemAreas
                (stored category test
                   (issueOf selector description severity recommendation box path)
                   (problemAreas a)) a)).
Proof.
  unfold recordProblemArea. unfold_monad. rewrite pageOp_run.
  destruct (Env.fault env (World.ops w)) eqn:F0.
  { eexists. left. split; [reflexivity|]. auto. }
  destruct (Page.locate page selector) as [[|el rest]|] eqn:L.
  { eexists. left. split; [reflexivity|]. auto. }
  2:{ eexists. left. split; [reflexivity|]. auto. }
  cbn [length Nat.eqb]. cbv beta iota.
  rewrite pageOp_run. cbn [World.ops World.tickOp].
  destruct (Env.fault env (S (World.ops w))) eqn:F1.
  { eexists. left. split; [reflexivity|]. auto 6. }
  destruct el as [box|].
  2:{ eexists. left. split; [reflexivity|]. eauto 8. }
  destruct takeScreenshot.
  - destruct (takeElementScreenshot_run page selector (category ++ "-" ++ test)
                env (World.tickOp (World.tickOp w)) a) as (path & w1 & E).
    cbn [World.tickOp] in E. rewrite E.
    rewrite storeProblemArea_run.
    eexists. right. exists box, rest, path.
    repeat split; try reflexivity. discriminate.
  - rewrite storeProblemArea_run.
    eexists. right. exists box, rest, None.
    repeat split; reflexivity.
Qed.

Lemma recordProblemArea_nonEmpty page category test selector description
  severity recommendation takeScreenshot env w a :
  nonEmptyAreas a ->
  nonEmptyAreas
    (snd (recordProblemArea page category test selector description severity
            recommendation takeScreenshot env w a)).
Proof.
  intros H.
  destruct (recordProblemArea_cases page category test selector description
              severity recommendation takeScreenshot env w a)
    as (w' & [[-> _] | (box & rest & path & _ & _ & _ & _ & ->)]);
    simpl; [assumption|].
  apply stored_nonEmpty. exact H.
Qed.

Lemma step_nonEmpty env op w a :
  nonEmptyAreas a -> nonEmptyAreas (snd (step env op (w, a))).
Proof.
  intros H. destruct op; simpl.
  - rewrite storeProblemArea_run. simpl. apply stored_nonEmpty. exact H.
  - pose proof (recordProblemArea_nonEmpty page category test selector
                  description severity recommendation takeScreenshot env w a H) as R.
    destruct (recordProblemArea page category test selector description severity
                recommendation takeScreenshot env w a) as [[r w'] a']. exact R.
  - destruct (takeElementScreenshot_run page selector testName env w a)
      as (path & w' & ->). exact H.
  - pose proof (takeFullPageScreenshot_areas testName env w a) as R.
    destruct (takeFullPageScreenshot testName env w a) as [[r w'] a'].
    simpl in R. subst a'. exact H.
  - unfold generateAnnotatedScreenshot, tryCatch, bind.
    pose proof (takeFullPageScreenshot_areas ("annotated-" ++ testName) env w a) as R.
    destruct (takeFullPageScreenshot ("annotated-" ++ testName) env w a)
      as [[[r|e] w'] a']; simpl in R; subst a'; exact H.
  - exact H.
  - exact H.
  - constructor.
Qed.

Lemma steps_nonEmpty env ops w a :
  nonEmptyAreas a -> nonEmptyAreas (snd (steps env ops (w, a))).
Proof.
  revert w a. induction ops as [|op ops IH]; intros w a H; [exact H|].
  change (steps env (op :: ops) (w, a)) with (steps env ops (step env op (w, a))).
  pose proof (step_nonEmpty env op w a H) as R.
  destruct (step env op (w, a)) as [w' a']. apply IH. exact R.
Qed.

(** A stored issue lands in the first area with its key, or in a new area
    at the end when there is none. *)
Lemma stored_shape category test issue areas :
  (exists before pa after,
      areas = (before ++ pa :: after)%list
      /\ isArea category test pa = true
      /\ Forall (fun pa' => isArea category test pa' = false) before
      /\ stored category test issue areas =
         (before
            ++ ProblemArea.mk (ProblemArea.category pa) (ProblemArea.test pa)
                 (ProblemArea.issues pa ++ [issue])
                 (ProblemArea.fullPageScreenshot pa) :: after)%list)
  \/ (Forall (fun pa' => isArea category test pa' = false) areas
      /\ stored category test issue areas =
         (areas ++ [ProblemArea.mk category test [issue] None])%list).
Proof.
  unfold stored.
  destruct (find (isArea category test) areas) as [pa|] eqn:F.
  - left. destruct (pushIssue_first category test issue areas pa F)
      as (before & after & E & Hb & Hp).
    exists before, pa, after. repeat split; try assumption.
    apply find_some in F. apply F.
  - right. split; [|reflexivity].
    apply Forall_forall. intros pa' Hin.
    exact (find_none _ _ F pa' Hin).
Qed.

End AnalyzerFacts.

(** A rendered element is recorded with its rounded box and its
    screenshot, under a new area; a second issue of the same category and
    test joins that area. *)
Example recordProblemArea_on_a_rendered_element :
  let env := Fixture.quiet Evidence.visibleHero in
  let record :=
    ScreenshotAnalyzer.recordProblemArea Evidence.visibleHero "c" "t" ".hero"
      "Image missing alt text" high "Add alt text" true in
  exists w1 a1 issue2 w2 a2,
    record env World.initial (ScreenshotAnalyzer.new Config.screenshotsDir)
    = (Ok (Some Evidence.sampleIssue), w1, a1)
    /\ ScreenshotAnalyzer.problemAreas a1
       = [ProblemArea.mk "c" "t" [Evidence.sampleIssue] None]
    /\ record env w1 a1 = (Ok (Some issue2), w2, a2)
    /\ ScreenshotAnalyzer.problemAreas a2
       = [ProblemArea.mk "c" "t" [Evidence.sampleIssue; issue2] None].
Proof.
  do 5 eexists. split; [vm_compute; reflexivity|]. split; [reflexivity|].
  split; [vm_compute; reflexivity|]. reflexivity.
Qed.

(** C10. Every problem area held by the analyzer has a non-empty list of
    issues: this holds of a new analyzer and after any sequence of its
    operations, and each operation preserves it.  [storeProblemArea] either
    appends the issue to the first area with the same category and test, or
    adds a new area holding exactly that issue; [clearProblemAreas] leaves
    no area at all. *)
Theorem problem_areas_never_hold_an_empty_issue_list :
  forall (env : Env.t) (dir : string),
    (forall ops w,
        Evidence.nonEmptyAreas
          (snd (Evidence.steps env ops (w, ScreenshotAnalyzer.new dir))))
    /\ (forall op w a,
          Evidence.nonEmptyAreas a ->
          Evidence.nonEmptyAreas (snd (Evidence.step env op (w, a))))
    /\ (forall category test issue w a,
          let a' := snd (ScreenshotAnalyzer.storeProblemArea category test issue env w a) in
          let areas := ScreenshotAnalyzer.problemAreas a in
          (exists before pa after,
              areas = (before ++ pa :: after)%list
              /\ ScreenshotAnalyzer.isArea category test pa = true
              /\ Forall (fun pa' => ScreenshotAnalyzer.isArea category test pa' = false)
                   before
              /\ ScreenshotAnalyzer.problemAreas a' =
                 (before
                    ++ ProblemArea.mk (ProblemArea.category pa) (ProblemArea.test pa)
                         (ProblemArea.issues pa ++ [issue])
                         (ProblemArea.fullPageScreenshot pa) :: after)%list)
          \/ (Forall (fun pa' => ScreenshotAnalyzer.isArea category test pa' = false)
                areas
              /\ ScreenshotAnalyzer.problemAreas a' =
                 (areas ++ [ProblemArea.mk category test [issue] None])%list))
    /\ (forall w a,
          ScreenshotAnalyzer.problemAreas
            (snd (ScreenshotAnalyzer.clearProblemAreas env w a)) = []).
Proof.
  intros env dir. repeat split.
  - intros ops w. apply steps_nonEmpty. constructor.
  - intros op w a. apply step_nonEmpty.
  - intros category test issue w a. rewrite storeProblemArea_run. simpl.
    apply stored_shape.
Qed.

(** C5, as stated, fails: on a page where the selector matches one element
    that has no bounding box, [recordProblemArea] returns null although the
    selector does not match zero elements. *)
Lemma recordProblemArea_null_although_selector_matches :
  Page.locate Evidence.hiddenHero ".hero" = Some [None]
  /\ fst (fst (ScreenshotAnalyzer.recordProblemArea Evidence.hiddenHero
                 "Visual Design" "Image Alt Text" ".hero"
                 "Image missing alt text - impacts accessibility" high
                 "Add descriptive alt text to all images for better accessibility"
                 true (Fixture.quiet Evidence.hiddenHero) World.initial
                 (ScreenshotAnalyzer.new Config.screenshotsDir)))
     = Ok None.
Proof. split; reflexivity. Qed.

(** C5, amended. [recordProblemArea] never throws.  It returns null, and
    leaves the analyzer as it was, exactly when the selector matches no
    element, or does not parse, or the first match has no bounding box, or
    one of the two page operations (count, bounding box) rejects.  Otherwise
    it returns the issue built from the rounded bounding box and stores it
    under its category and test. *)
Theorem recordProblemArea_returns_null_or_stores_the_issue :
  forall page category test selector description severity recommendation
         takeScreenshot env w a,
  exists r w' a',
    ScreenshotAnalyzer.recordProblemArea page category test selector description
      severity recommendation takeScreenshot env w a = (Ok r, w', a')
    /\ (Page.locate page selector = Some [] -> r = None)
    /\ (r = None -> a' = a)
    /\ (r = None <->
        (Env.fault env (World.ops w) = true
         \/ Page.locate page selector = None
         \/ Page.locate page selector = Some []
         \/ Env.fault env (S (World.ops w)) = true
         \/ exists rest, Page.locate page selector = Some (None :: rest)))
    /\ (forall issue,
          r = Some issue ->
          exists box rest,
            Page.locate page selector = Some (Some box :: rest)
            /\ issue = Evidence.issueOf selector description severity recommendation
                         box (ElementIssue.screenshotPath issue)
            /\ (takeScreenshot = false -> ElementIssue.screenshotPath issue = None)
            /\ a' = ScreenshotAnalyzer.setProblemAreas
                      (Evidence.stored category test issue
                         (ScreenshotAnalyzer.problemAreas a)) a).
Proof.
  intros.
  destruct (recordProblemArea_cases page category test selector description
              severity recommendation takeScreenshot env w a)
    as (w' & [[E C] | (box & rest & path & L & F0 & F1 & P & E)]).
  - exists None, w', a. split; [exact E|].
    repeat split; auto. discriminate.
  - eexists _, w', _. split; [exact E|]. repeat split.
    + rewrite L. discriminate.
    + discriminate.
    + discriminate.
    + intros [C | [C | [C | [C | [rest' C]]]]]; congruence.
    + intros issue [= <-]. exists box, rest. repeat split; auto.
Qed.

(** ** What every run preserves *)

#[export] Instance sameBrowser_preorder : PreOrder sameBrowser.
Proof.
  split.
  - intros w. reflexivity.
  - intros a b c H1 H2. unfold sameBrowser in *. congruence.
Qed.

#[export] Instance sameScripts_preorder : PreOrder sameScripts.
Proof.
  split.
  - intros w. repeat split.
  - intros a b c (H1 & H2 & H3) (H4 & H5 & H6). unfold sameScripts.
    repeat split; congruence.
Qed.

#[export] Instance grows_preorder : PreOrder grows.
Proof.
  split.
  - intros s. exists []. symmetry. apply app_nil_r.
  - intros a b c [d1 H1] [d2 H2]. exists (d1 ++ d2)%list.
    rewrite H2, H1, app_assoc. reflexivity.
Qed.

#[export] Instance sameResults_preorder : PreOrder sameResults.
Proof.
  split.
  - intros s. split; reflexivity.
  - intros a b c [H1 H2] [H3 H4]. unfold sameResults. split; congruence.
Qed.

#[export] Instance anyAnalyzer_preorder : PreOrder anyAnalyzer.
Proof. split; [intros a; exact I | intros a b c _ _; exact I]. Qed.

#[export] Instance both_preorder {St} (Rw : relation World.t) (Rs : relation St)
  `{!PreOrder Rw} `{!PreOrder Rs} : PreOrder (both Rw Rs).
Proof.
  split.
  - intros x. split; reflexivity.
  - intros x y z [H1 H2] [H3 H4]. split; etransitivity; eassumption.
Qed.

Section Preserves.

Context {St : Type} (R : relation (World.t * St)) `{!PreOrder R}.

Lemma preserves_ret {A} (a : A) : preserves R (ret a).
Proof. intros env w s. reflexivity. Qed.

Lemma preserves_throw {A} (e : Error) : preserves R (@throw St A e).
Proof. intros env w s. reflexivity. Qed.

Lemma preserves_ask : preserves R (@ask St).
Proof. intros env w s. reflexivity. Qed.

Lemma preserves_get : preserves R (@get St).
Proof. intros env w s. reflexivity. Qed.

Lemma preserves_gets {A} (f : St -> A) : preserves R (gets f).
Proof. intros env w s. reflexivity. Qed.

Lemma preserves_getWorld : preserves R (@getWorld St).
Proof. intros env w s. reflexivity. Qed.

Lemma preserves_bind {A B} (m : M St A) (k : A -> M St B) :
  preserves R m -> (forall a, preserves R (k a)) -> preserves R (bind m k).
Proof.
  intros Hm Hk env w s. unfold bind. specialize (Hm env w s).
  destruct (m env w s) as [[[a|e] w'] s']; cbn [fst snd] in *.
  - etransitivity; [exact Hm|]. apply Hk.
  - exact Hm.
Qed.

Lemma preserves_tryCatch {A} (m : M St A) (h : Error -> M St A) :
  preserves R m -> (forall e, preserves R (h e)) -> preserves R (tryCatch m h).
Proof.
  intros Hm Hh env w s. unfold tryCatch. specialize (Hm env w s).
  destruct (m env w s) as [[[a|e] w'] s']; cbn [fst snd] in *.
  - exact Hm.
  - etransitivity; [exact Hm|]. apply Hh.
Qed.

Lemma preserves_tryFinally {A} (m : M St A) (f : M St unit) :
  preserves R m -> preserves R f -> preserves R (tryFinally m f).
Proof.
  intros Hm Hf env w s. unfold tryFinally. specialize (Hm env w s).
  destruct (m env w s) as [[r w'] s']; cbn [fst snd] in *.
  specialize (Hf env w' s').
  destruct (f env w' s') as [[[u|e] w''] s'']; cbn [fst snd] in *;
    etransitivity; eassumption.
Qed.

Lemma preserves_forEach {A} (l : list A) (f : A -> M St unit) :
  (forall x, preserves R (f x)) -> preserves R (forEach l f).
Proof.
  intros Hf. induction l as [|x rest IH]; cbn [forEach].
  - apply preserves_ret.
  - apply preserves_bind; [apply Hf|]. intros _. exact IH.
Qed.

Lemma preserves_when (c : bool) (m : M St unit) :
  preserves R m -> preserves R (when c m).
Proof. intros Hm. destruct c; [exact Hm|apply preserves_ret]. Qed.

Lemma preserves_pageOp :
  (forall w s, R (w, s) (World.tickOp w, s)) -> preserves R (@pageOp St).
Proof.
  intros H env w s. rewrite pageOp_run. cbn [fst snd]. apply H.
Qed.

Lemma preserves_now :
  (forall w s, R (w, s) (World.tickClock w, s)) -> preserves R (@now St).
Proof. intros H env w s. apply H. Qed.

Lemma preserves_modify (f : St -> St) :
  (forall w s, R (w, s) (w, f s)) -> preserves R (modify f).
Proof. intros H env w s. apply H. Qed.

Lemma preserves_modifyWorld (f : World.t -> World.t) :
  (forall w s, R (w, s) (f w, s)) -> preserves R (@modifyWorld St f).
Proof. intros H env w s. apply H. Qed.

End Preserves.

Lemma preserves_weaken {St A} (R R' : relation (World.t * St)) (m : M St A) :
  (forall x y, R x y -> R' x y) -> preserves R m -> preserves R' m.
Proof. intros H Hm env w s. apply H, Hm. Qed.

(** A method of a member object: what it does to the world carries over. *)
Lemma preserves_zoom {St Sub A} (Rw : relation World.t) (Rs : relation St)
  (Rsub : relation Sub) (proj : St -> Sub) (inj : Sub -> St -> St)
  (m : M Sub A) :
  preserves (both Rw Rsub) m ->
  (forall s sub, Rs s (inj sub s)) ->
  preserves (both Rw Rs) (zoom proj inj m).
Proof.
  intros Hm Hinj env w s. unfold zoom. specialize (Hm env w (proj s)).
  destruct (m env w (proj s)) as [[r w'] sub']. destruct Hm as [Hw _].
  split; [exact Hw|]. apply Hinj.
Qed.

(** Apply a lemma of the section above, finding the preorder. *)
Ltac apply_pre L := apply L; try typeclasses eauto.

(** Break a method into the combinators it is made of. *)
Ltac preserves_structure :=
  cbv zeta;
  lazymatch goal with
  | |- forall _, _ => intro
  | |- preserves _ (bind _ _) => apply_pre preserves_bind
  | |- preserves _ (ret _) => apply_pre preserves_ret
  | |- preserves _ (throw _) => apply_pre preserves_throw
  | |- preserves _ (tryCatch _ _) => apply_pre preserves_tryCatch
  | |- preserves _ (forEach _ _) => apply_pre preserves_forEach
  | |- preserves _ (when _ _) => apply_pre preserves_when
  | |- preserves _ ask => apply_pre preserves_ask
  | |- preserves _ get => apply_pre preserves_get
  | |- preserves _ (gets _) => apply_pre preserves_gets
  | |- preserves _ getWorld => apply_pre preserves_getWorld
  | |- preserves _ (evaluate _) => unfold evaluate
  | |- preserves _ (locatorCount _ _) => unfold locatorCount
  | |- preserves _ (boundingBox _ _) => unfold boundingBox
  | |- preserves _ (screenshot _) => unfold screenshot
  | |- preserves _ (if ?c then _ else _) => destruct c
  | |- preserves _ (match ?x with _ => _ end) => destruct x
  end.

(** The four ways in which a method touches the world or the state; [leaf]
    proves that the step is within the relation. *)
Ltac preserves_leaf leaf :=
  lazymatch goal with
  | |- preserves _ pageOp => apply preserves_pageOp; leaf
  | |- preserves _ now => apply preserves_now; leaf
  | |- preserves _ (modify _) => apply preserves_modify; leaf
  | |- preserves _ (modifyWorld _) => apply preserves_modifyWorld; leaf
  end.

Ltac relation_leaf :=
  intros;
  cbv [both sameBrowser sameScripts grows sameResults anyAnalyzer];
  cbn [fst snd]; repeat split; try reflexivity; try exact I;
  first [ exists []; cbn; rewrite app_nil_r; reflexivity
        | eexists; cbn; reflexivity ].

Ltac preserves_auto :=
  repeat first [ preserves_structure | preserves_leaf relation_leaf ].

(** ** What succeeds when no operation rejects *)

Section Succeeds.

Context {St : Type} (env : Env.t).

Lemma succeeds_ret {A} (a : A) : succeeds env (@ret St A a).
Proof. intros w s. do 3 eexists. reflexivity. Qed.

Lemma succeeds_ask : succeeds env (@ask St).
Proof. intros w s. do 3 eexists. reflexivity. Qed.

Lemma succeeds_get : succeeds env (@get St).
Proof. intros w s. do 3 eexists. reflexivity. Qed.

Lemma succeeds_gets {A} (f : St -> A) : succeeds env (gets f).
Proof. intros w s. do 3 eexists. reflexivity. Qed.

Lemma succeeds_getWorld : succeeds env (@getWorld St).
Proof. intros w s. do 3 eexists. reflexivity. Qed.

Lemma succeeds_now : succeeds env (@now St).
Proof. intros w s. do 3 eexists. reflexivity. Qed.

Lemma succeeds_modify (f : St -> St) : succeeds env (modify f).
Proof. intros w s. do 3 eexists. reflexivity. Qed.

Lemma succeeds_modifyWorld (f : World.t -> World.t) :
  succeeds env (@modifyWorld St f).
Proof. intros w s. do 3 eexists. reflexivity. Qed.

Lemma succeeds_pageOp : faultless env -> succeeds env (@pageOp St).
Proof.
  intros H w s. rewrite pageOp_run, H. do 3 eexists. reflexivity.
Qed.

Lemma succeeds_bind {A B} (m : M St A) (k : A -> M St B) :
  succeeds env m -> (forall a, succeeds env (k a)) -> succeeds env (bind m k).
Proof.
  intros Hm Hk w s. destruct (Hm w s) as (a & w' & s' & E).
  unfold bind. rewrite E. apply Hk.
Qed.

(** A [try] whose handler returns, returns. *)
Lemma succeeds_tryCatch {A} (m : M St A) (h : Error -> M St A) :
  (forall e, succeeds env (h e)) -> succeeds env (tryCatch m h).
Proof.
  intros Hh w s. unfold tryCatch.
  destruct (m env w s) as [[[a|e] w'] s'].
  - do 3 eexists. reflexivity.
  - apply Hh.
Qed.

Lemma succeeds_forEach {A} (l : list A) (f : A -> M St unit) :
  (forall x, succeeds env (f x)) -> succeeds env (forEach l f).
Proof.
  intros Hf. induction l as [|x rest IH]; cbn [forEach].
  - apply succeeds_ret.
  - apply succeeds_bind; [apply Hf|]. intros _. exact IH.
Qed.

Lemma succeeds_when (c : bool) (m : M St unit) :
  succeeds env m -> succeeds env (when c m).
Proof. intros Hm. destruct c; [exact Hm|apply succeeds_ret]. Qed.

Lemma succeeds_locatorCount page selector :
  faultless env -> Page.locate page selector <> None ->
  succeeds env (@locatorCount St page selector).
Proof.
  intros H L w s. unfold locatorCount, bind. rewrite pageOp_run, H.
  destruct (Page.locate page selector); [|congruence].
  do 3 eexists. reflexivity.
Qed.

Lemma succeeds_zoom {Sub A} (proj : St -> Sub) (inj : Sub -> St -> St)
  (m : M Sub A) :
  succeeds env m -> succeeds env (zoom proj inj m).
Proof.
  intros Hm w s. unfold zoom. destruct (Hm w (proj s)) as (a & w' & s' & E).
  rewrite E. do 3 eexists. reflexivity.
Qed.

End Succeeds.

Ltac succeeds_structure :=
  cbv zeta;
  lazymatch goal with
  | |- succeeds _ (bind _ _) => apply succeeds_bind; [|intro]
  | |- succeeds _ (ret _) => apply succeeds_ret
  | |- succeeds _ (tryCatch _ _) => apply succeeds_tryCatch; intro
  | |- succeeds _ (forEach _ _) => apply succeeds_forEach; intro
  | |- succeeds _ (when _ _) => apply succeeds_when
  | |- succeeds _ ask => apply succeeds_ask
  | |- succeeds _ get => apply succeeds_get
  | |- succeeds _ (gets _) => apply succeeds_gets
  | |- succeeds _ getWorld => apply succeeds_getWorld
  | |- succeeds _ now => apply succeeds_now
  | |- succeeds _ (modify _) => apply succeeds_modify
  | |- succeeds _ (modifyWorld _) => apply succeeds_modifyWorld
  | |- succeeds _ pageOp => apply succeeds_pageOp; assumption
  | |- succeeds _ (evaluate _) => unfold evaluate
  | |- succeeds _ (screenshot _) => unfold screenshot
  | |- succeeds _ (UXUITester.addResult _ _ _ _ _ _ _ _) =>
      unfold UXUITester.addResult
  | |- succeeds _ (UXUITester.onAnalyzer _) => apply succeeds_zoom
  | |- succeeds _ (if ?c then _ else _) => destruct c
  | |- succeeds _ (match ?x with _ => _ end) => destruct x
  end.

Ltac succeeds_auto := repeat succeeds_structure.

(** ** Findings and the overall score *)

Lemma addResult_run category test status score details severity elements
  recommendations env w s :
  UXUITester.addResult category test status score details severity elements
    recommendations env w s =
  (Ok tt, World.tickClock w,
   UXUITester.pushResult
     (TestResult.mk category test status score details severity
        (Env.clock env (World.ticks w)) elements recommendations) s).
Proof. reflexivity. Qed.

Section LoadTime.

Import UXUITester.

Lemma loadStatus_cases (loadTime : Z) :
  ((loadTime < 3000)%Z -> loadStatus loadTime = pass /\ loadScore loadTime = 10%Q)
  /\ ((3000 <= loadTime < 5000)%Z ->
      loadStatus loadTime = warning /\ loadScore loadTime = 7%Q)
  /\ ((5000 <= loadTime < 8000)%Z ->
      loadStatus loadTime = fail /\ loadScore loadTime = 4%Q)
  /\ ((8000 <= loadTime)%Z ->
      loadStatus loadTime = fail /\ loadScore loadTime = 1%Q).
Proof.
  unfold loadStatus, loadScore.
  destruct (Z.ltb_spec loadTime 3000), (Z.ltb_spec loadTime 5000),
    (Z.ltb_spec loadTime 8000); repeat split; intros; try reflexivity; lia.
Qed.

Example load_time_2999 : loadStatus 2999 = pass /\ loadScore 2999 = 10%Q.
Proof. split; reflexivity. Qed.

Example load_time_3000 : loadStatus 3000 = warning /\ loadScore 3000 = 7%Q.
Proof. split; reflexivity. Qed.

Example load_time_4999 : loadStatus 4999 = warning /\ loadScore 4999 = 7%Q.
Proof. split; reflexivity. Qed.

Example load_time_5000 : loadStatus 5000 = fail /\ loadScore 5000 = 4%Q.
Proof. split; reflexivity. Qed.

(** [testPerformance] when its three page operations succeed. *)
Lemma testPerformance_run env w s :
  Env.fault env (World.ops w) = false ->
  Env.fault env (S (World.ops w)) = false ->
  Env.fault env (S (S (World.ops w))) = false ->
  let loadTime :=
    (Env.clock env (S (World.ticks w)) - Env.clock env (World.ticks w))%Z in
  exists w' s' lcpFinding sizeFinding,
    testPerformance env w s = (Ok tt, w', s')
    /\ World.browserOpen w' = World.browserOpen w
    /\ results s' =
       (results s
          ++ [ TestResult.mk "Performance" "Page Load Time"
                 (loadStatus loadTime) (loadScore loadTime)
                 ("Page loaded in " ++ JS.string_of_Z loadTime
                    ++ "ms. Recommended: < 3000ms")
                 (loadSeverity loadTime)
                 (Env.clock env (S (S (World.ticks w)))) None None;
               lcpFinding; sizeFinding ])%list.
Proof.
  intros F0 F1 F2 loadTime.
  unfold testPerformance. unfold_monad.
  op_ok F0. op_ok F1. op_ok F2.
  rewrite !addResult_run. simpl_world.
  do 4 eexists. split; [reflexivity|]. split; [reflexivity|].
  cbn [results pushResult setPerformanceMetrics].
  rewrite <- !app_assoc. reflexivity.
Qed.

End LoadTime.

(** C3. When the page operations of [testPerformance] succeed, it appends a
    Page Load Time finding whose status and score follow the thresholds: a
    load time below 3000 ms is a pass with score 10; from 3000 ms and below
    5000 ms a warning with score 7; from 5000 ms and below 8000 ms score 4;
    from 8000 ms score 1.  A load time of exactly 3000 ms is a warning. *)
Theorem page_load_time_is_classified_by_thresholds :
  forall env w s,
    Env.fault env (World.ops w) = false ->
    Env.fault env (S (World.ops w)) = false ->
    Env.fault env (S (S (World.ops w))) = false ->
    let loadTime :=
      (Env.clock env (S (World.ticks w)) - Env.clock env (World.ticks w))%Z in
    exists w' s' finding others,
      UXUITester.testPerformance env w s = (Ok tt, w', s')
      /\ UXUITester.results s' = (UXUITester.results s ++ finding :: others)%list
      /\ TestResult.category finding = "Performance"
      /\ TestResult.test finding = "Page Load Time"
      /\ ((loadTime < 3000)%Z ->
          TestResult.status finding = pass /\ TestResult.score finding = 10%Q)
      /\ ((3000 <= loadTime < 5000)%Z ->
          TestResult.status finding = warning /\ TestResult.score finding = 7%Q)
      /\ ((5000 <= loadTime < 8000)%Z -> TestResult.score finding = 4%Q)
      /\ ((8000 <= loadTime)%Z -> TestResult.score finding = 1%Q)
      /\ (loadTime = 3000%Z -> TestResult.status finding = warning).
Proof.
  intros env w s F0 F1 F2 loadTime.
  destruct (testPerformance_run env w s F0 F1 F2)
    as (w' & s' & f2 & f3 & E & _ & R).
  destruct (loadStatus_cases loadTime) as (C1 & C2 & C3 & C4).
  eexists w', s', _, [f2; f3]. split; [exact E|]. split; [exact R|].
  cbn [TestResult.category TestResult.test TestResult.status TestResult.score].
  repeat split.
  - apply C1; assumption.
  - apply C1; assumption.
  - apply C2; assumption.
  - apply C2; assumption.
  - intros H. apply C3; assumption.
  - intros H. apply C4; assumption.
  - intros H. apply C2. fold loadTime. lia.
Qed.

(** On a page that takes 3000 ms between the two readings of the clock, the
    Page Load Time finding is a warning with score 7. *)
Lemma page_load_time_is_classified_by_thresholds_witness :
  exists w' s' finding others,
    UXUITester.testPerformance (Fixture.slow Fixture.scenarioPage)
      World.initial UXUITester.new = (Ok tt, w', s')
    /\ UXUITester.results s' = (UXUITester.results UXUITester.new ++ finding :: others)%list
    /\ TestResult.test finding = "Page Load Time"
    /\ TestResult.status finding = warning.
Proof.
  destruct (page_load_time_is_classified_by_thresholds
              (Fixture.slow Fixture.scenarioPage) World.initial UXUITester.new
              eq_refl eq_refl eq_refl)
    as (w' & s' & finding & others & E & R & _ & T & _ & _ & _ & _ & B).
  exists w', s', finding, others. repeat split; try assumption.
  apply B. reflexivity.
Defined.

Section OverallScore.

Import UXUITester.

Lemma inject_Z_succ (n : nat) :
  (inject_Z (Z.of_nat (S n)) == inject_Z (Z.of_nat n) + 1)%Q.
Proof. rewrite Nat2Z.inj_succ. unfold Z.succ. rewrite inject_Z_plus. reflexivity. Qed.

Lemma fold_score_bounds results :
  Scoring.scoresInRange results ->
  forall acc,
    (acc <= fold_left (fun sum r => sum + TestResult.score r) results acc
     /\ fold_left (fun sum r => sum + TestResult.score r) results acc
        <= acc + inject_Z (Z.of_nat (length results)) * 10)%Q.
Proof.
  induction results as [|r rest IH]; intros Hr acc.
  - simpl. split; [apply Qle_refl|]. change (inject_Z 0) with 0%Q. lra.
  - assert (Hrest : Scoring.scoresInRange rest) by (intros r' Hin; apply Hr; right; exact Hin).
    destruct (Hr r (or_introl eq_refl)) as [H0 H10].
    destruct (IH Hrest (acc + TestResult.score r)%Q) as [Hlo Hhi].
    cbn [fold_left length]. rewrite inject_Z_succ. split; lra.
Qed.

Lemma totalScore_bounds results :
  Scoring.scoresInRange results ->
  (0 <= totalScore results /\ totalScore results <= maxScore results)%Q.
Proof.
  intros Hr. destruct (fold_score_bounds results Hr 0%Q) as [Hlo Hhi].
  unfold totalScore, maxScore. split; [exact Hlo|]. lra.
Qed.

Lemma maxScore_positive results :
  results <> [] -> (0 < maxScore results)%Q.
Proof.
  destruct results as [|r rest]; [congruence|]. intros _.
  unfold maxScore. cbn [length]. rewrite inject_Z_succ.
  assert (0 <= inject_Z (Z.of_nat (length rest)))%Q.
  { change 0%Q with (inject_Z 0). rewrite <- Zle_Qle. lia. }
  lra.
Qed.

(** With at least one finding, the overall score is the mean score
    rescaled to 0..100 and rounded to the nearest integer. *)
Lemma overallScore_of_findings results :
  results <> [] ->
  overallScore results =
  JS.Finite (inject_Z (JS.mathRound (totalScore results / maxScore results * 100))).
Proof.
  intros Hne. pose proof (maxScore_positive results Hne) as Hpos.
  unfold overallScore, JS.div.
  destruct (Qeq_bool (maxScore results) 0) eqn:E.
  - apply Qeq_bool_eq in E. rewrite E in Hpos. discriminate.
  - reflexivity.
Qed.

Lemma overallScore_as_claimed results :
  results <> [] ->
  (totalScore results / maxScore results * 100
   == 100 * totalScore results
      / (10 * inject_Z (Z.of_nat (length results))))%Q.
Proof.
  intros Hne. pose proof (maxScore_positive results Hne) as Hpos.
  unfold maxScore in *. field. intros H. rewrite H in Hpos.
  revert Hpos. apply Qle_not_lt. discriminate.
Qed.

Lemma overallScore_in_range results :
  results <> [] ->
  Scoring.scoresInRange results ->
  exists k,
    overallScore results = JS.Finite (inject_Z k)
    /\ (0 <= k <= 100)%Z
    /\ k = JS.mathRound
             (100 * totalScore results
              / (10 * inject_Z (Z.of_nat (length results)))).
Proof.
  intros Hne Hr.
  pose proof (maxScore_positive results Hne) as Hpos.
  destruct (totalScore_bounds results Hr) as [Hlo Hhi].
  exists (JS.mathRound (totalScore results / maxScore results * 100)).
  split; [apply overallScore_of_findings; exact Hne|].
  assert (Hq : (0 <= totalScore results / maxScore results
                /\ totalScore results / maxScore results <= 1)%Q).
  { split.
    - apply Qle_shift_div_l; [exact Hpos|]. lra.
    - apply Qle_shift_div_r; [exact Hpos|]. lra. }
  destruct Hq as [Hq0 Hq1].
  unfold JS.mathRound. repeat split.
  - apply Z.le_trans with (Qfloor 0); [discriminate|].
    apply Qfloor_resp_le. lra.
  - apply Z.le_trans with (Qfloor (100 + (1 # 2))); [|discriminate].
    apply Qfloor_resp_le. lra.
  - apply Qfloor_comp. rewrite (overallScore_as_claimed results Hne). reflexivity.
Qed.

Lemma generateReport_run env w s :
  generateReport env w s =
  (Ok (UXReport.mk Config.url (Env.clock env (World.ticks w))
         (overallScore (results s)) (results s) (performanceMetrics s)
         (accessibilityIssues s) (responsiveResults s) (recommendationsOf s)),
   World.tickClock w, s).
Proof. reflexivity. Qed.

End OverallScore.

(** C1: the code at the input on which it departs from the claim.  A report
    generated before any finding was recorded has [NaN] as overall score,
    not 0: [generateReport] divides the zero total by the zero maximum, and
    the score is not within 0..100. *)
Theorem generateReport_without_findings_scores_NaN :
  forall env w,
  exists report w',
    UXUITester.generateReport env w UXUITester.new = (Ok report, w', UXUITester.new)
    /\ UXReport.results report = []
    /\ UXReport.overallScore report = JS.NaN
    /\ ~ JS.between 0 100 (UXReport.overallScore report).
Proof.
  intros env w. rewrite generateReport_run.
  do 2 eexists. split; [reflexivity|]. cbn. repeat split. intros H. exact H.
Qed.

(** ** Recommendations *)

Section Recommendations.

Import UXUITester.

(** The entries of [generateRecommendations], one group per [push]. *)
Lemma recommendationsOf_groups s :
  let highPriorityIssues := filter isHighPriority (results s) in
  let mediumPriorityIssues := filter isMediumPriority (results s) in
  let responsiveIssues := filter hasIssues (responsiveResults s) in
  let criticalA11yIssues := filter isCritical (accessibilityIssues s) in
  let metrics := performanceMetrics s in
  recommendationsOf s =
  ((if (0 <? length highPriorityIssues)%nat
    then highPriorityHeader (length highPriorityIssues)
           :: map itemize (JS.slice0 3 highPriorityIssues)
    else [])
   ++ (if (PerformanceMetrics.loadTime metrics >? 3000)%Z
       then [ loadTimeAdvice ] else [])
   ++ (if JS.Qltb 2500 (PerformanceMetrics.largestContentfulPaint metrics)
       then [ lcpAdvice ] else [])
   ++ (match lcpUrlOf metrics with
       | Some lcpUrl => [ lcpResourceAdvice lcpUrl ]
       | None => []
       end)
   ++ (match find isMissingAlt (results s) with
       | Some _ => [ altTextAdvice ]
       | None => []
       end)
   ++ (if (0 <? length responsiveIssues)%nat
       then [ responsiveAdvice (map ResponsiveTestResult.device responsiveIssues) ]
       else [])
   ++ (if (0 <? length criticalA11yIssues)%nat
       then [ criticalA11yAdvice (length criticalA11yIssues) ] else [])
   ++ (if (5 <? length mediumPriorityIssues)%nat
       then [ mediumPriorityAdvice (length mediumPriorityIssues) ] else [])
   ++ generalBestPractices)%list.
Proof.
  unfold recommendationsOf, pushIf. cbv zeta.
  destruct (0 <? length (filter isHighPriority (results s)))%nat;
    destruct (PerformanceMetrics.loadTime (performanceMetrics s) >? 3000)%Z;
    destruct (JS.Qltb 2500
                (PerformanceMetrics.largestContentfulPaint (performanceMetrics s)));
    destruct (lcpUrlOf (performanceMetrics s));
    destruct (find isMissingAlt (results s));
    destruct (0 <? length (filter hasIssues (responsiveResults s)))%nat;
    destruct (0 <? length (filter isCritical (accessibilityIssues s)))%nat;
    destruct (5 <? length (filter isMediumPriority (results s)))%nat;
    cbn [app]; rewrite <- ?app_assoc; reflexivity.
Qed.

End Recommendations.

(** C8, as stated, fails: a tester that has recorded one critical violation
    and nothing else recommends addressing it, an entry that is none of the
    seven the claim allows, where the claim leaves only the general
    suggestions. *)
Lemma recommendations_hold_an_entry_outside_the_claimed_list :
  UXUITester.recommendationsOf Claimed.oneCriticalViolation
  = UXUITester.criticalA11yAdvice 1 :: UXUITester.generalBestPractices
  /\ Claimed.recommendations Claimed.oneCriticalViolation
     = UXUITester.generalBestPractices
  /\ UXUITester.recommendationsOf Claimed.oneCriticalViolation
     <> Claimed.recommendations Claimed.oneCriticalViolation.
Proof.
  split; [reflexivity|]. split; [reflexivity|].
  vm_compute. discriminate.
Qed.

(** C8, amended. [generateRecommendations] changes nothing and returns, in
    this order: when there are high-severity failures, a header with their
    number and then up to three of them itemized; the load-time advice when
    the load time exceeds 3000 ms; the LCP advice when LCP exceeds 2500 ms;
    the advice naming the LCP resource whenever its URL is known, whatever
    the LCP; the alt-text advice when an Image Alt Text finding failed; the
    responsive-design advice naming the devices with issues; the advice on
    critical or serious accessibility violations when there is one, with
    their number; the count of medium-severity failures when it exceeds 5;
    and last the three general suggestions. *)
Theorem recommendations_follow_the_priority_order :
  forall env w s,
    let highPriorityIssues := filter UXUITester.isHighPriority (UXUITester.results s) in
    let mediumPriorityIssues := filter UXUITester.isMediumPriority (UXUITester.results s) in
    let responsiveIssues := filter UXUITester.hasIssues (UXUITester.responsiveResults s) in
    let criticalA11yIssues := filter UXUITester.isCritical (UXUITester.accessibilityIssues s) in
    let metrics := UXUITester.performanceMetrics s in
    UXUITester.generateRecommendations env w s =
    (Ok
       ((if (0 <? length highPriorityIssues)%nat
         then UXUITester.highPriorityHeader (length highPriorityIssues)
                :: map UXUITester.itemize (firstn 3 highPriorityIssues)
         else [])
        ++ (if (PerformanceMetrics.loadTime metrics >? 3000)%Z
            then [ UXUITester.loadTimeAdvice ] else [])
        ++ (if JS.Qltb 2500 (PerformanceMetrics.largestContentfulPaint metrics)
            then [ UXUITester.lcpAdvice ] else [])
        ++ (match UXUITester.lcpUrlOf metrics with
            | Some lcpUrl => [ UXUITester.lcpResourceAdvice lcpUrl ]
            | None => []
            end)
        ++ (match find UXUITester.isMissingAlt (UXUITester.results s) with
            | Some _ => [ UXUITester.altTextAdvice ]
            | None => []
            end)
        ++ (if (0 <? length responsiveIssues)%nat
            then [ UXUITester.responsiveAdvice
                     (map ResponsiveTestResult.device responsiveIssues) ]
            else [])
        ++ (if (0 <? length criticalA11yIssues)%nat
            then [ UXUITester.criticalA11yAdvice (length criticalA11yIssues) ]
            else [])
        ++ (if (5 <? length mediumPriorityIssues)%nat
            then [ UXUITester.mediumPriorityAdvice (length mediumPriorityIssues) ]
            else [])
        ++ UXUITester.generalBestPractices)%list,
     w, s).
Proof.
  intros env w s. cbv zeta.
  unfold UXUITester.generateRecommendations, gets.
  rewrite recommendationsOf_groups. reflexivity.
Qed.

(** ** Colour contrast *)

Section ContrastFacts.

Import Contrast.

Lemma digitRuns_digits (d : Decimal.uint) :
  forall cur rest,
    digitRuns (Some cur) (NilEmpty.string_of_uint d ++ rest)
    = digitRuns (Some (Nat.of_uint_acc d cur)) rest.
Proof.
  induction d; intros cur rest; cbn [NilEmpty.string_of_uint Nat.of_uint_acc];
    [reflexivity| ..].
  all: cbn [append digitRuns].
  all: match goal with
       | |- (if isDigit ?c then _ else _) = _ =>
           change (isDigit c) with true; cbv beta iota
       end.
  all: rewrite IHd, Nat.tail_mul_spec.
  all: match goal with
       | |- digitRuns (Some ?a) _ = digitRuns (Some ?b) _ =>
           replace a with b; [reflexivity|]
       end.
  all: f_equal.
  all: match goal with
       | |- context [(nat_of_ascii ?c - 48)%nat] =>
           let v := eval vm_compute in (nat_of_ascii c - 48)%nat in
           change (nat_of_ascii c - 48)%nat with v
       end.
  all: lia.
Qed.

(** Before a run of digits, no run is being read or a run of value zero:
    it makes no difference. *)
Lemma digitRuns_start (c : ascii) (s : string) :
  isDigit c = true ->
  digitRuns None (String c s) = digitRuns (Some 0) (String c s).
Proof. intros H. cbn [digitRuns]. rewrite H. reflexivity. Qed.

Lemma digitRuns_number (n : nat) (rest : string) :
  digitRuns None (JS.string_of_nat n ++ rest) = digitRuns (Some n) rest.
Proof.
  unfold JS.string_of_nat.
  pose proof (DecimalNat.Unsigned.of_to n) as E. unfold Nat.of_uint in E.
  destruct (Nat.to_uint n) as [|d|d|d|d|d|d|d|d|d|d] eqn:U;
    cbn [NilZero.string_of_uint].
  { cbn in E. subst n. reflexivity. }
  all: match goal with
       | |- digitRuns None (NilEmpty.string_of_uint ?u ++ ?r) = _ =>
           rewrite <- E, <- (digitRuns_digits u 0 r);
           cbn [NilEmpty.string_of_uint append];
           apply digitRuns_start; reflexivity
       end.
Qed.

Lemma digitRuns_rgb (r g b : nat) : digitRuns None (Wcag.rgb r g b) = [r; g; b].
Proof.
  unfold Wcag.rgb.
  change ("rgb(" ++ ?s) with (String "r" (String "g" (String "b" (String "(" s)))).
  cbn [digitRuns isDigit nat_of_ascii]. cbn -[digitRuns JS.string_of_nat append].
  rewrite digitRuns_number.
  cbn [digitRuns append]. cbn -[digitRuns JS.string_of_nat append].
  rewrite digitRuns_number.
  cbn [digitRuns append]. cbn -[digitRuns JS.string_of_nat append].
  rewrite digitRuns_number.
  reflexivity.
Qed.

Lemma parseRgb_rgb (r g b : nat) :
  parseRgb (Wcag.rgb r g b) = Some (INR r, INR g, INR b).
Proof. unfold parseRgb. rewrite digitRuns_rgb. reflexivity. Qed.

Local Open Scope R_scope.

Lemma linearize_linear (x : R) : linearize x = Wcag.linear (x / 255).
Proof. reflexivity. Qed.

Lemma getLuminance_luminance (r g b : nat) :
  getLuminance (INR r) (INR g) (INR b) = Wcag.luminance (r, g, b).
Proof. reflexivity. Qed.

Lemma linear_nonneg (c : R) : 0 <= c -> 0 <= Wcag.linear c.
Proof.
  intros H. unfold Wcag.linear. destruct (Rle_dec c (3928 / 100000)).
  - lra.
  - unfold Rpower. left. apply exp_pos.
Qed.

Lemma channel_nonneg (n : nat) : 0 <= INR n / 255.
Proof. pose proof (pos_INR n). lra. Qed.

Lemma luminance_nonneg (colour : Wcag.Colour) : 0 <= Wcag.luminance colour.
Proof.
  destruct colour as [[r g] b]. unfold Wcag.luminance.
  pose proof (linear_nonneg _ (channel_nonneg r)).
  pose proof (linear_nonneg _ (channel_nonneg g)).
  pose proof (linear_nonneg _ (channel_nonneg b)).
  lra.
Qed.





(** [Math.max] over [Math.min], each plus 0.05, is the WCAG ratio. *)
Lemma max_over_min (l1 l2 : R) :
  (Rmax l1 l2 + 5 / 100) / (Rmin l1 l2 + 5 / 100)
  = if Rle_dec l1 l2
    then (l2 + 5 / 100) / (l1 + 5 / 100)
    else (l1 + 5 / 100) / (l2 + 5 / 100).
Proof. unfold Rmax, Rmin. destruct (Rle_dec l1 l2); reflexivity. Qed.

Lemma getContrast_rgb (r1 g1 b1 r2 g2 b2 : nat) :
  getContrast (Wcag.rgb r1 g1 b1) (Wcag.rgb r2 g2 b2)
  = Some (Wcag.contrastRatio (r1, g1, b1) (r2, g2, b2)).
Proof.
  unfold getContrast. rewrite !parseRgb_rgb. cbv zeta.
  rewrite max_over_min, !getLuminance_luminance. reflexivity.
Qed.






End ContrastFacts.


(** ** The probes: what they leave alone, and when they return *)

(** Unfold the helpers of the analyzer and of the tester. *)
Ltac unfold_helper :=
  lazymatch goal with
  | |- preserves _ (ScreenshotAnalyzer.recordProblemArea _ _ _ _ _ _ _ _) =>
      unfold ScreenshotAnalyzer.recordProblemArea
  | |- preserves _ (ScreenshotAnalyzer.takeElementScreenshot _ _ _) =>
      unfold ScreenshotAnalyzer.takeElementScreenshot
  | |- preserves _ (ScreenshotAnalyzer.storeProblemArea _ _ _) =>
      unfold ScreenshotAnalyzer.storeProblemArea
  | |- preserves _ (UXUITester.addResult _ _ _ _ _ _ _ _) =>
      unfold UXUITester.addResult
  | |- preserves _ (UXUITester.recordEvidence _ _) =>
      unfold UXUITester.recordEvidence
  | |- preserves _ (UXUITester.onAnalyzer _) =>
      apply (preserves_zoom _ _ anyAnalyzer); [|relation_leaf]
  | |- preserves _ UXUITester.axeDefined => unfold UXUITester.axeDefined
  | |- preserves _ UXUITester.requireResolve => unfold UXUITester.requireResolve
  | |- preserves _ UXUITester.newContext => unfold UXUITester.newContext
  | |- preserves _ (UXUITester.closeContext _) => unfold UXUITester.closeContext
  | |- preserves _ (UXUITester.recordViolation _) =>
      unfold UXUITester.recordViolation
  | |- preserves _ (UXUITester.addScriptTag _) => unfold UXUITester.addScriptTag
  end.

Ltac preserves_probe :=
  repeat first [ preserves_structure | preserves_leaf relation_leaf | unfold_helper ].

Section ProbesPreserve.

Import UXUITester.

Abbreviation quietly := (preserves (both sameScripts grows)).

Lemma testPerformance_quietly : quietly testPerformance.
Proof. unfold testPerformance. preserves_probe. Qed.

Lemma testVisualHierarchy_quietly : quietly testVisualHierarchy.
Proof. unfold testVisualHierarchy. preserves_probe. Qed.

Lemma testColorContrast_quietly : quietly testColorContrast.
Proof. unfold testColorContrast. preserves_probe. Qed.

Lemma testNavigation_quietly : quietly testNavigation.
Proof. unfold testNavigation. preserves_probe. Qed.

Lemma testReadability_quietly : quietly testReadability.
Proof. unfold testReadability. preserves_probe. Qed.

Lemma testCTAButtons_quietly : quietly testCTAButtons.
Proof. unfold testCTAButtons. preserves_probe. Qed.

Lemma testForms_quietly : quietly testForms.
Proof. unfold testForms. preserves_probe. Qed.

Lemma testInteractiveElements_quietly : quietly testInteractiveElements.
Proof. unfold testInteractiveElements. preserves_probe. Qed.

Lemma testKeyboardNavigation_quietly : quietly testKeyboardNavigation.
Proof. unfold testKeyboardNavigation. preserves_probe. Qed.

Lemma testSEOBasics_quietly : quietly testSEOBasics.
Proof. unfold testSEOBasics. preserves_probe. Qed.

Lemma testDevice_quietly device : quietly (testDevice device).
Proof. unfold testDevice. preserves_probe. Qed.

Lemma testResponsiveOn_quietly devices : quietly (testResponsiveOn devices).
Proof.
  unfold testResponsiveOn. apply preserves_forEach; [typeclasses eauto|].
  intros device. apply testDevice_quietly.
Qed.

Lemma pressTab_quietly n : forall i seen, quietly (pressTab n i seen).
Proof.
  induction n as [|n IH]; intros i seen; cbn [pressTab].
  - apply preserves_ret. typeclasses eauto.
  - preserves_probe. apply IH.
Qed.

Lemma runAxe_quietly axeLoaded : quietly (runAxe axeLoaded).
Proof. unfold runAxe. preserves_probe. Qed.

Lemma checkTabOrder_quietly : quietly checkTabOrder.
Proof.
  unfold checkTabOrder.
  apply preserves_tryCatch; [typeclasses eauto| |preserves_probe].
  apply preserves_bind; [typeclasses eauto|apply pressTab_quietly|].
  preserves_probe.
Qed.

Lemma checkSkipLink_quietly : quietly checkSkipLink.
Proof. unfold checkSkipLink. preserves_probe. Qed.

Lemma checkLang_quietly : quietly checkLang.
Proof. unfold checkLang. preserves_probe. Qed.

Lemma checkLandmarks_quietly : quietly checkLandmarks.
Proof. unfold checkLandmarks. preserves_probe. Qed.

Lemma scoreAccessibility_quietly : quietly scoreAccessibility.
Proof. unfold scoreAccessibility. preserves_probe. Qed.

(** After axe-core is loaded, [testAccessibility] requests no script. *)
Lemma afterLoadAxe_quietly axeLoaded :
  quietly (runAxe axeLoaded ;; checkTabOrder ;; checkSkipLink ;; checkLang ;;
           checkLandmarks ;; scoreAccessibility).
Proof.
  repeat (apply preserves_bind; [typeclasses eauto| |intros _]);
    auto using runAxe_quietly, checkTabOrder_quietly, checkSkipLink_quietly,
      checkLang_quietly, checkLandmarks_quietly, scoreAccessibility_quietly.
Qed.

End ProbesPreserve.

Section ProbesExtend.

Import UXUITester.

Abbreviation extending := (preserves (both sameBrowser grows)).

Lemma quietly_extending {A} (m : M t A) :
  preserves (both sameScripts grows) m -> extending m.
Proof.
  apply preserves_weaken. intros x y [(Hb & _ & _) Hg]. split; assumption.
Qed.

Lemma loadAxe_extending : extending loadAxe.
Proof. unfold loadAxe. preserves_probe. Qed.

Lemma testAccessibility_extending : extending testAccessibility.
Proof.
  unfold testAccessibility.
  apply preserves_tryCatch; [typeclasses eauto| |preserves_probe].
  apply preserves_bind; [typeclasses eauto|apply loadAxe_extending|].
  intros axeLoaded. apply quietly_extending, afterLoadAxe_quietly.
Qed.

Lemma probes_extending p : In p probes -> extending p.
Proof.
  unfold probes. cbn [In].
  intros [<-|[<-|[<-|[<-|[<-|[<-|[<-|[<-|[<-|[<-|[<-|[<-|[]]]]]]]]]]]]];
    try apply testAccessibility_extending; apply quietly_extending;
    auto using testPerformance_quietly, testVisualHierarchy_quietly,
      testColorContrast_quietly, testNavigation_quietly, testReadability_quietly,
      testCTAButtons_quietly, testForms_quietly, testInteractiveElements_quietly,
      testKeyboardNavigation_quietly, testSEOBasics_quietly.
  apply testResponsiveOn_quietly.
Qed.

Lemma inOrder_extending l :
  (forall p, In p l -> extending p) -> extending (inOrder l).
Proof.
  intros H. induction l as [|p rest IH]; cbn [inOrder forEach].
  - apply preserves_ret. typeclasses eauto.
  - apply preserves_bind; [typeclasses eauto| |intros _].
    + apply H. left. reflexivity.
    + apply IH. intros q Hq. apply H. right. exact Hq.
Qed.

(** [testResponsive] and [testAccessibility] return in every environment. *)
Lemma testDevice_succeeds env device : succeeds env (testDevice device).
Proof. unfold testDevice. succeeds_auto. Qed.

Lemma testResponsiveOn_succeeds env devices :
  succeeds env (testResponsiveOn devices).
Proof.
  unfold testResponsiveOn. apply succeeds_forEach. intros device.
  apply testDevice_succeeds.
Qed.

Lemma testAccessibility_succeeds env : succeeds env testAccessibility.
Proof. unfold testAccessibility. succeeds_auto. Qed.

End ProbesExtend.

(** ** The orchestrator *)

Section Orchestrator.

Import UXUITester.

Lemma bind_Ok_inv {St A B} (m : M St A) (k : A -> M St B) env w s b w' s' :
  bind m k env w s = (Ok b, w', s') ->
  exists a w0 s0, m env w s = (Ok a, w0, s0) /\ k a env w0 s0 = (Ok b, w', s').
Proof.
  unfold bind. destruct (m env w s) as [[[a|e] w0] s0]; [|discriminate].
  intros H. exists a, w0, s0. split; [reflexivity|exact H].
Qed.

Lemma bind_assoc {St A B C} (m : M St A) (k : A -> M St B) (h : B -> M St C)
  env w s :
  bind (bind m k) h env w s = bind m (fun a => bind (k a) h) env w s.
Proof. unfold bind. destruct (m env w s) as [[[a|e] w'] s']; reflexivity. Qed.

Lemma bind_ext {St A B} (m : M St A) (k1 k2 : A -> M St B) env w s :
  (forall a w' s', k1 a env w' s' = k2 a env w' s') ->
  bind m k1 env w s = bind m k2 env w s.
Proof.
  intros H. unfold bind. destruct (m env w s) as [[[a|e] w'] s'];
    [apply H|reflexivity].
Qed.

Lemma inOrder_app before p after env w s :
  inOrder (before ++ p :: after) env w s
  = (inOrder before ;; p ;; inOrder after) env w s.
Proof.
  revert w s. induction before as [|q rest IH]; intros w s.
  - reflexivity.
  - change ((q ;; inOrder (rest ++ p :: after)) env w s
            = ((q ;; inOrder rest) ;; p ;; inOrder after) env w s).
    rewrite bind_assoc. apply bind_ext. intros _ w' s'. apply IH.
Qed.

Lemma runAllTests_attempt env w s :
  runAllTests env w s
  = tryFinally (tryCatch attempt (fun error => throw error)) cleanup env w s.
Proof.
  unfold runAllTests, attempt, tryFinally, tryCatch.
  match goal with
  | |- (let (_, _) := let (_, _) := ?a env w s in _ in _)
       = (let (_, _) := let (_, _) := ?b env w s in _ in _) =>
      assert (E : a env w s = b env w s); [|rewrite E; reflexivity]
  end.
  unfold inOrder, probes. cbn [forEach]. unfold bind.
  repeat match goal with
         | |- context [match ?p env ?w' ?s' with _ => _ end] =>
             destruct (p env w' s') as [[[?|?] ?] ?]; try reflexivity
         end.
Qed.

Lemma initialize_Ok env w s w' s' :
  initialize env w s = (Ok tt, w', s') -> World.browserOpen w' = true.
Proof.
  unfold initialize. unfold_monad. rewrite pageOp_run.
  destruct (Env.fault env (World.ops w)); [discriminate|]. cbv beta iota.
  rewrite pageOp_run. destruct (Env.fault env _); [discriminate|]. cbv beta iota.
  rewrite pageOp_run. destruct (Env.fault env _); [discriminate|].
  intros [= <- _]. reflexivity.
Qed.

Lemma goto_browser env w s : 
  World.browserOpen (snd (fst (goto env w s))) = World.browserOpen w.
Proof. unfold goto. rewrite pageOp_run. reflexivity. Qed.

(** [cleanup] leaves the tester as it is; with the browser open and its
    operation accepted, it closes the browser and every context. *)
Lemma cleanup_run env w s :
  exists r w', cleanup env w s = (r, w', s)
    /\ (World.browserOpen w = true ->
        Env.fault env (World.ops w) = false ->
        r = Ok tt /\ World.browserOpen w' = false /\ World.contexts w' = []).
Proof.
  unfold cleanup. unfold_monad.
  destruct (World.browserOpen w).
  - rewrite pageOp_run. destruct (Env.fault env (World.ops w)).
    + do 2 eexists. split; [reflexivity|]. discriminate.
    + do 2 eexists. split; [reflexivity|]. intros _ _. repeat split.
  - do 2 eexists. split; [reflexivity|]. discriminate.
Qed.

End Orchestrator.

(** ** Responsive probe *)

(** Case on whether the next page operation rejects. *)
Ltac next_op :=
  rewrite pageOp_run; simpl_world;
  match goal with
  | |- context [if Env.fault ?e ?n then _ else _] => destruct (Env.fault e n)
  end; cbv beta iota.

Section Responsive.

Import UXUITester.

(** The device failed before its responsive result was pushed. *)
Ltac failed_early :=
  rewrite ?addResult_run; do 2 eexists; split; [reflexivity|];
  split;
  [ right; split; [reflexivity|]; eexists; reflexivity
  | do 2 eexists; split; [reflexivity|]; split; reflexivity ].

(** The responsive result was pushed, whatever happens next. *)
Ltac pushed :=
  rewrite ?addResult_run; do 2 eexists; split; [reflexivity|];
  cbn [responsiveResults results pushResult pushResponsiveResult];
  split;
  [ left; eexists; split; reflexivity
  | do 2 eexists; split;
    [rewrite <- ?app_assoc; reflexivity | split; reflexivity] ].

(** When the navigation of the device's page rejects, the device gets the
    warning finding and no responsive result, and its context stays
    open. *)
Lemma testDevice_failed_navigation device env w s :
  Env.fault env (World.ops w) = false ->
  Env.fault env (S (World.ops w)) = false ->
  Env.fault env (S (S (World.ops w))) = true ->
  exists w',
    testDevice device env w s
    = (Ok tt, w',
       pushResult
         (TestResult.mk "Responsive Design" (Device.name device) warning 5
            "Could not fully test responsive design for this device" low
            (Env.clock env (World.ticks w)) None None) s)
    /\ World.contexts w' = (World.contexts w ++ [World.nextContext w])%list.
Proof.
  intros F0 F1 F2. unfold testDevice, newContext. unfold_monad.
  op_ok F0. op_ok F1. op_ok F2.
  rewrite addResult_run. simpl_world. eexists. split; reflexivity.
Qed.

(** When nothing fails, the context opened for the device is closed
    again. *)
Lemma testDevice_closes_its_context device env w s :
  faultless env ->
  exists w' s',
    testDevice device env w s = (Ok tt, w', s')
    /\ World.contexts w'
       = filter (fun c => negb (c =? World.nextContext w)%nat)
           (World.contexts w ++ [World.nextContext w]).
Proof.
  intros Hf. unfold testDevice, newContext, closeContext. unfold_monad.
  do 5 (rewrite pageOp_run, (Hf _); simpl_world; cbv beta iota).
  destruct (isMobile device); cbv beta iota.
  - do 2 (rewrite pageOp_run, (Hf _); simpl_world; cbv beta iota).
    rewrite addResult_run.
    do 2 (rewrite pageOp_run, (Hf _); simpl_world; cbv beta iota).
    do 2 eexists. split; reflexivity.
  - do 1 (rewrite pageOp_run, (Hf _); simpl_world; cbv beta iota).
    rewrite addResult_run.
    do 2 (rewrite pageOp_run, (Hf _); simpl_world; cbv beta iota).
    do 2 eexists. split; reflexivity.
Qed.

(** One device: [testDevice] returns.  Either it pushed the device's
    responsive result, or it left the responsive results alone and
    appended exactly the warning finding. *)
Lemma testDevice_outcome device env w s :
  exists w' s',
    testDevice device env w s = (Ok tt, w', s')
    /\ ((exists r,
           responsiveResults s' = (responsiveResults s ++ [r])%list
           /\ ResponsiveTestResult.device r = Device.name device)
        \/ (responsiveResults s' = responsiveResults s
            /\ exists timestamp,
                 results s'
                 = (results s ++ [Degraded.device (Device.name device) timestamp])%list))
    /\ exists finding added,
         results s' = (results s ++ finding :: added)%list
         /\ TestResult.category finding = "Responsive Design"
         /\ TestResult.test finding = Device.name device.
Proof.
  unfold testDevice, newContext, closeContext. unfold_monad.
  next_op; [failed_early|].
  next_op; [failed_early|].
  next_op; [failed_early|].
  next_op; [failed_early|].
  next_op; [failed_early|].
  destruct (isMobile device); cbv beta iota.
  - next_op; [failed_early|].
    next_op; [failed_early|].
    rewrite addResult_run.
    next_op; [pushed|].
    next_op; [pushed|].
    pushed.
  - next_op; [failed_early|].
    rewrite addResult_run.
    next_op; [pushed|].
    next_op; [pushed|].
    pushed.
Qed.

(** A failure on one device does not keep the others from being tested:
    [testResponsive] returns, and every device has its finding. *)
Lemma testResponsiveOn_outcome devices env :
  forall w s,
  exists w' s' added,
    testResponsiveOn devices env w s = (Ok tt, w', s')
    /\ results s' = (results s ++ added)%list
    /\ Forall
         (fun device =>
            exists finding,
              In finding added
              /\ TestResult.category finding = "Responsive Design"
              /\ TestResult.test finding = Device.name device)
         devices.
Proof.
  unfold testResponsiveOn.
  induction devices as [|device rest IH]; intros w s; cbn [forEach].
  - exists w, s, []. rewrite app_nil_r. repeat split. constructor.
  - destruct (testDevice_outcome device env w s)
      as (w1 & s1 & E & _ & finding & added & R & C & T).
    rewrite (bind_Ok _ _ _ _ _ _ _ _ E).
    destruct (IH w1 s1) as (w' & s' & added' & E' & R' & F').
    exists w', s', (finding :: added ++ added')%list.
    split; [exact E'|]. split.
    + rewrite R', R, <- app_assoc. reflexivity.
    + constructor.
      * exists finding. split; [left; reflexivity|]. split; assumption.
      * eapply Forall_impl; [|exact F'].
        intros d (f & Hin & Hc & Ht). exists f.
        split; [|split; assumption].
        right. apply in_or_app. right. exact Hin.
Qed.

End Responsive.

(** C6: the code at the input on which it departs from the claim.  The
    navigation of the first device's page rejects (operation 6).  The
    failure is swallowed as one warning finding and the four other devices
    are tested and reported, but the context opened for the failing device,
    number 1, is still open when [testResponsive] returns, next to the
    main context 0. *)
Theorem testResponsive_leaves_the_failing_context_open :
  let env := Fixture.failingAt 6 Fixture.blankPage in
  exists w' s',
    UXUITester.run
      (UXUITester.initialize ;; UXUITester.goto ;; UXUITester.testResponsive) env
    = (Ok tt, w', s')
    /\ World.contexts w' = [0; 1]
    /\ map (fun r => (TestResult.test r, TestResult.status r, TestResult.severity r))
         (UXUITester.results s')
       = [ ("Desktop 1920x1080", warning, low);
           ("Desktop 1366x768", pass, low);
           ("Tablet iPad", pass, low);
           ("Mobile iPhone 12", pass, low);
           ("Mobile Samsung S21", pass, low) ]
    /\ map ResponsiveTestResult.device (UXUITester.responsiveResults s')
       = [ "Desktop 1366x768"; "Tablet iPad"; "Mobile iPhone 12";
           "Mobile Samsung S21" ].
Proof.
  do 2 eexists. split; [vm_compute; reflexivity|].
  repeat split.
Qed.

Section ProbeFailure.

Import UXUITester.

Lemma attempt_throws env w s before p after e w1 s1 w2 s2 :
  probes = (before ++ p :: after)%list ->
  (initialize ;; goto ;; inOrder before) env w s = (Ok tt, w1, s1) ->
  p env w1 s1 = (Throw e, w2, s2) ->
  attempt env w s = (Throw e, w2, s2)
  /\ World.browserOpen w2 = true.
Proof.
  intros Hp Hpre Hthrow.
  destruct (bind_Ok_inv _ _ _ _ _ _ _ _ Hpre) as (u0 & wa & sa & Hinit & Hrest).
  destruct (bind_Ok_inv _ _ _ _ _ _ _ _ Hrest) as (u1 & wb & sb & Hgoto & Hbefore).
  split.
  - unfold attempt.
    rewrite (bind_Ok _ _ _ _ _ _ _ _ Hinit).
    rewrite (bind_Ok _ _ _ _ _ _ _ _ Hgoto).
    apply bind_Throw. rewrite Hp, inOrder_app.
    rewrite (bind_Ok _ _ _ _ _ _ _ _ Hbefore).
    apply bind_Throw. exact Hthrow.
  - destruct u0. pose proof (initialize_Ok _ _ _ _ _ Hinit) as Ha.
    pose proof (goto_browser env wa sa) as Hb. rewrite Hgoto in Hb.
    cbn [fst snd] in Hb.
    assert (Hin : forall q, In q before -> preserves (both sameBrowser grows) q).
    { intros q Hq. apply probes_extending. rewrite Hp.
      apply in_or_app. left. exact Hq. }
    pose proof (inOrder_extending before Hin env wb sb) as [Hc _].
    rewrite Hbefore in Hc. cbn [fst snd] in Hc.
    assert (Hpin : In p probes).
    { rewrite Hp. apply in_or_app. right. left. reflexivity. }
    pose proof (probes_extending p Hpin env w1 s1) as [Hd _].
    rewrite Hthrow in Hd. cbn [fst snd] in Hd.
    unfold sameBrowser in *. congruence.
Qed.

End ProbeFailure.

(** C2, as stated, fails: when the first page operation of
    [testPerformance] rejects, the probe throws, and [runAllTests] throws
    the same exception to its caller; no finding is appended and no report
    is returned. *)
Lemma runAllTests_rethrows_a_probe_failure :
  let env := Fixture.failingAt 4 Fixture.scenarioPage in
  (exists w1 s1 w2 s2,
      (UXUITester.initialize ;; UXUITester.goto) env World.initial UXUITester.new
      = (Ok tt, w1, s1)
      /\ UXUITester.testPerformance env w1 s1 = (Throw (OpFailed 4), w2, s2))
  /\ (exists w',
        UXUITester.run UXUITester.runAllTests env
        = (Throw (OpFailed 4), w', UXUITester.new)
        /\ UXUITester.results UXUITester.new = []).
Proof.
  split.
  - do 4 eexists. split; [reflexivity|]. vm_compute. reflexivity.
  - eexists. split; [vm_compute; reflexivity|reflexivity].
Qed.

(** C2, amended. When a probe of the fixed sequence throws, [runAllTests]
    runs [cleanup] and throws to its caller: the probe's exception when
    [cleanup] succeeds, which then leaves the browser and every context
    closed, and the exception of [cleanup] otherwise.  No report is
    returned, and the tester is left as the probe left it: the orchestrator
    appends no finding.  Failures become findings only inside the probes
    that catch them: [testResponsive] returns in every environment with a
    finding for every configured device, and [testAccessibility] returns in
    every environment. *)
Theorem a_throwing_probe_aborts_the_run :
  forall env w s before p after e w1 s1 w2 s2,
    UXUITester.probes = (before ++ p :: after)%list ->
    (UXUITester.initialize ;; UXUITester.goto ;; UXUITester.inOrder before) env w s
    = (Ok tt, w1, s1) ->
    p env w1 s1 = (Throw e, w2, s2) ->
    (exists e' w3,
        UXUITester.runAllTests env w s = (Throw e', w3, s2)
        /\ (Env.fault env (World.ops w2) = false ->
            e' = e /\ World.browserOpen w3 = false /\ World.contexts w3 = []))
    /\ (forall env' w' s',
          exists w'' s'' added,
            UXUITester.testResponsive env' w' s' = (Ok tt, w'', s'')
            /\ UXUITester.results s'' = (UXUITester.results s' ++ added)%list
            /\ Forall
                 (fun device =>
                    exists finding,
                      In finding added
                      /\ TestResult.category finding = "Responsive Design"
                      /\ TestResult.test finding = Device.name device)
                 Config.devices)
    /\ (forall env' w' s',
          exists w'' s'', UXUITester.testAccessibility env' w' s' = (Ok tt, w'', s'')).
Proof.
  intros env w s before p after e w1 s1 w2 s2 Hp Hpre Hthrow.
  destruct (attempt_throws env w s before p after e w1 s1 w2 s2 Hp Hpre Hthrow)
    as [Hattempt Hopen].
  split; [|split].
  - rewrite runAllTests_attempt. unfold tryFinally, tryCatch.
    rewrite Hattempt. unfold throw.
    destruct (cleanup_run env w2 s2) as (r & w3 & Hc & Hok). rewrite Hc.
    destruct r as [u|e'].
    + exists e, w3. split; [reflexivity|]. intros F.
      destruct (Hok Hopen F) as (_ & H1 & H2). auto.
    + exists e', w3. split; [reflexivity|]. intros F.
      destruct (Hok Hopen F) as (H0 & _). discriminate.
  - intros env' w' s'. apply testResponsiveOn_outcome.
  - intros env' w' s'.
    destruct (testAccessibility_succeeds env' w' s') as ([] & w'' & s'' & E).
    exists w'', s''. exact E.
Qed.

(** The first page operation of [testPerformance] rejects: the run throws
    that exception, with the browser closed. *)
Lemma a_throwing_probe_aborts_the_run_witness :
  exists e' w3,
    UXUITester.runAllTests (Fixture.failingAt 4 Fixture.scenarioPage)
      World.initial UXUITester.new = (Throw e', w3, UXUITester.new)
    /\ (e' = OpFailed 4 /\ World.browserOpen w3 = false /\ World.contexts w3 = []).
Proof.
  destruct (a_throwing_probe_aborts_the_run
              (Fixture.failingAt 4 Fixture.scenarioPage)
              World.initial UXUITester.new
              [] UXUITester.testPerformance (tl UXUITester.probes)
              (OpFailed 4)
              (World.mk 4 0 true [0] 1 [] [] [])
              UXUITester.new
              (World.mk 5 2 true [0] 1 [] [] [])
              UXUITester.new
              eq_refl eq_refl eq_refl)
    as ((e' & w3 & E & H) & _).
  exists e', w3. split; [exact E|]. apply H. reflexivity.
Defined.

(** ** Accessibility probe *)

Section Accessibility.

Import UXUITester Loading.




End Accessibility.



(** Without a usable copy of axe-core, the run still returns its report,
    with the finding on the missing engine in it. *)
Example run_without_axe :
  exists report w' s',
    UXUITester.run UXUITester.runAllTests (Fixture.withoutAxe Fixture.blankPage)
    = (Ok report, w', s')
    /\ existsb (fun r => (TestResult.test r =? "axe-core")
                         && Status_eqb (TestResult.status r) warning)
         (UXReport.results report) = true.
Proof. do 3 eexists. split; [vm_compute; reflexivity|reflexivity]. Qed.

(** ** The end-to-end scenario *)

Section ScenarioRun.

Import UXUITester.

(** Recording evidence returns and appends no finding. *)
Lemma recordEvidence_run {A} (items : list A)
  (record : A -> M ScreenshotAnalyzer.t (option ElementIssue.t)) env w s :
  exists w' s',
    recordEvidence items record env w s = (Ok tt, w', s')
    /\ results s' = results s.
Proof.
  unfold recordEvidence, when.
  destruct (0 <? length items)%nat; [|exists w, s; split; reflexivity].
  revert w s. induction items as [|item rest IH]; intros w s; cbn [forEach].
  - exists w, s. split; reflexivity.
  - unfold bind at 1. unfold tryCatch at 1. unfold bind at 1.
    unfold onAnalyzer, zoom at 1.
    destruct (record item env w (screenshotAnalyzer s)) as [[[r|e] w1] a1];
      unfold ret; cbv beta iota;
      destruct (IH w1 (setScreenshotAnalyzer a1 s)) as (w' & s' & E & R);
      exists w', s'; split; assumption.
Qed.

(** The next page operation succeeds, by faultlessness. *)
Ltac op_fl H := rewrite pageOp_run; rewrite (H _); cbv beta iota.




Lemma succeeds_bind_ask {St B} env (k : Env.t -> M St B) :
  succeeds env (k env) -> succeeds env (bind ask k).
Proof. intros H w s. unfold bind, ask. apply H. Qed.

Lemma recordEvidence_succeeds {A} env (items : list A)
  (record : A -> M ScreenshotAnalyzer.t (option ElementIssue.t)) :
  succeeds env (recordEvidence items record).
Proof.
  intros w s. destruct (recordEvidence_run items record env w s)
    as (w' & s' & E & _).
  exists tt, w', s'. exact E.
Qed.

Ltac succeeds_probe :=
  repeat first
    [ lazymatch goal with
      | |- succeeds _ (bind ask _) => apply succeeds_bind_ask
      | |- succeeds _ (locatorCount _ _) =>
          apply succeeds_locatorCount; [assumption|congruence]
      | |- succeeds _ (recordEvidence _ _) => apply recordEvidence_succeeds
      end
    | succeeds_structure ].

(** When no operation rejects and the two selectors that the probes count
    parse, every probe returns. *)
Lemma probes_succeed env p :
  faultless env ->
  Page.locate (Env.page env) "h1" <> None ->
  Page.locate (Env.page env) Fixture.navSelector <> None ->
  In p probes -> succeeds env p.
Proof.
  intros Hf Hh1 Hnav. unfold Fixture.navSelector in Hnav.
  unfold probes. cbn [In].
  intros [<-|[<-|[<-|[<-|[<-|[<-|[<-|[<-|[<-|[<-|[<-|[<-|[]]]]]]]]]]]]].
  - unfold testPerformance. succeeds_probe.
  - unfold testVisualHierarchy. succeeds_probe.
  - unfold testColorContrast. succeeds_probe.
  - unfold testNavigation. succeeds_probe.
  - unfold testReadability. succeeds_probe.
  - unfold testCTAButtons. succeeds_probe.
  - unfold testForms. succeeds_probe.
  - unfold testInteractiveElements. succeeds_probe.
  - unfold testKeyboardNavigation. succeeds_probe.
  - unfold testSEOBasics. succeeds_probe.
  - apply testResponsiveOn_succeeds.
  - apply testAccessibility_succeeds.
Qed.

(** A list of probes that all return and only append findings. *)
Lemma inOrder_run env l :
  (forall p, In p l -> succeeds env p) ->
  (forall p, In p l -> preserves (both sameBrowser grows) p) ->
  forall w s,
  exists w' s',
    inOrder l env w s = (Ok tt, w', s')
    /\ World.browserOpen w' = World.browserOpen w
    /\ grows s s'.
Proof.
  induction l as [|q rest IH]; intros Hs He w s.
  - exists w, s. repeat split. reflexivity.
  - cbn [inOrder forEach].
    destruct (Hs q (or_introl eq_refl) w s) as ([] & w1 & s1 & E).
    rewrite (bind_Ok _ _ _ _ _ _ _ _ E).
    pose proof (He q (or_introl eq_refl) env w s) as [Hb Hg].
    rewrite E in Hb, Hg. cbn [fst snd] in Hb, Hg.
    destruct (IH (fun p Hp => Hs p (or_intror Hp))
                (fun p Hp => He p (or_intror Hp)) w1 s1)
      as (w' & s' & E' & Hb' & Hg').
    exists w', s'. split; [exact E'|]. split.
    + unfold sameBrowser in Hb. congruence.
    + etransitivity; eassumption.
Qed.


Lemma initialize_run env w s :
  faultless env ->
  exists w', initialize env w s = (Ok tt, w', s) /\ World.browserOpen w' = true.
Proof.
  intros Hf. unfold initialize. unfold_monad.
  op_fl Hf. op_fl Hf. op_fl Hf. eexists. split; reflexivity.
Qed.

Lemma goto_run env w s :
  faultless env -> goto env w s = (Ok tt, World.tickOp w, s).
Proof. intros Hf. unfold goto. rewrite pageOp_run, Hf. reflexivity. Qed.




End ScenarioRun.



(** ** The scores of the findings *)

#[export] Instance scored_preorder : PreOrder Findings.scored.
Proof.
  split.
  - intros s. exists []. split; [symmetry; apply app_nil_r|constructor].
  - intros a b c (d1 & H1 & F1) (d2 & H2 & F2). exists (d1 ++ d2)%list. split.
    + rewrite H2, H1, app_assoc. reflexivity.
    + apply Forall_app. split; assumption.
Qed.

#[export] Instance anyWorld_preorder : PreOrder Findings.anyWorld.
Proof. split; [intros w; exact I | intros a b c _ _; exact I]. Qed.

Section Scores.

Import UXUITester.

Lemma inRange_Z (z : Z) : (0 <= z <= 10)%Z -> (0 <= inject_Z z /\ inject_Z z <= 10)%Q.
Proof.
  intros [H0 H1]. split.
  - change 0%Q with (inject_Z 0). rewrite <- Zle_Qle. exact H0.
  - change 10%Q with (inject_Z 10). rewrite <- Zle_Qle. exact H1.
Qed.

Lemma altScore_inRange n : (0 <= altScore n /\ altScore n <= 10)%Q.
Proof.
  unfold altScore. destruct (n =? 0)%nat; [split; discriminate|].
  apply inRange_Z. lia.
Qed.

Lemma contrastScore_inRange n : (0 <= contrastScore n /\ contrastScore n <= 10)%Q.
Proof.
  unfold contrastScore. destruct (n =? 0)%nat; [split; discriminate|].
  split.
  - apply Q.le_max_l.
  - apply Q.max_lub; [discriminate|].
    assert (H : (0 <= inject_Z (Z.of_nat n))%Q).
    { change 0%Q with (inject_Z 0). rewrite <- Zle_Qle. lia. }
    lra.
Qed.

Lemma loadScore_inRange t : (0 <= loadScore t /\ loadScore t <= 10)%Q.
Proof.
  unfold loadScore.
  destruct (t <? 3000)%Z, (t <? 5000)%Z, (t <? 8000)%Z; split; discriminate.
Qed.

Lemma focusScore_inRange n :
  (0 <= inject_Z (Z.of_nat (Nat.min 10 n))
   /\ inject_Z (Z.of_nat (Nat.min 10 n)) <= 10)%Q.
Proof. apply inRange_Z. lia. Qed.

End Scores.

(** The score of the finding that is pushed is between 0 and 10. *)
Ltac score_in_range :=
  unfold Findings.scoreInRange; cbn [TestResult.score];
  first
    [ apply altScore_inRange
    | apply contrastScore_inRange
    | apply loadScore_inRange
    | apply focusScore_inRange
    | repeat match goal with
             | |- context [if ?c then _ else _] => destruct c
             end;
      split; discriminate ].

Ltac scored_leaf :=
  intros;
  cbv [both Findings.anyWorld Findings.scored anyAnalyzer];
  cbn [fst snd]; repeat split; try exact I;
  first [ exists []; split; [cbn; rewrite app_nil_r; reflexivity | constructor]
        | eexists; split;
          [ cbn; reflexivity
          | constructor; [score_in_range | constructor] ] ].

Ltac scored_helper :=
  lazymatch goal with
  | |- preserves _ (UXUITester.onAnalyzer _) =>
      apply (preserves_zoom _ _ anyAnalyzer); [|scored_leaf]
  | _ => unfold_helper
  end.

Ltac preserves_scored :=
  repeat first [ preserves_structure | preserves_leaf scored_leaf | scored_helper ].

Section ProbesScore.

Import UXUITester.

Lemma testPerformance_scoring : scoring testPerformance.
Proof. unfold testPerformance. preserves_scored. Qed.

Lemma testVisualHierarchy_scoring : scoring testVisualHierarchy.
Proof. unfold testVisualHierarchy. preserves_scored. Qed.

Lemma testColorContrast_scoring : scoring testColorContrast.
Proof. unfold testColorContrast. preserves_scored. Qed.

Lemma testNavigation_scoring : scoring testNavigation.
Proof. unfold testNavigation. preserves_scored. Qed.

Lemma testReadability_scoring : scoring testReadability.
Proof. unfold testReadability. preserves_scored. Qed.

Lemma testCTAButtons_scoring : scoring testCTAButtons.
Proof. unfold testCTAButtons. preserves_scored. Qed.

Lemma testForms_scoring : scoring testForms.
Proof. unfold testForms. preserves_scored. Qed.

Lemma testInteractiveElements_scoring : scoring testInteractiveElements.
Proof. unfold testInteractiveElements. preserves_scored. Qed.

Lemma testKeyboardNavigation_scoring : scoring testKeyboardNavigation.
Proof. unfold testKeyboardNavigation. preserves_scored. Qed.

Lemma testSEOBasics_scoring : scoring testSEOBasics.
Proof. unfold testSEOBasics. preserves_scored. Qed.

Lemma testDevice_scoring device : scoring (testDevice device).
Proof. unfold testDevice. preserves_scored. Qed.

Lemma testResponsive_scoring : scoring testResponsive.
Proof.
  unfold testResponsive, testResponsiveOn.
  apply preserves_forEach; [typeclasses eauto|].
  intros device. apply testDevice_scoring.
Qed.

Lemma pressTab_scoring n : forall i seen, scoring (pressTab n i seen).
Proof.
  induction n as [|n IH]; intros i seen; cbn [pressTab].
  - apply preserves_ret. typeclasses eauto.
  - preserves_scored. apply IH.
Qed.

Lemma checkTabOrder_scoring : scoring checkTabOrder.
Proof.
  unfold checkTabOrder.
  apply preserves_tryCatch; [typeclasses eauto| |preserves_scored].
  apply preserves_bind; [typeclasses eauto|apply pressTab_scoring|].
  preserves_scored.
Qed.

Lemma testAccessibility_scoring : scoring testAccessibility.
Proof.
  unfold testAccessibility.
  apply preserves_tryCatch; [typeclasses eauto| |preserves_scored].
  apply preserves_bind; [typeclasses eauto| |intros axeLoaded].
  { unfold loadAxe. preserves_scored. }
  apply preserves_bind; [typeclasses eauto| |intros _].
  { unfold runAxe. preserves_scored. }
  apply preserves_bind; [typeclasses eauto|apply checkTabOrder_scoring|intros _].
  unfold checkSkipLink, checkLang, checkLandmarks, scoreAccessibility.
  preserves_scored.
Qed.

Lemma probes_scoring : Forall (fun p => scoring p) probes.
Proof.
  unfold probes.
  repeat (apply Forall_cons; [cbv beta|]); [..|apply Forall_nil];
    auto using testPerformance_scoring, testVisualHierarchy_scoring,
      testColorContrast_scoring, testNavigation_scoring, testReadability_scoring,
      testCTAButtons_scoring, testForms_scoring, testInteractiveElements_scoring,
      testKeyboardNavigation_scoring, testSEOBasics_scoring,
      testResponsive_scoring, testAccessibility_scoring.
Qed.

End ProbesScore.

(** ** The whole run *)

Section WholeRun.

Import UXUITester.

Lemma inOrder_scoring l :
  Forall (fun p => scoring p) l -> scoring (inOrder l).
Proof.
  induction 1 as [|p rest Hp Hrest IH]; cbn [inOrder forEach].
  - apply preserves_ret. typeclasses eauto.
  - apply preserves_bind; [typeclasses eauto|exact Hp|intros _; exact IH].
Qed.

Lemma setup_scoring : scoring (initialize ;; goto ;; inOrder probes).
Proof.
  apply preserves_bind; [typeclasses eauto| |intros _].
  { unfold initialize. preserves_scored. }
  apply preserves_bind; [typeclasses eauto| |intros _].
  { unfold goto. preserves_scored. }
  apply inOrder_scoring, probes_scoring.
Qed.

(** When [testPerformance] returns, it has appended a finding. *)
Lemma testPerformance_appends env w s w' s' :
  testPerformance env w s = (Ok tt, w', s') -> results s' <> [].
Proof.
  unfold testPerformance. unfold_monad.
  next_op; [discriminate|].
  next_op; [discriminate|].
  next_op; [discriminate|].
  rewrite !addResult_run. intros [= _ <-].
  cbn [results pushResult setPerformanceMetrics].
  intros E. apply app_eq_nil in E. destruct E as [_ E]. discriminate.
Qed.

(** What a run that returns has gone through. *)
Lemma runAllTests_Ok env w s report w' s' :
  runAllTests env w s = (Ok report, w', s') ->
  exists w0 s0,
    (initialize ;; goto ;; inOrder probes) env w s = (Ok tt, w0, s0)
    /\ generateReport env w0 s0 = (Ok report, World.tickClock w0, s0)
    /\ cleanup env (World.tickClock w0) s0 = (Ok tt, w', s').
Proof.
  rewrite runAllTests_attempt. unfold tryFinally, tryCatch.
  destruct (attempt env w s) as [[[rep|e] w2] s2] eqn:A.
  - destruct (cleanup env w2 s2) as [[[[]|e] w3] s3] eqn:C; [|discriminate].
    intros [= -> -> ->].
    unfold attempt in A.
    apply bind_Ok_inv in A. destruct A as ([] & wa & sa & Ei & A).
    apply bind_Ok_inv in A. destruct A as ([] & wb & sb & Eg & A).
    apply bind_Ok_inv in A. destruct A as ([] & wc & sc & Ep & A).
    exists wc, sc.
    rewrite generateReport_run in A. injection A as <- <- <-.
    split; [|split; [apply generateReport_run|exact C]].
    rewrite (bind_Ok _ _ _ _ _ _ _ _ Ei), (bind_Ok _ _ _ _ _ _ _ _ Eg).
    exact Ep.
  - unfold throw. destruct (cleanup env w2 s2) as [[[[]|e'] w3] s3]; discriminate.
Qed.

(** The probes have left at least one finding when they all return. *)
Lemma setup_appends env w s w0 s0 :
  (initialize ;; goto ;; inOrder probes) env w s = (Ok tt, w0, s0) ->
  results s0 <> [].
Proof.
  intros A.
  apply bind_Ok_inv in A. destruct A as ([] & wa & sa & _ & A).
  apply bind_Ok_inv in A. destruct A as ([] & wb & sb & _ & A).
  unfold probes in A. cbn [inOrder forEach] in A.
  apply bind_Ok_inv in A. destruct A as ([] & wc & sc & Ep & A).
  apply testPerformance_appends in Ep.
  assert (G : preserves (both sameBrowser grows)
                (forEach (tl probes) (fun p => p))).
  { apply inOrder_extending. intros p Hp. apply probes_extending.
    right. exact Hp. }
  specialize (G env wc sc). unfold probes in G. cbn [tl forEach] in G.
  rewrite A in G. destruct G as [_ [added G]]. cbn [snd] in G.
  rewrite G. intros E. apply app_eq_nil in E. destruct E as [E _].
  contradiction.
Qed.

Lemma scored_inRange s s' :
  Findings.scored s s' ->
  Scoring.scoresInRange (results s) -> Scoring.scoresInRange (results s').
Proof.
  intros (added & -> & F) H r Hr. apply in_app_or in Hr. destruct Hr as [Hr|Hr].
  - apply H. exact Hr.
  - rewrite Forall_forall in F. apply F. exact Hr.
Qed.

(** When no operation rejects and the two selectors that the probes count
    parse, the run returns. *)
Lemma runAllTests_run env w s :
  faultless env ->
  Page.locate (Env.page env) "h1" <> None ->
  Page.locate (Env.page env) Fixture.navSelector <> None ->
  exists report w0 s0 w',
    runAllTests env w s = (Ok report, w', s0)
    /\ (initialize ;; goto ;; inOrder probes) env w s = (Ok tt, w0, s0)
    /\ World.browserOpen w' = false
    /\ World.contexts w' = [].
Proof.
  intros Hf Hh1 Hnav.
  rewrite runAllTests_attempt. unfold tryFinally, tryCatch, attempt.
  destruct (initialize_run env w s Hf) as (wi & Ei & Ho).
  rewrite !(bind_Ok _ _ _ _ _ _ _ _ Ei).
  rewrite !(bind_Ok _ _ _ _ _ _ _ _ (goto_run env wi s Hf)).
  destruct (inOrder_run env probes
              (fun p => probes_succeed env p Hf Hh1 Hnav)
              probes_extending (World.tickOp wi) s)
    as (w0 & s0 & Ep & Hb & _).
  rewrite !(bind_Ok _ _ _ _ _ _ _ _ Ep). rewrite generateReport_run.
  destruct (cleanup_run env (World.tickClock w0) s0) as (r & w' & Ec & Hc).
  destruct Hc as (-> & Hclosed & Hnone).
  { cbn. rewrite Hb. exact Ho. }
  { apply Hf. }
  rewrite Ec. exists
    (UXReport.mk Config.url (Env.clock env (World.ticks w0))
       (overallScore (results s0)) (results s0) (performanceMetrics s0)
       (accessibilityIssues s0) (responsiveResults s0) (recommendationsOf s0)),
    w0, s0, w'.
  repeat split; assumption.
Qed.

End WholeRun.

(** X1. Every probe of the run, in every environment and whether it returns
    or throws, keeps the findings recorded before it and appends only
    findings whose score is between 0 and 10. *)
Theorem every_probe_appends_findings_scored_0_to_10 :
  Forall
    (fun probe =>
       forall env w s,
       exists added,
         UXUITester.results (snd (probe env w s))
         = (UXUITester.results s ++ added)%list
         /\ Forall Findings.scoreInRange added)
    UXUITester.probes.
Proof.
  eapply Forall_impl; [|exact probes_scoring].
  intros p Hp env w s. destruct (Hp env w s) as [_ H]. exact H.
Qed.

(** X2. Whenever [runAllTests] returns a report for a tester whose earlier
    findings have scores between 0 and 10, the report holds at least one
    finding, every finding of the report has a score between 0 and 10, and
    the overall score is an integer between 0 and 100. *)
Theorem a_returned_report_scores_between_0_and_100 :
  forall env w s report w' s',
    Scoring.scoresInRange (UXUITester.results s) ->
    UXUITester.runAllTests env w s = (Ok report, w', s') ->
    UXReport.results report <> []
    /\ Scoring.scoresInRange (UXReport.results report)
    /\ exists k : Z,
         UXReport.overallScore report = JS.Finite (inject_Z k)
         /\ (0 <= k <= 100)%Z.
Proof.
  intros env w s report w' s' Hs E.
  apply runAllTests_Ok in E. destruct E as (w0 & s0 & Ea & Er & _).
  rewrite generateReport_run in Er. injection Er as <-.
  cbn [UXReport.results UXReport.overallScore].
  pose proof (setup_appends _ _ _ _ _ Ea) as Hne.
  pose proof (setup_scoring env w s) as [_ Hsc]. rewrite Ea in Hsc.
  cbn [snd] in Hsc. pose proof (scored_inRange _ _ Hsc Hs) as Hr.
  split; [exact Hne|]. split; [exact Hr|].
  destruct (overallScore_in_range _ Hne Hr) as (k & Ek & Hk & _).
  exists k. split; assumption.
Qed.

(** A run on the scenario page in a browser in which nothing fails. *)
Lemma a_returned_report_scores_between_0_and_100_witness :
  exists report w' s',
    UXUITester.runAllTests (Fixture.quiet Fixture.scenarioPage)
      World.initial UXUITester.new = (Ok report, w', s')
    /\ UXReport.results report <> []
    /\ exists k : Z,
         UXReport.overallScore report = JS.Finite (inject_Z k)
         /\ (0 <= k <= 100)%Z.
Proof.
  destruct (runAllTests_run (Fixture.quiet Fixture.scenarioPage)
              World.initial UXUITester.new)
    as (report & w0 & s0 & w' & E & _).
  - intros n. reflexivity.
  - discriminate.
  - discriminate.
  - exists report, w', s0. split; [exact E|].
    destruct (a_returned_report_scores_between_0_and_100
                (Fixture.quiet Fixture.scenarioPage) World.initial UXUITester.new
                report w' s0)
      as (Hne & _ & Hk).
    + intros r [].
    + exact E.
    + split; assumption.
Defined.

(** X3. When no browser operation rejects and the two selectors that the
    probes count parse, [runAllTests] returns a report: it holds the
    findings of the tester, which extend the earlier ones, and the browser
    and all of its contexts are closed afterwards. *)
Theorem runAllTests_returns_when_nothing_fails :
  forall env w s,
    faultless env ->
    Page.locate (Env.page env) "h1" <> None ->
    Page.locate (Env.page env) Fixture.navSelector <> None ->
    exists report w' s',
      UXUITester.runAllTests env w s = (Ok report, w', s')
      /\ UXReport.results report = UXUITester.results s'
      /\ grows s s'
      /\ UXReport.url report = Config.url
      /\ World.browserOpen w' = false
      /\ World.contexts w' = [].
Proof.
  intros env w s Hf Hh1 Hnav.
  destruct (runAllTests_run env w s Hf Hh1 Hnav)
    as (report & w0 & s0 & w' & E & Ea & Hb & Hc).
  exists report, w', s0. split; [exact E|].
  pose proof (runAllTests_Ok _ _ _ _ _ _ E) as (w1 & s1 & Ea' & Er & _).
  rewrite Ea in Ea'. injection Ea' as <- <-.
  rewrite generateReport_run in Er. injection Er as <-.
  cbn [UXReport.results UXReport.url].
  pose proof (setup_scoring env w s) as [_ (added & Hadd & _)].
  rewrite Ea in Hadd. cbn [snd] in Hadd.
  repeat split; try assumption. exists added. exact Hadd.
Qed.

(** The scenario page in a browser in which nothing fails. *)
Lemma runAllTests_returns_when_nothing_fails_witness :
  exists report w' s',
    UXUITester.runAllTests (Fixture.quiet Fixture.scenarioPage)
      World.initial UXUITester.new = (Ok report, w', s')
    /\ World.browserOpen w' = false
    /\ World.contexts w' = [].
Proof.
  destruct (runAllTests_returns_when_nothing_fails
              (Fixture.quiet Fixture.scenarioPage) World.initial UXUITester.new)
    as (report & w' & s' & E & _ & _ & _ & Hb & Hc).
  - intros n. reflexivity.
  - discriminate.
  - discriminate.
  - exists report, w', s'. repeat split; assumption.
Defined.

(** ** The responsive probe when nothing fails *)

Section ResponsiveQuiet.

Import UXUITester.

Lemma filter_fresh (next : nat) (contexts : list nat) :
  Forall (fun c => c < next) contexts ->
  filter (fun c => negb (c =? next)%nat) (contexts ++ [next]) = contexts.
Proof.
  intros H. rewrite filter_app. cbn [filter]. rewrite Nat.eqb_refl.
  cbn [negb]. rewrite app_nil_r.
  induction H as [|c rest Hc Hrest IH]; cbn [filter]; [reflexivity|].
  destruct (Nat.eqb_spec c next); [lia|]. cbn [negb]. rewrite IH. reflexivity.
Qed.

(** One device, when nothing fails: its context is opened and closed
    again, and it gets one responsive result and one finding. *)
Lemma testDevice_quiet device env w s :
  faultless env ->
  exists w' s' r finding,
    testDevice device env w s = (Ok tt, w', s')
    /\ World.contexts w'
       = filter (fun c => negb (c =? World.nextContext w)%nat)
           (World.contexts w ++ [World.nextContext w])
    /\ World.nextContext w' = S (World.nextContext w)
    /\ responsiveResults s' = (responsiveResults s ++ [r])%list
    /\ ResponsiveTestResult.device r = Device.name device
    /\ ResponsiveTestResult.width r = Device.width device
    /\ ResponsiveTestResult.height r = Device.height device
    /\ ResponsiveTestResult.issues r
       = Devices.issuesOn (Env.devicePage env device) (isMobile device)
    /\ results s' = (results s ++ [finding])%list
    /\ TestResult.test finding = Device.name device
    /\ TestResult.status finding
       = (if (length (ResponsiveTestResult.issues r) =? 0)%nat
          then pass else warning).
Proof.
  intros Hf. unfold testDevice, newContext, closeContext, Devices.issuesOn.
  unfold_monad.
  do 5 (rewrite pageOp_run, (Hf _); simpl_world; cbv beta iota).
  destruct (isMobile device); cbv beta iota.
  - do 2 (rewrite pageOp_run, (Hf _); simpl_world; cbv beta iota).
    rewrite addResult_run.
    do 2 (rewrite pageOp_run, (Hf _); simpl_world; cbv beta iota).
    do 4 eexists. repeat split; reflexivity.
  - do 1 (rewrite pageOp_run, (Hf _); simpl_world; cbv beta iota).
    rewrite addResult_run.
    do 2 (rewrite pageOp_run, (Hf _); simpl_world; cbv beta iota).
    do 4 eexists. repeat split; reflexivity.
Qed.

Lemma testResponsiveOn_quiet devices env :
  faultless env ->
  forall w s,
    Devices.wellNumbered w ->
    exists w' s' rs,
      testResponsiveOn devices env w s = (Ok tt, w', s')
      /\ World.contexts w' = World.contexts w
      /\ Devices.wellNumbered w'
      /\ responsiveResults s' = (responsiveResults s ++ rs)%list
      /\ map ResponsiveTestResult.device rs = map Device.name devices
      /\ map ResponsiveTestResult.issues rs
         = map (fun device =>
                  Devices.issuesOn (Env.devicePage env device)
                    (isMobile device)) devices
      /\ length (results s') = length (results s) + length devices.
Proof.
  intros Hf. unfold testResponsiveOn.
  induction devices as [|device rest IH]; intros w s Hw; cbn [forEach].
  - exists w, s, []. rewrite app_nil_r, Nat.add_0_r. repeat split. exact Hw.
  - destruct (testDevice_quiet device env w s Hf)
      as (w1 & s1 & r & finding & E & Hc & Hn & Hr & Hd & _ & _ & Hi & Hres & _).
    rewrite (bind_Ok _ _ _ _ _ _ _ _ E).
    rewrite (filter_fresh _ _ Hw) in Hc.
    assert (Hw1 : Devices.wellNumbered w1).
    { unfold Devices.wellNumbered. rewrite Hc, Hn.
      eapply Forall_impl; [|exact Hw]. cbv beta. intros c Hlt. lia. }
    destruct (IH w1 s1 Hw1) as (w' & s' & rs & E' & Hc' & Hw' & Hr' & Hd' & Hi' & Hl').
    exists w', s', (r :: rs). split; [exact E'|].
    split; [congruence|]. split; [exact Hw'|]. split.
    { rewrite Hr', Hr, <- app_assoc. reflexivity. }
    split; [cbn [map]; congruence|]. split; [cbn [map]; congruence|].
    rewrite Hl', Hres, length_app. cbn [length]. lia.
Qed.

End ResponsiveQuiet.

(** X4. When no browser operation rejects, [testResponsive] returns and
    leaks no context: the open contexts are those that were open before.
    The devices get one responsive result each, in the order of the
    configuration, with the issues seen on the device, and one finding
    each. *)
Theorem testResponsive_closes_every_context_when_nothing_fails :
  forall env w s,
    faultless env ->
    Devices.wellNumbered w ->
    exists w' s' rs,
      UXUITester.testResponsive env w s = (Ok tt, w', s')
      /\ World.contexts w' = World.contexts w
      /\ UXUITester.responsiveResults s'
         = (UXUITester.responsiveResults s ++ rs)%list
      /\ map ResponsiveTestResult.device rs = map Device.name Config.devices
      /\ map ResponsiveTestResult.issues rs
         = map (fun device =>
                  Devices.issuesOn (Env.devicePage env device)
                    (UXUITester.isMobile device)) Config.devices
      /\ length (UXUITester.results s')
         = length (UXUITester.results s) + length Config.devices.
Proof.
  intros env w s Hf Hw.
  destruct (testResponsiveOn_quiet Config.devices env Hf w s Hw)
    as (w' & s' & rs & E & Hc & _ & Hr & Hd & Hi & Hl).
  exists w', s', rs. repeat split; assumption.
Qed.

(** A fresh tester in a browser in which nothing fails. *)
Lemma testResponsive_closes_every_context_when_nothing_fails_witness :
  exists w' s',
    UXUITester.testResponsive (Fixture.quiet Fixture.blankPage)
      World.initial UXUITester.new = (Ok tt, w', s')
    /\ World.contexts w' = []
    /\ length (UXUITester.responsiveResults s') = 5.
Proof.
  destruct (testResponsive_closes_every_context_when_nothing_fails
              (Fixture.quiet Fixture.blankPage) World.initial UXUITester.new)
    as (w' & s' & rs & E & Hc & Hr & Hd & _).
  - intros n. reflexivity.
  - constructor.
  - exists w', s'. split; [exact E|]. split; [exact Hc|].
    rewrite Hr. cbn [UXUITester.responsiveResults UXUITester.new app].
    rewrite <- (length_map ResponsiveTestResult.device), Hd. reflexivity.
Defined.

(** X5. When the launch of the browser rejects, the run does not throw the
    launch error: [cleanup] runs in the [finally] block with no browser to
    close and throws a type error, which is what the caller gets.  The
    tester holds no new finding. *)
Theorem a_failed_launch_is_masked_by_cleanup :
  forall env s,
    Env.fault env 0 = true ->
    exists w',
      UXUITester.runAllTests env World.initial s
      = (Throw (TypeError "Cannot read properties of undefined (reading 'close')"),
         w', s)
      /\ World.browserOpen w' = false.
Proof.
  intros env s F. rewrite runAllTests_attempt.
  unfold tryFinally, tryCatch, UXUITester.attempt, UXUITester.initialize.
  unfold bind at 1. unfold bind at 1. unfold bind at 1. unfold bind at 1.
  rewrite pageOp_run. cbn [World.ops World.initial]. rewrite F.
  cbv beta iota. unfold throw, UXUITester.cleanup. unfold_monad.
  cbn [World.browserOpen World.tickOp World.initial].
  eexists. split; reflexivity.
Qed.

(** The first operation, the launch, rejects. *)
Lemma a_failed_launch_is_masked_by_cleanup_witness :
  exists w',
    UXUITester.runAllTests (Fixture.failingAt 0 Fixture.blankPage)
      World.initial UXUITester.new
    = (Throw (TypeError "Cannot read properties of undefined (reading 'close')"),
       w', UXUITester.new)
    /\ World.browserOpen w' = false.
Proof.
  apply (a_failed_launch_is_masked_by_cleanup
           (Fixture.failingAt 0 Fixture.blankPage) UXUITester.new).
  reflexivity.
Defined.

(** ** Evidence recorder: keys, lookups and summaries *)

Section AreasFacts.

Import ScreenshotAnalyzer Evidence.

Lemma isArea_key category test pa :
  isArea category test pa = true <-> Areas.key pa = (category, test).
Proof.
  unfold isArea, Areas.key. rewrite andb_true_iff, !String.eqb_eq.
  split; [intros [-> ->]; reflexivity | intros [= -> ->]; split; reflexivity].
Qed.

Lemma pushIssue_keys category test issue areas :
  map Areas.key (pushIssue category test issue areas) = map Areas.key areas.
Proof.
  induction areas as [|pa rest IH]; cbn [pushIssue map]; [reflexivity|].
  destruct (isArea category test pa); cbn [map]; [reflexivity|].
  rewrite IH. reflexivity.
Qed.

Lemma stored_keys category test issue areas :
  NoDup (map Areas.key areas) ->
  NoDup (map Areas.key (stored category test issue areas)).
Proof.
  intros H. unfold stored.
  destruct (find (isArea category test) areas) as [pa|] eqn:F.
  - rewrite pushIssue_keys. exact H.
  - rewrite map_app. cbn [map].
    apply NoDup_app_remove_l with (l := []).
    apply Permutation_NoDup with (l := (category, test) :: map Areas.key areas).
    + cbn [app]. apply Permutation_cons_append.
    + constructor; [|exact H]. intros Hin. apply in_map_iff in Hin.
      destruct Hin as (pa & Hk & Hin). apply isArea_key in Hk.
      rewrite (find_none _ _ F pa Hin) in Hk. discriminate.
Qed.

(** What an operation does to the areas: nothing, or it stores one issue,
    or it clears them. *)
Lemma step_areas env op w a :
  let areas' := problemAreas (snd (step env op (w, a))) in
  areas' = problemAreas a
  \/ (exists category test issue,
        areas' = stored category test issue (problemAreas a))
  \/ areas' = [].
Proof.
  destruct op; cbn [step]; cbv zeta.
  - rewrite storeProblemArea_run. right. left. do 3 eexists. reflexivity.
  - destruct (recordProblemArea_cases page category test selector description
                severity recommendation takeScreenshot env w a)
      as (w' & [[-> _] | (box & rest & path & _ & _ & _ & _ & ->)]).
    + left. reflexivity.
    + right. left. do 3 eexists. reflexivity.
  - destruct (takeElementScreenshot_run page selector testName env w a)
      as (path & w' & ->). left. reflexivity.
  - pose proof (takeFullPageScreenshot_areas testName env w a) as R.
    destruct (takeFullPageScreenshot testName env w a) as [[r w'] a'].
    cbn [snd] in R |- *. subst a'. left. reflexivity.
  - unfold generateAnnotatedScreenshot, tryCatch, bind.
    pose proof (takeFullPageScreenshot_areas ("annotated-" ++ testName) env w a) as R.
    destruct (takeFullPageScreenshot ("annotated-" ++ testName) env w a)
      as [[[r|e] w'] a']; cbn [snd] in R |- *; subst a'; left; reflexivity.
  - left. reflexivity.
  - left. reflexivity.
  - right. right. reflexivity.
Qed.

Lemma step_keys env op w a :
  Areas.distinctKeys a -> Areas.distinctKeys (snd (step env op (w, a))).
Proof.
  intros H. unfold Areas.distinctKeys.
  destruct (step_areas env op w a) as [-> | [(c & t & i & ->) | ->]].
  - exact H.
  - apply stored_keys. exact H.
  - constructor.
Qed.

Lemma steps_keys env ops w a :
  Areas.distinctKeys a -> Areas.distinctKeys (snd (steps env ops (w, a))).
Proof.
  revert w a. induction ops as [|op ops IH]; intros w a H; [exact H|].
  change (steps env (op :: ops) (w, a)) with (steps env ops (step env op (w, a))).
  pose proof (step_keys env op w a H) as R.
  destruct (step env op (w, a)) as [w' a']. apply IH. exact R.
Qed.

Lemma find_app {A} (f : A -> bool) (l1 l2 : list A) :
  find f (l1 ++ l2)
  = match find f l1 with Some x => Some x | None => find f l2 end.
Proof.
  induction l1 as [|x rest IH]; cbn [app find]; [reflexivity|].
  destruct (f x); [reflexivity|exact IH].
Qed.

Lemma find_pushIssue category test issue areas :
  find (isArea category test) (pushIssue category test issue areas)
  = match find (isArea category test) areas with
    | Some pa =>
        Some (ProblemArea.mk (ProblemArea.category pa) (ProblemArea.test pa)
                (ProblemArea.issues pa ++ [issue])
                (ProblemArea.fullPageScreenshot pa))
    | None => None
    end.
Proof.
  induction areas as [|pa rest IH]; cbn [pushIssue find]; [reflexivity|].
  destruct (isArea category test pa) eqn:E; cbn [find].
  - unfold isArea in *. cbn [ProblemArea.category ProblemArea.test].
    rewrite E. reflexivity.
  - rewrite E. exact IH.
Qed.

Lemma isArea_other category test category' test' pa :
  (category', test') <> (category, test) ->
  isArea category test pa = true -> isArea category' test' pa = false.
Proof.
  intros Hne H. destruct (isArea category' test' pa) eqn:E; [|reflexivity].
  apply isArea_key in H. apply isArea_key in E. congruence.
Qed.

Lemma find_pushIssue_other category test category' test' issue areas :
  (category', test') <> (category, test) ->
  match find (isArea category' test') (pushIssue category test issue areas) with
  | Some pa => ProblemArea.issues pa
  | None => []
  end
  = match find (isArea category' test') areas with
    | Some pa => ProblemArea.issues pa
    | None => []
    end.
Proof.
  intros Hne. induction areas as [|pa rest IH]; cbn [pushIssue find];
    [reflexivity|].
  destruct (isArea category test pa) eqn:E; cbn [find].
  - pose proof (isArea_other _ _ _ _ pa Hne E) as E'.
    unfold isArea in E' |- *. cbn [ProblemArea.category ProblemArea.test].
    rewrite E'. reflexivity.
  - destruct (isArea category' test' pa); [reflexivity|exact IH].
Qed.

Lemma stored_issuesOf category test issue areas :
  match find (isArea category test) (stored category test issue areas) with
  | Some pa => ProblemArea.issues pa
  | None => []
  end
  = (match find (isArea category test) areas with
     | Some pa => ProblemArea.issues pa
     | None => []
     end ++ [issue])%list.
Proof.
  unfold stored.
  destruct (find (isArea category test) areas) as [pa|] eqn:F.
  - rewrite find_pushIssue, F. reflexivity.
  - rewrite find_app, F. cbn [find]. unfold isArea.
    cbn [ProblemArea.category ProblemArea.test].
    rewrite !String.eqb_refl. reflexivity.
Qed.

Lemma stored_issuesOf_other category test category' test' issue areas :
  (category', test') <> (category, test) ->
  match find (isArea category' test') (stored category test issue areas) with
  | Some pa => ProblemArea.issues pa
  | None => []
  end
  = match find (isArea category' test') areas with
    | Some pa => ProblemArea.issues pa
    | None => []
    end.
Proof.
  intros Hne. unfold stored.
  destruct (find (isArea category test) areas) as [pa|] eqn:F.
  - apply find_pushIssue_other. exact Hne.
  - rewrite find_app.
    destruct (find (isArea category' test') areas); [reflexivity|].
    cbn [find].
    assert (E : isArea category' test'
                  (ProblemArea.mk category test [issue] None) = false).
    { apply (isArea_other category test); [exact Hne|].
      apply isArea_key. reflexivity. }
    rewrite E. reflexivity.
Qed.

Lemma filter_Permutation {A} (f : A -> bool) (l l' : list A) :
  Permutation l l' -> Permutation (filter f l) (filter f l').
Proof.
  induction 1 as [|x l l' H IH|x y l|l l' l'' H1 IH1 H2 IH2]; cbn [filter].
  - constructor.
  - destruct (f x); [constructor|]; exact IH.
  - destruct (f x), (f y); try apply Permutation_refl. constructor.
  - eapply Permutation_trans; eassumption.
Qed.

Lemma stored_all category test issue areas :
  Permutation (flat_map ProblemArea.issues (stored category test issue areas))
    (issue :: flat_map ProblemArea.issues areas).
Proof.
  destruct (stored_shape category test issue areas)
    as [(before & pa & after & -> & _ & _ & ->) | (_ & ->)].
  - rewrite !flat_map_app. cbn [flat_map ProblemArea.issues].
    rewrite <- !app_assoc. cbn [app].
    apply Permutation_sym. 
    apply Permutation_trans
      with (l' := (flat_map ProblemArea.issues before
                     ++ issue :: ProblemArea.issues pa
                     ++ flat_map ProblemArea.issues after)%list).
    + apply Permutation_middle.
    + apply Permutation_app_head.
      apply (Permutation_middle (ProblemArea.issues pa)
               (flat_map ProblemArea.issues after) issue).
  - rewrite flat_map_app. cbn [flat_map ProblemArea.issues app].
    apply Permutation_sym, Permutation_cons_append.
Qed.

End AreasFacts.

(** The issue that [recordProblemArea] returns is on record, once. *)
Lemma recorded_issue_on_record
  page category test selector description severity recommendation
  takeScreenshot env w a issue w' a' :
  ScreenshotAnalyzer.recordProblemArea page category test selector description
    severity recommendation takeScreenshot env w a = (Ok (Some issue), w', a') ->
  Permutation (Areas.allIssues a') (issue :: Areas.allIssues a)
  /\ ElementIssue.severity issue = severity.
Proof.
  intros E.
  destruct (recordProblemArea_cases page category test selector description
              severity recommendation takeScreenshot env w a)
    as (w1 & [[E1 _] | (box & rest & path & _ & _ & _ & _ & E1)]);
    rewrite E1 in E; [discriminate|]. injection E as <- <- <-.
  split; [apply stored_all|reflexivity].
Qed.

(** X6. The analyzer keeps at most one problem area for a category and
    test: after any sequence of its operations on a new analyzer, no two
    areas have the same category and test. *)
Theorem problem_areas_have_distinct_keys :
  forall (env : Env.t) (dir : string) (ops : list Evidence.Op) (w : World.t),
    Areas.distinctKeys
      (snd (Evidence.steps env ops (w, ScreenshotAnalyzer.new dir))).
Proof.
  intros env dir ops w. apply steps_keys. constructor.
Qed.

(** X7. What [recordProblemArea] returns and what the analyzer then holds
    agree.  When it returns an issue, that issue is the last one on record
    under its category and test, the issues under every other category and
    test are as before, and the record holds exactly one issue more.  When
    it returns null, the analyzer is as before. *)
Theorem a_recorded_issue_is_the_last_of_its_area :
  forall page category test selector description severity recommendation
         takeScreenshot env w a r w' a',
    ScreenshotAnalyzer.recordProblemArea page category test selector description
      severity recommendation takeScreenshot env w a = (Ok r, w', a') ->
    match r with
    | Some issue =>
        Areas.issuesOf category test a'
        = (Areas.issuesOf category test a ++ [issue])%list
        /\ (forall category' test',
              (category', test') <> (category, test) ->
              Areas.issuesOf category' test' a' = Areas.issuesOf category' test' a)
        /\ Permutation (Areas.allIssues a') (issue :: Areas.allIssues a)
        /\ ElementIssue.selector issue = selector
        /\ ElementIssue.severity issue = severity
    | None => a' = a
    end.
Proof.
  intros page category test selector description severity recommendation
    takeScreenshot env w a r w' a' E.
  destruct (recordProblemArea_cases page category test selector description
              severity recommendation takeScreenshot env w a)
    as (w1 & [[E1 _] | (box & rest & path & _ & _ & _ & _ & E1)]);
    rewrite E1 in E; injection E as <- <- <-.
  - reflexivity.
  - unfold Areas.issuesOf, Areas.allIssues.
    cbn [ScreenshotAnalyzer.problemAreas ScreenshotAnalyzer.setProblemAreas].
    split; [apply stored_issuesOf|].
    split; [intros c' t' Hne; apply stored_issuesOf_other; exact Hne|].
    split; [apply stored_all|]. split; reflexivity.
Qed.

(** A rendered element, recorded on a new analyzer. *)
Lemma a_recorded_issue_is_the_last_of_its_area_witness :
  exists w' a',
    ScreenshotAnalyzer.recordProblemArea Evidence.visibleHero "c" "t" ".hero"
      "Image missing alt text" high "Add alt text" true
      (Fixture.quiet Evidence.visibleHero) World.initial
      (ScreenshotAnalyzer.new Config.screenshotsDir)
    = (Ok (Some Evidence.sampleIssue), w', a')
    /\ Areas.issuesOf "c" "t" a' = [Evidence.sampleIssue].
Proof.
  do 2 eexists. split; [vm_compute; reflexivity|].
  match goal with
  | |- Areas.issuesOf _ _ ?a' = _ =>
      pose proof (a_recorded_issue_is_the_last_of_its_area
                    Evidence.visibleHero "c" "t" ".hero"
                    "Image missing alt text" high "Add alt text" true
                    (Fixture.quiet Evidence.visibleHero) World.initial
                    (ScreenshotAnalyzer.new Config.screenshotsDir)
                    (Some Evidence.sampleIssue) _ a' eq_refl) as H
  end.
  destruct H as (H & _). exact H.
Defined.

(** X8. The high-severity issues follow what is recorded: when
    [recordProblemArea] returns an issue, [getHighSeverityIssues] returns
    the issues it returned before, together with the new issue if its
    severity is high; it returns only issues of high severity, touches
    neither the browser nor the analyzer, and returns none once the areas
    are cleared. *)
Theorem high_severity_issues_follow_the_record :
  forall page category test selector description severity recommendation
         takeScreenshot env w a issue w' a',
    ScreenshotAnalyzer.recordProblemArea page category test selector description
      severity recommendation takeScreenshot env w a = (Ok (Some issue), w', a') ->
    exists before after,
      ScreenshotAnalyzer.getHighSeverityIssues env w a = (Ok before, w, a)
      /\ ScreenshotAnalyzer.getHighSeverityIssues env w' a' = (Ok after, w', a')
      /\ Permutation after
           (if Severity_eqb severity high then issue :: before else before)
      /\ Forall (fun i => ElementIssue.severity i = high) after
      /\ (forall w'', 
            fst (fst (ScreenshotAnalyzer.getHighSeverityIssues env w''
                        (snd (ScreenshotAnalyzer.clearProblemAreas env w' a'))))
            = Ok []).
Proof.
  intros page category test selector description severity recommendation
    takeScreenshot env w a issue w' a' E.
  pose proof (recorded_issue_on_record
                page category test selector description severity recommendation
                takeScreenshot env w a issue w' a' E) as (Hall & Hsev).
  unfold ScreenshotAnalyzer.getHighSeverityIssues, bind, gets, ret.
  do 2 eexists. split; [reflexivity|]. split; [reflexivity|].
  split; [|split].
  - unfold Areas.allIssues in Hall.
    eapply Permutation_trans.
    + apply filter_Permutation. exact Hall.
    + cbn [filter]. rewrite Hsev. destruct (Severity_eqb severity high);
        apply Permutation_refl.
  - apply Forall_forall. intros i Hi. apply filter_In in Hi.
    destruct Hi as [_ Hi]. destruct (ElementIssue.severity i); (reflexivity || discriminate).
  - intros w''. reflexivity.
Qed.

(** A rendered element recorded with high severity on a new analyzer. *)
Lemma high_severity_issues_follow_the_record_witness :
  exists w' a',
    ScreenshotAnalyzer.recordProblemArea Evidence.visibleHero "c" "t" ".hero"
      "Image missing alt text" high "Add alt text" true
      (Fixture.quiet Evidence.visibleHero) World.initial
      (ScreenshotAnalyzer.new Config.screenshotsDir)
    = (Ok (Some Evidence.sampleIssue), w', a')
    /\ exists after,
         ScreenshotAnalyzer.getHighSeverityIssues
           (Fixture.quiet Evidence.visibleHero) w' a' = (Ok after, w', a')
         /\ Permutation after [Evidence.sampleIssue].
Proof.
  do 2 eexists. split; [vm_compute; reflexivity|].
  match goal with
  | |- exists after, ScreenshotAnalyzer.getHighSeverityIssues _ ?w' ?a' = _ /\ _ =>
      destruct (high_severity_issues_follow_the_record
                  Evidence.visibleHero "c" "t" ".hero"
                  "Image missing alt text" high "Add alt text" true
                  (Fixture.quiet Evidence.visibleHero) World.initial
                  (ScreenshotAnalyzer.new Config.screenshotsDir)
                  Evidence.sampleIssue w' a' eq_refl)
        as (before & after & Eb & Ea & Hp & _)
  end.
  exists after. split; [exact Ea|].
  injection Eb as <-. exact Hp.
Defined.

(** ** Recommendations by category *)

Section ByCategory.

Import Recommendations.

Lemma own_set_same {A} (o : Obj.t A) key v : Obj.own (Obj.set o key v) key = Some v.
Proof.
  unfold Obj.own. induction o as [|[k x] rest IH]; cbn [Obj.set find fst snd].
  - rewrite String.eqb_refl. reflexivity.
  - destruct (k =? key) eqn:E; cbn [find fst snd]; rewrite E; [reflexivity|exact IH].
Qed.

Lemma own_set_other {A} (o : Obj.t A) key key' v :
  key' <> key -> Obj.own (Obj.set o key v) key' = Obj.own o key'.
Proof.
  intros Hne. unfold Obj.own.
  induction o as [|[k x] rest IH]; cbn [Obj.set find fst snd].
  - destruct (String.eqb_spec key key'); [congruence|reflexivity].
  - destruct (String.eqb_spec k key) as [->|Hk]; cbn [find fst snd].
    + destruct (String.eqb_spec key key'); [congruence|reflexivity].
    + destruct (k =? key'); [reflexivity|exact IH].
Qed.

Abbreviation addAll := 
  (fold_left (fun l issue => addOnce (ElementIssue.recommendation issue) l)).

Abbreviation ofCategory category :=
  (filter (fun pa => ProblemArea.category pa =? category)).

(** The list of a category after the loop: the recommendations of its
    issues, area by area, each added once. *)
Lemma collect_own areas :
  Forall (fun pa => Obj.inherited (ProblemArea.category pa) = false) areas ->
  forall recommendations,
  exists recommendations',
    collect areas recommendations = Ok recommendations'
    /\ forall category,
         Obj.own recommendations' category
         = match Obj.own recommendations category,
                 existsb (fun pa => ProblemArea.category pa =? category) areas with
           | None, false => None
           | current, _ =>
               Some (addAll
                       (flat_map ProblemArea.issues (ofCategory category areas))
                       (match current with Some l => l | None => [] end))
           end.
Proof.
  induction 1 as [|area rest Harea Hrest IH]; intros recommendations.
  - exists recommendations. split; [reflexivity|]. intros category.
    cbn [existsb filter flat_map fold_left].
    destruct (Obj.own recommendations category); reflexivity.
  - cbn [collect]. rewrite Harea. cbv zeta.
    set (k := ProblemArea.category area).
    set (rec1 := match Obj.own recommendations k with
                 | Some _ => recommendations
                 | None => Obj.set recommendations k []
                 end).
    assert (H1 : Obj.own rec1 k
                 = Some (match Obj.own recommendations k with
                         | Some l => l
                         | None => []
                         end)).
    { subst rec1. destruct (Obj.own recommendations k) eqn:E;
        [exact E|apply own_set_same]. }
    assert (H1' : forall c, c <> k -> Obj.own rec1 c = Obj.own recommendations c).
    { intros c Hc. subst rec1. destruct (Obj.own recommendations k);
        [reflexivity|apply own_set_other; exact Hc]. }
    rewrite H1.
    match goal with
    | |- context [collect rest ?r] => destruct (IH r) as (rec' & E & Hown)
    end.
    exists rec'. split; [exact E|]. intros category. rewrite Hown.
    cbn [existsb filter]. fold k.
    destruct (String.eqb_spec k category) as [<-|Hne].
    + rewrite own_set_same. cbn [orb flat_map].
      destruct (Obj.own recommendations k); rewrite fold_left_app; reflexivity.
    + rewrite own_set_other by congruence. rewrite H1' by congruence.
      cbn [orb]. reflexivity.
Qed.

Lemma addOnce_NoDup r l : NoDup l -> NoDup (addOnce r l).
Proof.
  intros H. unfold addOnce. destruct (existsb (String.eqb r) l) eqn:E; [exact H|].
  apply NoDup_app_remove_l with (l := []). cbn [app].
  apply Permutation_NoDup with (l := r :: l); [apply Permutation_cons_append|].
  constructor; [|exact H]. intros Hin.
  assert (existsb (String.eqb r) l = true).
  { apply existsb_exists. exists r. split; [exact Hin|apply String.eqb_refl]. }
  congruence.
Qed.

Lemma addOnce_In r l x : In x (addOnce r l) <-> In x l \/ x = r.
Proof.
  unfold addOnce. destruct (existsb (String.eqb r) l) eqn:E.
  - apply existsb_exists in E. destruct E as (y & Hy & Ey).
    apply String.eqb_eq in Ey. subst y.
    split; [intros H; left; exact H | intros [H| ->]; assumption].
  - rewrite in_app_iff. cbn [In]. split.
    + intros [H|[H|[]]]; [left; exact H|right; symmetry; exact H].
    + intros [H| ->]; [left; exact H|right; left; reflexivity].
Qed.

Lemma addAll_NoDup issues : forall l, NoDup l -> NoDup (addAll issues l).
Proof.
  induction issues as [|issue rest IH]; intros l H; cbn [fold_left]; [exact H|].
  apply IH, addOnce_NoDup, H.
Qed.

Lemma addAll_In issues : forall l x,
  In x (addAll issues l)
  <-> In x l \/ exists issue, In issue issues /\ ElementIssue.recommendation issue = x.
Proof.
  induction issues as [|issue rest IH]; intros l x; cbn [fold_left].
  - split; [intros H; left; exact H | intros [H|(i & [] & _)]; exact H].
  - rewrite IH, addOnce_In. split.
    + intros [[H|H]|(i & Hi & Hx)].
      * left. exact H.
      * right. exists issue. split; [left; reflexivity|symmetry; exact H].
      * right. exists i. split; [right; exact Hi|exact Hx].
    + intros [H|(i & [<-|Hi] & Hx)].
      * left. left. exact H.
      * left. right. symmetry. exact Hx.
      * right. exists i. split; assumption.
Qed.

Lemma collect_throws areas :
  forall recommendations pa,
    In pa areas ->
    Obj.inherited (ProblemArea.category pa) = true ->
    ProblemArea.issues pa <> [] ->
    collect areas recommendations
    = Throw (TypeError "recommendations[area.category].includes is not a function").
Proof.
  induction areas as [|area rest IH]; intros recommendations pa Hin Hinh Hne;
    [destruct Hin|].
  cbn [collect]. cbv zeta. destruct Hin as [->|Hin].
  - rewrite Hinh. destruct (ProblemArea.issues pa); [congruence|reflexivity].
  - destruct (Obj.inherited (ProblemArea.category area)).
    + destruct (ProblemArea.issues area); [|reflexivity].
      apply (IH _ pa); assumption.
    + apply (IH _ pa); assumption.
Qed.

End ByCategory.

(** X9. When no category is the name of a member that objects inherit,
    [getRecommendationsByCategory] returns, leaving the analyzer and the
    browser alone, an object with a list for exactly the categories of the
    areas: the list of a category holds the recommendations of the issues
    of the areas of that category, each of them once. *)
Theorem recommendations_are_grouped_by_category_without_repeats :
  forall env w a,
    Forall (fun pa => Obj.inherited (ProblemArea.category pa) = false)
      (ScreenshotAnalyzer.problemAreas a) ->
    exists recommendations,
      Recommendations.getRecommendationsByCategory env w a
      = (Ok recommendations, w, a)
      /\ forall category,
           match Obj.own recommendations category with
           | None =>
               forall pa,
                 In pa (ScreenshotAnalyzer.problemAreas a) ->
                 ProblemArea.category pa <> category
           | Some l =>
               (exists pa,
                   In pa (ScreenshotAnalyzer.problemAreas a)
                   /\ ProblemArea.category pa = category)
               /\ NoDup l
               /\ forall r,
                    In r l
                    <-> exists pa issue,
                          In pa (ScreenshotAnalyzer.problemAreas a)
                          /\ ProblemArea.category pa = category
                          /\ In issue (ProblemArea.issues pa)
                          /\ ElementIssue.recommendation issue = r
           end.
Proof.
  intros env w a H.
  destruct (collect_own _ H []) as (rec' & E & Hown).
  exists rec'. unfold Recommendations.getRecommendationsByCategory, bind, gets, ret.
  rewrite E. split; [reflexivity|]. intros category. rewrite Hown.
  cbn [Obj.own find].
  destruct (existsb (fun pa => ProblemArea.category pa =? category)
              (ScreenshotAnalyzer.problemAreas a)) eqn:Ex.
  - apply existsb_exists in Ex. destruct Ex as (pa & Hin & Hc).
    apply String.eqb_eq in Hc.
    split; [exists pa; split; assumption|].
    split; [apply addAll_NoDup; constructor|].
    intros r. rewrite addAll_In. split.
    + intros [[]|(issue & Hi & Hr)]. apply in_flat_map in Hi.
      destruct Hi as (pa' & Hpa' & Hi). apply filter_In in Hpa'.
      destruct Hpa' as [Hpa' Hc']. apply String.eqb_eq in Hc'.
      exists pa', issue. repeat split; assumption.
    + intros (pa' & issue & Hpa' & Hc' & Hi & Hr). right. exists issue.
      split; [|exact Hr]. apply in_flat_map. exists pa'. split; [|exact Hi].
      apply filter_In. split; [exact Hpa'|]. apply String.eqb_eq. exact Hc'.
  - intros pa Hin Hc.
    assert (existsb (fun pa => ProblemArea.category pa =? category)
              (ScreenshotAnalyzer.problemAreas a) = true); [|congruence].
    apply existsb_exists. exists pa. split; [exact Hin|].
    apply String.eqb_eq. exact Hc.
Qed.

(** Three areas in two categories, with a recommendation that repeats. *)
Lemma recommendations_are_grouped_by_category_without_repeats_witness :
  exists recommendations,
    Recommendations.getRecommendationsByCategory
      (Fixture.quiet Fixture.blankPage) World.initial
      RecommendationsFixture.analyzer
    = (Ok recommendations, World.initial, RecommendationsFixture.analyzer)
    /\ Obj.own recommendations "Visual Design"
       = Some [ "Add alt text"; "Increase contrast" ]
    /\ match Obj.own recommendations "Visual Design" with
       | Some l => NoDup l
       | None => False
       end.
Proof.
  destruct (recommendations_are_grouped_by_category_without_repeats
              (Fixture.quiet Fixture.blankPage) World.initial
              RecommendationsFixture.analyzer)
    as (recommendations & E & H).
  - repeat constructor.
  - exists recommendations. split; [exact E|].
    assert (Hv : Obj.own recommendations "Visual Design"
                 = Some [ "Add alt text"; "Increase contrast" ]).
    { vm_compute in E. injection E as <-. reflexivity. }
    split; [exact Hv|].
    specialize (H "Visual Design"). rewrite Hv in H |- *.
    destruct H as (_ & Hnd & _). exact Hnd.
Defined.

(** X10. An area whose category is the name of a member that every object
    inherits, such as [constructor] or [toString], makes
    [getRecommendationsByCategory] throw a type error as soon as the area
    holds an issue: the lookup finds the inherited member instead of a
    list. *)
Theorem a_category_named_like_an_inherited_member_throws :
  forall env w a pa,
    In pa (ScreenshotAnalyzer.problemAreas a) ->
    Obj.inherited (ProblemArea.category pa) = true ->
    ProblemArea.issues pa <> [] ->
    exists message,
      Recommendations.getRecommendationsByCategory env w a
      = (Throw (TypeError message), w, a).
Proof.
  intros env w a pa Hin Hinh Hne.
  unfold Recommendations.getRecommendationsByCategory, bind, gets, throw.
  rewrite (collect_throws _ [] pa Hin Hinh Hne). eexists. reflexivity.
Qed.

(** An area recorded under the category [constructor]. *)
Lemma a_category_named_like_an_inherited_member_throws_witness :
  exists message,
    Recommendations.getRecommendationsByCategory
      (Fixture.quiet Fixture.blankPage) World.initial
      (RecommendationsFixture.named "constructor")
    = (Throw (TypeError message), World.initial,
       RecommendationsFixture.named "constructor").
Proof.
  apply (a_category_named_like_an_inherited_member_throws
           (Fixture.quiet Fixture.blankPage) World.initial
           (RecommendationsFixture.named "constructor")
           (ProblemArea.mk "constructor" "t"
              [ RecommendationsFixture.issue "#a" "Add alt text" ] None)).
  - left. reflexivity.
  - reflexivity.
  - discriminate.
Defined.

(** ** Colour contrast: bounds and the colours that are not [rgb(r, g, b)] *)

Section ContrastBounds.

Import Contrast.
Local Open Scope R_scope.

Lemma div_le (a b c : R) : 0 < b -> a <= c * b -> a / b <= c.
Proof.
  intros Hb H. apply Rmult_le_reg_r with (r := b); [exact Hb|].
  unfold Rdiv. rewrite Rmult_assoc, Rinv_l by lra. lra.
Qed.

Lemma le_div (a b c : R) : 0 < b -> c * b <= a -> c <= a / b.
Proof.
  intros Hb H. apply Rmult_le_reg_r with (r := b); [exact Hb|].
  unfold Rdiv. rewrite Rmult_assoc, Rinv_l by lra. lra.
Qed.

Lemma linear_le_1 (c : R) : 0 <= c <= 1 -> Wcag.linear c <= 1.
Proof.
  intros [H0 H1]. unfold Wcag.linear.
  destruct (Rle_dec c (3928 / 100000)); [lra|].
  unfold Rpower.
  assert (Hpos : 0 < (c + 55 / 1000) / (1055 / 1000)).
  { apply Rdiv_lt_0_compat; lra. }
  assert (Hle : (c + 55 / 1000) / (1055 / 1000) <= 1).
  { apply div_le; lra. }
  assert (Hln : ln ((c + 55 / 1000) / (1055 / 1000)) <= 0).
  { rewrite <- ln_1. destruct Hle as [Hlt|Heq].
    - left. apply ln_increasing; assumption.
    - rewrite Heq. right. reflexivity. }
  rewrite <- exp_0.
  assert (Hm : 24 / 10 * ln ((c + 55 / 1000) / (1055 / 1000)) <= 0) by nra.
  destruct Hm as [Hlt|Heq].
  - left. apply exp_increasing. exact Hlt.
  - rewrite Heq. right. reflexivity.
Qed.

Lemma channel_le_1 (n : nat) : (n <= 255)%nat -> 0 <= INR n / 255 <= 1.
Proof.
  intros H. split; [apply channel_nonneg|].
  apply le_INR in H. rewrite (INR_IZR_INZ 255) in H.
  change (Z.of_nat 255) with 255%Z in H. lra.
Qed.

Lemma luminance_le_1 (r g b : nat) :
  (r <= 255)%nat -> (g <= 255)%nat -> (b <= 255)%nat ->
  Wcag.luminance (r, g, b) <= 1.
Proof.
  intros Hr Hg Hb. unfold Wcag.luminance.
  pose proof (linear_le_1 _ (channel_le_1 r Hr)).
  pose proof (linear_le_1 _ (channel_le_1 g Hg)).
  pose proof (linear_le_1 _ (channel_le_1 b Hb)).
  lra.
Qed.

Lemma contrastRatio_bounds (c1 c2 : Wcag.Colour) :
  Wcag.luminance c1 <= 1 -> Wcag.luminance c2 <= 1 ->
  1 <= Wcag.contrastRatio c1 c2 <= 21.
Proof.
  intros H1 H2. unfold Wcag.contrastRatio. cbv zeta.
  pose proof (luminance_nonneg c1). pose proof (luminance_nonneg c2).
  destruct (Rle_dec (Wcag.luminance c1) (Wcag.luminance c2)); split.
  - apply le_div; lra.
  - apply div_le; lra.
  - apply le_div; lra.
  - apply div_le; lra.
Qed.

Lemma contrastRatio_sym (c1 c2 : Wcag.Colour) :
  Wcag.contrastRatio c1 c2 = Wcag.contrastRatio c2 c1.
Proof.
  unfold Wcag.contrastRatio. cbv zeta.
  destruct (Rle_dec (Wcag.luminance c1) (Wcag.luminance c2)),
    (Rle_dec (Wcag.luminance c2) (Wcag.luminance c1)); try reflexivity.
  - assert (E : Wcag.luminance c1 = Wcag.luminance c2) by lra.
    rewrite E. reflexivity.
  - lra.
Qed.

Close Scope R_scope.

Lemma digitRuns_rgba (r g b : nat) (alpha : string) :
  exists more, digitRuns None (Css.rgba r g b alpha) = r :: g :: b :: more.
Proof.
  unfold Css.rgba.
  change ("rgba(" ++ ?s)
    with (String "r" (String "g" (String "b" (String "a" (String "(" s))))).
  cbn [digitRuns isDigit nat_of_ascii]. cbn -[digitRuns JS.string_of_nat append].
  rewrite digitRuns_number.
  cbn [digitRuns append]. cbn -[digitRuns JS.string_of_nat append].
  rewrite digitRuns_number.
  cbn [digitRuns append]. cbn -[digitRuns JS.string_of_nat append].
  rewrite digitRuns_number.
  cbn [digitRuns append]. cbn -[digitRuns JS.string_of_nat append].
  eexists. reflexivity.
Qed.

Lemma digitRuns_digitless (s : string) :
  Css.digitless s = true -> digitRuns None s = [].
Proof.
  induction s as [|c rest IH]; cbn [Css.digitless digitRuns]; [reflexivity|].
  destruct (isDigit c); cbn [negb andb]; [discriminate|exact IH].
Qed.

End ContrastBounds.

(** X11. For colours whose channels are at most 255, the contrast that the
    page callback computes does not depend on which of the two colours is
    the text and which the background, and it lies between 1 and 21. *)
Theorem contrast_is_symmetric_and_between_1_and_21 :
  forall r1 g1 b1 r2 g2 b2 : nat,
    r1 <= 255 -> g1 <= 255 -> b1 <= 255 ->
    r2 <= 255 -> g2 <= 255 -> b2 <= 255 ->
    exists ratio,
      Contrast.getContrast (Wcag.rgb r1 g1 b1) (Wcag.rgb r2 g2 b2) = Some ratio
      /\ Contrast.getContrast (Wcag.rgb r2 g2 b2) (Wcag.rgb r1 g1 b1) = Some ratio
      /\ (1 <= ratio <= 21)%R.
Proof.
  intros r1 g1 b1 r2 g2 b2 H1 H2 H3 H4 H5 H6.
  exists (Wcag.contrastRatio (r1, g1, b1) (r2, g2, b2)).
  rewrite !getContrast_rgb. split; [reflexivity|].
  split; [rewrite contrastRatio_sym; reflexivity|].
  apply contrastRatio_bounds; apply luminance_le_1; assumption.
Qed.

(** Grey text on a white background. *)
Lemma contrast_is_symmetric_and_between_1_and_21_witness :
  exists ratio,
    Contrast.getContrast "rgb(119, 119, 119)" "rgb(255, 255, 255)" = Some ratio
    /\ Contrast.getContrast "rgb(255, 255, 255)" "rgb(119, 119, 119)" = Some ratio
    /\ (1 <= ratio <= 21)%R.
Proof.
  apply (contrast_is_symmetric_and_between_1_and_21 119 119 119 255 255 255); lia.
Defined.

(** X12. What the contrast callback makes of colours that are not of the
    form [rgb(r, g, b)].  The alpha channel is ignored: [rgba(r, g, b, a)]
    is read as the opaque colour, whatever [a] is.  A colour without any
    digit, such as a keyword, is read as black.  A colour with only one or
    two numbers has no contrast (the result is [NaN]) and is never
    flagged. *)
Theorem colours_that_are_not_rgb_triples :
  (forall (r g b : nat) (alpha other : string),
      Contrast.parseRgb (Css.rgba r g b alpha) = Contrast.parseRgb (Wcag.rgb r g b)
      /\ Contrast.getContrast (Css.rgba r g b alpha) other
         = Contrast.getContrast (Wcag.rgb r g b) other
      /\ Contrast.getContrast other (Css.rgba r g b alpha)
         = Contrast.getContrast other (Wcag.rgb r g b))
  /\ (forall keyword : string,
        Css.digitless keyword = true ->
        Contrast.parseRgb keyword = Contrast.parseRgb "rgb(0, 0, 0)")
  /\ (forall (colour other : string) (n m : nat),
        Contrast.digitRuns None colour = [n]
        \/ Contrast.digitRuns None colour = [n; m] ->
        Contrast.getContrast colour other = None
        /\ Contrast.getContrast other colour = None
        /\ Contrast.belowAA (Contrast.getContrast colour other) = false).
Proof.
  split; [|split].
  - intros r g b alpha other.
    assert (E : Contrast.parseRgb (Css.rgba r g b alpha)
                = Contrast.parseRgb (Wcag.rgb r g b)).
    { rewrite parseRgb_rgb. unfold Contrast.parseRgb.
      destruct (digitRuns_rgba r g b alpha) as [more ->]. reflexivity. }
    split; [exact E|]. unfold Contrast.getContrast. rewrite E.
    split; reflexivity.
  - intros keyword H. unfold Contrast.parseRgb.
    rewrite (digitRuns_digitless _ H). reflexivity.
  - intros colour other n m H.
    assert (E : Contrast.parseRgb colour = None).
    { unfold Contrast.parseRgb. destruct H as [-> | ->]; reflexivity. }
    unfold Contrast.getContrast. rewrite E.
    repeat split. destruct (Contrast.parseRgb other) as [[[? ?] ?]|]; reflexivity.
Qed.

(** ** The HTML report: grouping the results *)

Section Categorize.

Import ReportGenerator.

Lemma get_set_same {A} (m : JSMap.t A) key v :
  JSMap.get (JSMap.set m key v) key = Some v.
Proof.
  unfold JSMap.get. induction m as [|[k x] rest IH]; cbn [JSMap.set find fst snd].
  - rewrite String.eqb_refl. reflexivity.
  - destruct (k =? key) eqn:E; cbn [find fst snd]; rewrite E; [reflexivity|exact IH].
Qed.

Lemma get_set_other {A} (m : JSMap.t A) key key' v :
  key' <> key -> JSMap.get (JSMap.set m key v) key' = JSMap.get m key'.
Proof.
  intros Hne. unfold JSMap.get.
  induction m as [|[k x] rest IH]; cbn [JSMap.set find fst snd].
  - destruct (String.eqb_spec key key'); [congruence|reflexivity].
  - destruct (String.eqb_spec k key) as [->|Hk]; cbn [find fst snd].
    + destruct (String.eqb_spec key key'); [congruence|reflexivity].
    + destruct (k =? key'); [reflexivity|exact IH].
Qed.

Lemma get_None_keys {A} (m : JSMap.t A) key :
  JSMap.get m key = None -> ~ In key (JSMap.keys m).
Proof.
  unfold JSMap.get, JSMap.keys.
  induction m as [|[k x] rest IH]; cbn [find map fst]; [intros _ []|].
  destruct (String.eqb_spec k key) as [->|Hk]; [discriminate|].
  intros H [E|Hin]; [congruence|]. exact (IH H Hin).
Qed.

Lemma keys_set_present {A} (m : JSMap.t A) key v x :
  JSMap.get m key = Some x -> JSMap.keys (JSMap.set m key v) = JSMap.keys m.
Proof.
  unfold JSMap.get, JSMap.keys.
  induction m as [|[k y] rest IH]; cbn [JSMap.set find map fst]; [discriminate|].
  destruct (String.eqb_spec k key) as [->|Hk]; cbn [map fst]; [reflexivity|].
  intros H. rewrite (IH H). reflexivity.
Qed.

Lemma set_absent {A} (m : JSMap.t A) key v :
  JSMap.get m key = None -> JSMap.set m key v = (m ++ [(key, v)])%list.
Proof.
  unfold JSMap.get.
  induction m as [|[k y] rest IH]; cbn [JSMap.set find fst app]; [reflexivity|].
  destruct (String.eqb_spec k key) as [->|Hk]; [discriminate|].
  intros H. rewrite (IH H). reflexivity.
Qed.

Lemma set_set {A} (m : JSMap.t A) key v v' :
  JSMap.set (JSMap.set m key v) key v' = JSMap.set m key v'.
Proof.
  induction m as [|[k y] rest IH]; cbn [JSMap.set].
  - rewrite String.eqb_refl. reflexivity.
  - destruct (k =? key) eqn:E; cbn [JSMap.set]; rewrite E; [reflexivity|].
    rewrite IH. reflexivity.
Qed.

(** One round of the loop: the result joins the group of its category,
    or starts a new group at the end. *)
Lemma categorize_run categorized result :
  categorize categorized result
  = inr (match JSMap.get categorized (TestResult.category result) with
         | Some group =>
             JSMap.set categorized (TestResult.category result)
               (group ++ [result])%list
         | None => (categorized ++ [(TestResult.category result, [result])])%list
         end).
Proof.
  unfold categorize, JSMap.has. cbv zeta.
  destruct (JSMap.get categorized (TestResult.category result)) as [group|] eqn:G;
    cbn [negb].
  - rewrite G. reflexivity.
  - rewrite get_set_same, set_set. cbn [app].
    rewrite (set_absent _ _ _ G). reflexivity.
Qed.

Lemma set_push (m : JSMap.t (list TestResult.t)) key group result :
  JSMap.get m key = Some group ->
  Permutation (flat_map snd (JSMap.set m key (group ++ [result])%list))
    (result :: flat_map snd m).
Proof.
  unfold JSMap.get.
  induction m as [|[k y] rest IH]; cbn [JSMap.set find fst snd]; [discriminate|].
  destruct (String.eqb_spec k key) as [->|Hk].
  - intros [= ->]. cbn [flat_map snd].
    rewrite <- app_assoc. cbn [app]. apply Permutation_sym, Permutation_middle.
  - intros H. cbn [flat_map snd].
    eapply Permutation_trans; [apply Permutation_app_head; exact (IH H)|].
    apply Permutation_sym, Permutation_middle.
Qed.

Lemma set_nonEmpty (m : JSMap.t (list TestResult.t)) key v :
  v <> [] ->
  Forall (fun entry => snd entry <> []) m ->
  Forall (fun entry => snd entry <> []) (JSMap.set m key v).
Proof.
  intros Hv. induction 1 as [|[k y] rest Hy Hrest IH]; cbn [JSMap.set].
  - constructor; [exact Hv|constructor].
  - destruct (k =? key); constructor; assumption.
Qed.

Lemma existsb_snoc {A} (f : A -> bool) l x :
  existsb f (l ++ [x]) = existsb f l || f x.
Proof. rewrite existsb_app. cbn [existsb]. rewrite orb_false_r. reflexivity. Qed.

Lemma filter_snoc {A} (f : A -> bool) l x :
  filter f (l ++ [x]) = (filter f l ++ (if f x then [x] else []))%list.
Proof. rewrite filter_app. cbn [filter]. destruct (f x); reflexivity. Qed.

Lemma filter_none {A} (f : A -> bool) l : existsb f l = false -> filter f l = [].
Proof.
  induction l as [|x rest IH]; cbn [existsb filter]; [reflexivity|].
  destruct (f x); [discriminate|exact IH].
Qed.

Lemma get_app {A} (m1 m2 : JSMap.t A) key :
  JSMap.get (m1 ++ m2)%list key
  = match JSMap.get m1 key with
    | Some x => Some x
    | None => JSMap.get m2 key
    end.
Proof.
  unfold JSMap.get. rewrite find_app.
  destruct (find (fun kv => fst kv =? key) m1); reflexivity.
Qed.

Lemma push_nonEmpty (group : list TestResult.t) result :
  (group ++ [result])%list <> [].
Proof. intros E. apply app_eq_nil in E. destruct E as [_ E]. discriminate. Qed.

Lemma categorize_grouped categorized done result :
  Grouping.grouped categorized done ->
  exists categorized',
    categorize categorized result = inr categorized'
    /\ Grouping.grouped categorized' (done ++ [result]).
Proof.
  intros [Hd Hg Hn Hc]. rewrite categorize_run. eexists. split; [reflexivity|].
  set (k := TestResult.category result).
  destruct (JSMap.get categorized k) as [group|] eqn:G.
  - split.
    + rewrite (keys_set_present _ _ _ _ G). exact Hd.
    + intros category. rewrite existsb_snoc, filter_snoc. fold k.
      destruct (String.eqb_spec k category) as [<-|Hne].
      * rewrite get_set_same. rewrite Hg in G.
        destruct (existsb (fun r => TestResult.category r =? k) done);
          [|discriminate].
        injection G as <-. reflexivity.
      * rewrite get_set_other by congruence.
        rewrite Hg, orb_false_r, app_nil_r. reflexivity.
    + apply set_nonEmpty; [apply push_nonEmpty|exact Hn].
    + eapply Permutation_trans; [exact (set_push _ _ _ _ G)|].
      eapply Permutation_trans; [apply perm_skip; exact Hc|].
      apply Permutation_cons_append.
  - split.
    + unfold JSMap.keys. rewrite map_app. cbn [map fst].
      apply NoDup_app_remove_l with (l := []). cbn [app].
      apply Permutation_NoDup with (l := k :: map fst categorized);
        [apply Permutation_cons_append|].
      constructor; [exact (get_None_keys _ _ G)|exact Hd].
    + intros category. rewrite existsb_snoc, filter_snoc, get_app. fold k.
      unfold JSMap.get at 2. cbn [find fst snd].
      destruct (String.eqb_spec k category) as [<-|Hne].
      * rewrite G. rewrite Hg in G.
        destruct (existsb (fun r => TestResult.category r =? k) done) eqn:Ex;
          [discriminate|].
        rewrite (filter_none _ _ Ex). reflexivity.
      * rewrite Hg, orb_false_r, app_nil_r.
        destruct (existsb (fun r => TestResult.category r =? category) done);
          reflexivity.
    + apply Forall_app. split; [exact Hn|].
      constructor; [cbn [snd]; discriminate|constructor].
    + rewrite flat_map_app. cbn [flat_map snd app].
      apply Permutation_app_tail. exact Hc.
Qed.

Lemma categorizeFrom_grouped results :
  forall categorized done,
    Grouping.grouped categorized done ->
    exists categorized',
      categorizeFrom results categorized = inr categorized'
      /\ Grouping.grouped categorized' (done ++ results).
Proof.
  induction results as [|result rest IH]; intros categorized done H;
    cbn [categorizeFrom].
  - exists categorized. rewrite app_nil_r. split; [reflexivity|exact H].
  - destruct (categorize_grouped categorized done result H) as (c1 & E & H1).
    rewrite E. destruct (IH c1 (done ++ [result])%list H1) as (c2 & E2 & H2).
    exists c2. split; [exact E2|].
    rewrite <- app_assoc in H2. exact H2.
Qed.

End Categorize.

(** X13. [categorizeResults] groups the results by category and loses
    none.  It never throws; no category is a key twice; the group of a
    category holds the results of that category, in their order, and there
    is a group exactly for the categories that occur; no group is empty;
    and the groups together hold every result exactly once. *)
Theorem categorizeResults_partitions_the_results :
  forall results : list TestResult.t,
    exists categorized,
      ReportGenerator.categorizeResults results = inr categorized
      /\ NoDup (JSMap.keys categorized)
      /\ (forall category,
            JSMap.get categorized category
            = if existsb (fun r => TestResult.category r =? category) results
              then Some (filter (fun r => TestResult.category r =? category) results)
              else None)
      /\ Forall (fun entry => snd entry <> []) categorized
      /\ Permutation (flat_map snd categorized) results.
Proof.
  intros results.
  destruct (categorizeFrom_grouped results [] []) as (categorized & E & [Hd Hg Hn Hc]).
  - split; [constructor|reflexivity|constructor|constructor].
  - exists categorized. repeat split; assumption.
Qed.

(** ** Escaping and links in the HTML sections *)

Section Escaping.

Import ReportHTMLGenerator.

Lemma append_assoc' (a b c : string) : (a ++ b) ++ c = a ++ (b ++ c).
Proof.
  induction a as [|x rest IH]; cbn [append]; [reflexivity|].
  rewrite IH. reflexivity.
Qed.

Lemma replaceAll_app c replacement a b :
  replaceAll c replacement (a ++ b)
  = replaceAll c replacement a ++ replaceAll c replacement b.
Proof.
  induction a as [|x rest IH]; cbn [append replaceAll]; [reflexivity|].
  destruct (Ascii.eqb x c); rewrite IH; [|reflexivity].
  symmetry. apply append_assoc'.
Qed.

Lemma escapeHtml_app a b : escapeHtml (a ++ b) = escapeHtml a ++ escapeHtml b.
Proof. unfold escapeHtml. rewrite !replaceAll_app. reflexivity. Qed.

Lemma escapeHtml_cons c s : escapeHtml (String c s) = escapeChar c ++ escapeHtml s.
Proof.
  change (String c s) with (String c EmptyString ++ s).
  apply escapeHtml_app.
Qed.

Lemma escapeChar_cases c :
  (c = "&"%char /\ escapeChar c = "&amp;")
  \/ (c = "<"%char /\ escapeChar c = "&lt;")
  \/ (c = ">"%char /\ escapeChar c = "&gt;")
  \/ (c = doubleQuote /\ escapeChar c = "&quot;")
  \/ (c = "'"%char /\ escapeChar c = "&#039;")
  \/ (special c = false /\ escapeChar c = String c EmptyString).
Proof.
  destruct c as [[] [] [] [] [] [] [] []];
    first [ left; split; reflexivity
          | right; left; split; reflexivity
          | right; right; left; split; reflexivity
          | right; right; right; left; split; reflexivity
          | right; right; right; right; left; split; reflexivity
          | right; right; right; right; right; split; reflexivity ].
Qed.

Lemma inert_app a b : inert (a ++ b) = inert a && inert b.
Proof.
  induction a as [|c rest IH]; cbn [append inert]; [reflexivity|].
  rewrite IH, andb_assoc. reflexivity.
Qed.

Lemma escapeChar_inert c : inert (escapeChar c) = true.
Proof.
  destruct (escapeChar_cases c)
    as [[_ ->]|[[_ ->]|[[_ ->]|[[_ ->]|[[_ ->]|[H ->]]]]]]; try reflexivity.
  cbn [inert]. unfold special in H. rewrite andb_true_r.
  destruct (Ascii.eqb c "&"); [discriminate|]. cbn [orb] in H.
  rewrite H. reflexivity.
Qed.

Lemma escapeHtml_inert text : inert (escapeHtml text) = true.
Proof.
  induction text as [|c rest IH]; [reflexivity|].
  rewrite escapeHtml_cons, inert_app, escapeChar_inert, IH. reflexivity.
Qed.

Lemma special_amp c : special c = false -> c <> "&"%char.
Proof. intros H ->. discriminate. Qed.

(** The replacements form a prefix code. *)
Lemma escapeChar_prefix c d x y :
  escapeChar c ++ x = escapeChar d ++ y -> c = d /\ x = y.
Proof.
  destruct (escapeChar_cases c)
    as [[Hc ->]|[[Hc ->]|[[Hc ->]|[[Hc ->]|[[Hc ->]|[Hc ->]]]]]];
    destruct (escapeChar_cases d)
      as [[Hd ->]|[[Hd ->]|[[Hd ->]|[[Hd ->]|[[Hd ->]|[Hd ->]]]]]];
    cbn [append]; intros E;
    try discriminate E;
    try (injection E as E; split; congruence);
    try (injection E as E1 E2; subst; discriminate).
  all: try (injection E as E1 E2;
            first [ apply special_amp in Hc; congruence
                  | apply special_amp in Hd; congruence ]).
Qed.

Lemma escapeChar_nonEmpty c : escapeChar c <> EmptyString.
Proof.
  destruct (escapeChar_cases c)
    as [[_ ->]|[[_ ->]|[[_ ->]|[[_ ->]|[[_ ->]|[_ ->]]]]]]; discriminate.
Qed.

Lemma escapeHtml_injective a : forall b, escapeHtml a = escapeHtml b -> a = b.
Proof.
  induction a as [|c a' IH]; intros [|d b'].
  - reflexivity.
  - rewrite escapeHtml_cons. change (escapeHtml "") with EmptyString.
    intros E. symmetry in E.
    destruct (escapeChar d) eqn:Ed; [destruct (escapeChar_nonEmpty d Ed)|].
    discriminate.
  - rewrite escapeHtml_cons. change (escapeHtml "") with EmptyString.
    intros E.
    destruct (escapeChar c) eqn:Ec; [destruct (escapeChar_nonEmpty c Ec)|].
    discriminate.
  - rewrite !escapeHtml_cons. intros E.
    apply escapeChar_prefix in E. destruct E as [-> E].
    rewrite (IH b' E). reflexivity.
Qed.

Lemma escapeHtml_plain text :
  (forall c, In c (list_ascii_of_string text) -> special c = false) ->
  escapeHtml text = text.
Proof.
  induction text as [|c rest IH]; intros H; [reflexivity|].
  rewrite escapeHtml_cons, IH.
  - destruct (escapeChar_cases c)
      as [[Hc E]|[[Hc E]|[[Hc E]|[[Hc E]|[[Hc E]|[Hc ->]]]]]];
      try reflexivity;
      assert (Hs : special c = false) by (apply H; left; reflexivity);
      subst c; discriminate.
  - intros d Hd. apply H. right. exact Hd.
Qed.

End Escaping.

Section Links.

Import ReportHTMLGenerator.

Lemma split_nonEmpty s : split s <> [].
Proof.
  destruct s as [|c rest]; cbn [split]; [discriminate|].
  destruct (isSeparator c); [discriminate|].
  destruct (split rest); discriminate.
Qed.

Lemma split_plain name : plain name = true -> split name = [name].
Proof.
  induction name as [|c rest IH]; cbn [plain split]; [reflexivity|].
  destruct (isSeparator c); cbn [negb andb]; [discriminate|].
  intros H. rewrite (IH H). reflexivity.
Qed.

Lemma last_cons {A} (x : A) l d :
  l <> [] -> nth (length (x :: l) - 1) (x :: l) d = nth (length l - 1) l d.
Proof.
  destruct l as [|y rest]; [congruence|]. intros _.
  cbn [length Nat.sub]. rewrite Nat.sub_0_r. reflexivity.
Qed.

(** The last part of a path that ends in a separator and a plain name is
    that name. *)
Lemma split_last dir sep name :
  isSeparator sep = true -> plain name = true ->
  nth (length (split (dir ++ String sep name)) - 1)
    (split (dir ++ String sep name)) "undefined"
  = name.
Proof.
  intros Hsep Hname. induction dir as [|c rest IH]; cbn [append split].
  - rewrite Hsep, (split_plain _ Hname). reflexivity.
  - destruct (isSeparator c).
    + rewrite last_cons by apply split_nonEmpty. exact IH.
    + destruct (split (rest ++ String sep name)) as [|part parts] eqn:E.
      * destruct (split_nonEmpty _ E).
      * destruct parts as [|p ps].
        -- exfalso. clear IH.
           assert (L : 2 <= length (split (rest ++ String sep name))).
           { clear E. induction rest as [|c' rest' IH']; cbn [append split].
             - rewrite Hsep. cbn [length].
               destruct (split name) eqn:En; [destruct (split_nonEmpty _ En)|].
               cbn [length]. lia.
             - destruct (isSeparator c'); cbn [length]; [lia|].
               destruct (split (rest' ++ String sep name)); cbn [length] in *; lia. }
           rewrite E in L. cbn [length] in L. lia.
        -- cbn [length Nat.sub] in IH |- *. exact IH.
Qed.

End Links.

(** X14. [escapeHtml] makes a text safe to put between tags or in an
    attribute value, and loses nothing: its result holds none of the
    characters [<], [>], the double quote and the apostrophe; two different
    texts have different results; the result of a concatenation is the
    concatenation of the results; and a text without the five characters
    that it replaces is left as it is. *)
Theorem escapeHtml_is_inert_and_injective :
  (forall text, ReportHTMLGenerator.inert (ReportHTMLGenerator.escapeHtml text) = true)
  /\ (forall a b,
        ReportHTMLGenerator.escapeHtml a = ReportHTMLGenerator.escapeHtml b -> a = b)
  /\ (forall a b,
        ReportHTMLGenerator.escapeHtml (a ++ b)
        = ReportHTMLGenerator.escapeHtml a ++ ReportHTMLGenerator.escapeHtml b)
  /\ (forall text,
        (forall c, In c (list_ascii_of_string text) ->
                   ReportHTMLGenerator.special c = false) ->
        ReportHTMLGenerator.escapeHtml text = text).
Proof.
  split; [exact escapeHtml_inert|].
  split; [exact escapeHtml_injective|].
  split; [exact escapeHtml_app|exact escapeHtml_plain].
Qed.

(** X15. The link that the HTML section gives for a screenshot is the
    file name in the [screenshots] folder: for a path made of a directory,
    a slash or a backslash, and a file name that holds neither,
    [getRelativePath] returns [./screenshots/] followed by that name; so it
    does for the paths under which the analyzer saves an element
    screenshot, when the test name holds no separator. *)
Theorem getRelativePath_is_the_file_name :
  forall (dir name : string) (separator : ascii),
    ReportHTMLGenerator.isSeparator separator = true ->
    ReportHTMLGenerator.plain name = true ->
    ReportHTMLGenerator.getRelativePath (dir ++ String separator name)
    = "./screenshots/" ++ name
    /\ ReportHTMLGenerator.getRelativePath name = "./screenshots/" ++ name.
Proof.
  intros dir name separator Hsep Hname. unfold ReportHTMLGenerator.getRelativePath.
  cbv zeta. rewrite (split_last dir separator name Hsep Hname).
  rewrite (split_plain name Hname). split; reflexivity.
Qed.

(** The path of an element screenshot. *)
Lemma getRelativePath_is_the_file_name_witness :
  ReportHTMLGenerator.getRelativePath
    "outputs/ux-report/screenshots/c-t-element-1700000000000.png"
  = "./screenshots/c-t-element-1700000000000.png".
Proof.
  apply (getRelativePath_is_the_file_name
           "outputs/ux-report/screenshots" "c-t-element-1700000000000.png" "/"%char);
    reflexivity.
Defined.

(** X16. The HTML report and the accessibility score agree on what is
    severe: [mapSeverity] gives an accessibility issue the badge [high]
    exactly when its severity is [critical] or [serious], which is when the
    score and the recommendations count it as critical.  For a severity
    that is not the name of an inherited member, the badge is one of
    [high], [medium] and [low], and [medium] for every unknown severity. *)
Theorem mapSeverity_agrees_with_the_critical_count :
  (forall issue : AccessibilityIssue.t,
      ReportGenerator.mapSeverity (AccessibilityIssue.severity issue)
      = ReportGenerator.Str "high"
      <-> UXUITester.isCritical issue = true)
  /\ (forall severity : string,
        Obj.inherited severity = false ->
        ReportGenerator.mapSeverity severity
        = ReportGenerator.Str
            (if (severity =? "critical") || (severity =? "serious") then "high"
             else if severity =? "minor" then "low" else "medium")).
Proof.
  assert (H : forall severity : string,
             ReportGenerator.mapSeverity severity
             = if (severity =? "critical") || (severity =? "serious")
               then ReportGenerator.Str "high"
               else if severity =? "moderate" then ReportGenerator.Str "medium"
               else if severity =? "minor" then ReportGenerator.Str "low"
               else if Obj.inherited severity then ReportGenerator.Member severity
               else ReportGenerator.Str "medium").
  { intros severity.
    unfold ReportGenerator.mapSeverity, ReportGenerator.lookupOr, Obj.own.
    cbn [find fst snd].
    rewrite !(String.eqb_sym _ severity).
    destruct (severity =? "critical"); [reflexivity|].
    destruct (severity =? "serious"); [reflexivity|].
    destruct (severity =? "moderate"); [reflexivity|].
    destruct (severity =? "minor"); reflexivity. }
  split.
  - intros issue. rewrite H. unfold UXUITester.isCritical.
    destruct ((AccessibilityIssue.severity issue =? "critical")
              || (AccessibilityIssue.severity issue =? "serious"));
      [split; reflexivity|].
    split; [|discriminate].
    destruct (AccessibilityIssue.severity issue =? "moderate"); [discriminate|].
    destruct (AccessibilityIssue.severity issue =? "minor"); [discriminate|].
    destruct (Obj.inherited (AccessibilityIssue.severity issue)); discriminate.
  - intros severity Hi. rewrite H, Hi.
    destruct ((severity =? "critical") || (severity =? "serious")); [reflexivity|].
    destruct (severity =? "moderate") eqn:E.
    + apply String.eqb_eq in E. subst severity. reflexivity.
    + destruct (severity =? "minor"); reflexivity.
Qed.

(** ** Export to Excel and Word *)

Section Converter.

Import ReportConverter.



Lemma mapi_from_length {A B} (f : A -> nat -> B) (l : list A) :
  forall start, length (JS.mapi_from start f l) = length l.
Proof.
  induction l as [|y rest IH]; intros start; cbn [JS.mapi_from length];
    [reflexivity|].
  rewrite IH. reflexivity.
Qed.

End Converter.



(** ** What the probes leave alone *)

#[export] Instance untouched_preorder : PreOrder Browser.untouched.
Proof.
  split.
  - intros w. repeat split.
  - intros a b c (H1 & H2 & H3 & H4 & H5) (H6 & H7 & H8 & H9 & H10).
    unfold Browser.untouched. repeat split; congruence.
Qed.

#[export] Instance onlyFindings_preorder : PreOrder Browser.onlyFindings.
Proof.
  split.
  - intros s. split; [reflexivity|split; reflexivity].
  - intros a b c (H1 & H2 & H3) (H4 & H5 & H6). split; [|split; congruence].
    etransitivity; eassumption.
Qed.

Ltac kept_leaf :=
  intros;
  cbv [both Browser.untouched Browser.onlyFindings grows anyAnalyzer];
  cbn [fst snd]; repeat split; try reflexivity; try exact I;
  first [ exists []; cbn; rewrite app_nil_r; reflexivity
        | eexists; cbn; reflexivity ].

Ltac kept_helper :=
  lazymatch goal with
  | |- preserves _ (UXUITester.onAnalyzer _) =>
      apply (preserves_zoom _ _ anyAnalyzer); [|kept_leaf]
  | _ => unfold_helper
  end.

Ltac preserves_kept :=
  repeat first [ preserves_structure | preserves_leaf kept_leaf | kept_helper ].

Section PageProbes.

Import UXUITester.

Abbreviation keeping := (preserves (both Browser.untouched Browser.onlyFindings)).

Lemma pageProbes_keeping : Forall (fun p => keeping p) Browser.pageProbes.
Proof.
  unfold Browser.pageProbes.
  repeat (apply Forall_cons; [cbv beta|]); [..|apply Forall_nil].
  - unfold testPerformance. preserves_kept.
  - unfold testVisualHierarchy. preserves_kept.
  - unfold testColorContrast. preserves_kept.
  - unfold testNavigation. preserves_kept.
  - unfold testReadability. preserves_kept.
  - unfold testCTAButtons. preserves_kept.
  - unfold testForms. preserves_kept.
  - unfold testInteractiveElements. preserves_kept.
  - unfold testKeyboardNavigation. preserves_kept.
  - unfold testSEOBasics. preserves_kept.
Qed.

Lemma pressTab_keeping n : forall i seen, keeping (pressTab n i seen).
Proof.
  induction n as [|n IH]; intros i seen; cbn [pressTab].
  - apply preserves_ret. typeclasses eauto.
  - preserves_kept. apply IH.
Qed.

Lemma checkTabOrder_keeping : keeping checkTabOrder.
Proof.
  unfold checkTabOrder.
  apply preserves_tryCatch; [typeclasses eauto| |preserves_kept].
  apply preserves_bind; [typeclasses eauto|apply pressTab_keeping|].
  preserves_kept.
Qed.

Lemma checks_keeping :
  keeping (checkTabOrder ;; checkSkipLink ;; checkLang ;; checkLandmarks).
Proof.
  apply preserves_bind; [typeclasses eauto|apply checkTabOrder_keeping|intros _].
  unfold checkSkipLink, checkLang, checkLandmarks. preserves_kept.
Qed.

End PageProbes.

(** X19. The ten probes that look at the loaded page leave the browser as
    it is, in every environment and whether they return or throw: they
    neither launch nor close it, open or close no context, and request no
    script.  Of the tester they only extend the findings (and, for the
    performance probe, set the metrics); the accessibility issues and the
    responsive results are as before.  They are the first ten probes of the
    run. *)
Theorem the_page_probes_leave_the_browser_as_it_is :
  firstn 10 UXUITester.probes = Browser.pageProbes
  /\ Forall
       (fun probe =>
          forall env w s,
            Browser.untouched w (snd (fst (probe env w s)))
            /\ Browser.onlyFindings s (snd (probe env w s)))
       Browser.pageProbes.
Proof.
  split; [reflexivity|].
  eapply Forall_impl; [|exact pageProbes_keeping].
  intros p Hp env w s. exact (Hp env w s).
Qed.

(** ** The accessibility probe: violations and the keyboard walk *)

Section AccessibilityRun.

Import UXUITester.

Lemma setAdd_NoDup d seen : NoDup seen -> NoDup (setAdd d seen).
Proof.
  intros H. unfold setAdd. destruct (existsb (String.eqb d) seen) eqn:E; [exact H|].
  apply NoDup_app_remove_l with (l := []). cbn [app].
  apply Permutation_NoDup with (l := d :: seen); [apply Permutation_cons_append|].
  constructor; [|exact H]. intros Hin.
  assert (existsb (String.eqb d) seen = true).
  { apply existsb_exists. exists d. split; [exact Hin|apply String.eqb_refl]. }
  congruence.
Qed.

Lemma setAdd_In d seen x : In x (setAdd d seen) <-> In x seen \/ x = d.
Proof.
  unfold setAdd. destruct (existsb (String.eqb d) seen) eqn:E.
  - apply existsb_exists in E. destruct E as (y & Hy & Ey).
    apply String.eqb_eq in Ey. subst y.
    split; [intros H; left; exact H | intros [H| ->]; assumption].
  - rewrite in_app_iff. cbn [In]. split.
    + intros [H|[H|[]]]; [left; exact H|right; symmetry; exact H].
    + intros [H| ->]; [left; exact H|right; left; reflexivity].
Qed.

Lemma walk_NoDup page n : forall start seen,
  NoDup seen -> NoDup (Focus.walk page n start seen).
Proof.
  induction n as [|n IH]; intros start seen H; cbn [Focus.walk]; [exact H|].
  apply IH, setAdd_NoDup, H.
Qed.

Lemma walk_In page n : forall start seen x,
  In x (Focus.walk page n start seen)
  <-> In x seen
      \/ exists k, start <= k < start + n /\ Focus.descriptor page k = x.
Proof.
  induction n as [|n IH]; intros start seen x; cbn [Focus.walk].
  - split; [intros H; left; exact H|intros [H|(k & Hk & _)]; [exact H|lia]].
  - rewrite IH, setAdd_In. split.
    + intros [[H|H]|(k & Hk & Hx)].
      * left. exact H.
      * right. exists start. split; [lia|symmetry; exact H].
      * right. exists k. split; [lia|exact Hx].
    + intros [H|(k & Hk & Hx)].
      * left. left. exact H.
      * destruct (Nat.eq_dec k start) as [->|Hne].
        -- left. right. symmetry. exact Hx.
        -- right. exists k. split; [lia|exact Hx].
Qed.

Lemma two_distinct (l : list string) :
  NoDup l -> 1 < length l -> exists x y, In x l /\ In y l /\ x <> y.
Proof.
  intros H L. destruct l as [|x [|y rest]]; cbn [length] in L; try lia.
  exists x, y. split; [left; reflexivity|]. split; [right; left; reflexivity|].
  inversion H as [|? ? Hx _]; subst. intros ->. apply Hx. left. reflexivity.
Qed.

Lemma distinct_two (l : list string) x y :
  In x l -> In y l -> x <> y -> 1 < length l.
Proof.
  intros Hx Hy Hne. destruct l as [|a [|b rest]]; cbn [length]; try lia.
  - destruct Hx.
  - destruct Hx as [<-|[]]. destruct Hy as [<-|[]]. congruence.
Qed.

(** The set of focus targets has more than one element exactly when two
    presses of Tab gave different descriptors. *)
Lemma walk_size page :
  1 < length (Focus.walk page 30 0 [])
  <-> exists i j, i < 30 /\ j < 30
                  /\ Focus.descriptor page i <> Focus.descriptor page j.
Proof.
  split.
  - intros L.
    destruct (two_distinct _ (walk_NoDup page 30 0 [] (NoDup_nil _)) L)
      as (x & y & Hx & Hy & Hne).
    apply walk_In in Hx. apply walk_In in Hy.
    destruct Hx as [[]|(i & Hi & <-)]. destruct Hy as [[]|(j & Hj & <-)].
    exists i, j. repeat split; try lia. exact Hne.
  - intros (i & j & Hi & Hj & Hne).
    apply (distinct_two _ (Focus.descriptor page i) (Focus.descriptor page j));
      [| |exact Hne]; apply walk_In; right; eexists; (split; [|reflexivity]); lia.
Qed.

Lemma pressTab_run env n :
  faultless env ->
  forall i seen w s,
  exists w',
    pressTab n i seen env w s
    = (Ok (Focus.walk (Env.page env) n i seen), w', s)
    /\ World.ticks w' = World.ticks w.
Proof.
  intros Hf. induction n as [|n IH]; intros i seen w s; cbn [pressTab Focus.walk].
  - exists w. split; reflexivity.
  - unfold bind at 1. rewrite pageOp_run, (Hf _). cbv beta iota.
    unfold bind at 1, ask. unfold bind at 1, evaluate. unfold bind at 1.
    rewrite pageOp_run, (Hf _). cbv beta iota. unfold ret at 1.
    destruct (IH (S i) (setAdd (JS.orElse (Page.focusAfterTab (Env.page env) i) "none") seen)
                (World.tickOp (World.tickOp w)) s) as (w' & E & Ht).
    exists w'. split; [exact E|]. rewrite Ht. reflexivity.
Qed.

(** A block that returns and only appends findings. *)
Lemma check_run env (check : M t unit) :
  succeeds env check ->
  preserves (both Browser.untouched Browser.onlyFindings) check ->
  forall w s,
  exists w' s',
    check env w s = (Ok tt, w', s') /\ Browser.onlyFindings s s'.
Proof.
  intros Hs Hk w s. destruct (Hs w s) as ([] & w' & s' & E).
  exists w', s'. split; [exact E|].
  pose proof (Hk env w s) as [_ H]. rewrite E in H. exact H.
Qed.

Lemma recordViolations_run violations env :
  forall w s,
  exists w' s' added,
    forEach violations recordViolation env w s = (Ok tt, w', s')
    /\ accessibilityIssues s'
       = (accessibilityIssues s ++ map Audit.issueOf violations)%list
    /\ results s' = (results s ++ added)%list
    /\ responsiveResults s' = responsiveResults s
    /\ Forall
         (fun r =>
            TestResult.category r = "Accessibility"
            /\ TestResult.status r = fail
            /\ TestResult.score r = 0%Q
            /\ TestResult.severity r = high)
         added
    /\ map TestResult.test added
       = map Violation.id
           (filter
              (fun v =>
                 match ruleRecommendation (Violation.id v) with
                 | Some _ => true
                 | None => false
                 end)
              violations).
Proof.
  induction violations as [|v rest IH]; intros w s; cbn [forEach].
  - exists w, s, []. rewrite !app_nil_r. repeat split. constructor.
  - unfold bind at 1. unfold recordViolation at 1. unfold bind at 1.
    unfold modify at 1. cbn [filter map].
    destruct (ruleRecommendation (Violation.id v)) as [recommendation|].
    + rewrite addResult_run.
      match goal with
      | |- context [forEach rest recordViolation env ?w0 ?s0] =>
          destruct (IH w0 s0) as (w' & s' & added & E & Ha & Hr & Hp & Hf & Ht)
      end.
      rewrite E. eexists. eexists. eexists. split; [reflexivity|].
      cbn [accessibilityIssues results responsiveResults pushResult
           pushAccessibilityIssue] in Ha, Hr, Hp.
      split; [rewrite Ha, <- app_assoc; reflexivity|].
      split; [rewrite Hr, <- app_assoc; reflexivity|].
      split; [exact Hp|]. cbn [app]. split.
      * constructor; [repeat split|exact Hf].
      * cbn [map TestResult.test]. rewrite Ht. reflexivity.
    + unfold ret at 1.
      match goal with
      | |- context [forEach rest recordViolation env ?w0 ?s0] =>
          destruct (IH w0 s0) as (w' & s' & added & E & Ha & Hr & Hp & Hf & Ht)
      end.
      rewrite E. exists w', s', added. split; [reflexivity|].
      cbn [accessibilityIssues results responsiveResults
           pushAccessibilityIssue] in Ha, Hr, Hp.
      split; [rewrite Ha, <- app_assoc; reflexivity|].
      repeat split; assumption.
Qed.

Lemma checkTabOrder_succeeds env : succeeds env checkTabOrder.
Proof. unfold checkTabOrder. succeeds_auto. Qed.

Lemma checkSkipLink_run env :
  succeeds env checkSkipLink
  /\ preserves (both Browser.untouched Browser.onlyFindings) checkSkipLink.
Proof. unfold checkSkipLink. split; [succeeds_auto|preserves_kept]. Qed.

Lemma checkLang_run env :
  succeeds env checkLang
  /\ preserves (both Browser.untouched Browser.onlyFindings) checkLang.
Proof. unfold checkLang. split; [succeeds_auto|preserves_kept]. Qed.

Lemma checkLandmarks_run env :
  succeeds env checkLandmarks
  /\ preserves (both Browser.untouched Browser.onlyFindings) checkLandmarks.
Proof. unfold checkLandmarks. split; [succeeds_auto|preserves_kept]. Qed.

(** With the CDN script usable and no operation rejected, axe-core is
    loaded at the first attempt. *)
Lemma loadAxe_from_cdn env w s :
  faultless env ->
  Env.definesAxe env (CDN axeUrl) = true ->
  exists w1, loadAxe env w s = (Ok true, w1, s).
Proof.
  intros Hf Hd. unfold loadAxe, addScriptTag, axeDefined. unfold_monad.
  rewrite pageOp_run, (Hf _). cbv beta iota.
  rewrite pageOp_run, (Hf _). cbv beta iota. simpl_world.
  rewrite existsb_app. cbn [existsb]. rewrite Hd, orb_true_r. cbn [negb].
  eexists. reflexivity.
Qed.

End AccessibilityRun.

(** X20. With the CDN copy of axe-core usable and no browser operation
    rejected, [testAccessibility] records one accessibility issue for every
    violation that the engine reports, in their order, with the rule as
    type, the impact as severity, and [Unknown] as element when the
    violation names none.  Its last finding, Overall A11y Issues, counts the
    issues whose severity is critical or serious: it passes when there is
    none, warns up to two, and fails from three on, with scores 10, 7, 4
    and, from six on, 1. *)
Theorem the_overall_accessibility_finding_counts_the_severe_violations :
  forall env w s,
    faultless env ->
    Env.definesAxe env (CDN UXUITester.axeUrl) = true ->
    let issues :=
      (UXUITester.accessibilityIssues s
         ++ map Audit.issueOf (Audit.violations (Env.page env)))%list in
    let count := Audit.criticalCount issues in
    exists w' s' before finding,
      UXUITester.testAccessibility env w s = (Ok tt, w', s')
      /\ UXUITester.accessibilityIssues s' = issues
      /\ UXUITester.results s' = (before ++ [finding])%list
      /\ TestResult.test finding = "Overall A11y Issues"
      /\ TestResult.status finding
         = (if (count =? 0)%nat then pass
            else if (count <=? 2)%nat then warning else fail)
      /\ TestResult.score finding
         = (if (count =? 0)%nat then 10
            else if (count <=? 2)%nat then 7
            else if (count <=? 5)%nat then 4 else 1)%Q.
Proof.
  intros env w s Hf Hd issues count.
  destruct (loadAxe_from_cdn env w s Hf Hd) as (w1 & E1).
  unfold UXUITester.testAccessibility, tryCatch.
  rewrite (bind_Ok _ _ _ _ _ _ _ _ E1).
  (* the violations *)
  assert (E2 : exists w2 s2 added,
             UXUITester.runAxe true env w1 s = (Ok tt, w2, s2)
             /\ UXUITester.accessibilityIssues s2 = issues
             /\ UXUITester.results s2 = (UXUITester.results s ++ added)%list).
  { unfold UXUITester.runAxe. unfold bind at 1, ask. unfold bind at 1, evaluate.
    unfold bind at 1. rewrite pageOp_run, (Hf _). cbv beta iota. unfold ret at 1.
    destruct (recordViolations_run
                (match Page.violations (Env.page env) with
                 | Some l => l
                 | None => []
                 end) env (World.tickOp w1) s)
      as (w2 & s2 & added & E & Ha & Hr & _).
    exists w2, s2, added. repeat split; assumption. }
  destruct E2 as (w2 & s2 & added & E2 & Ha2 & Hr2).
  rewrite (bind_Ok _ _ _ _ _ _ _ _ E2).
  (* the four checks *)
  destruct (check_run env _ (checkTabOrder_succeeds env) checkTabOrder_keeping w2 s2)
    as (w3 & s3 & E3 & (G3 & A3 & _)).
  rewrite (bind_Ok _ _ _ _ _ _ _ _ E3).
  destruct (check_run env _ (proj1 (checkSkipLink_run env))
              (proj2 (checkSkipLink_run env)) w3 s3)
    as (w4 & s4 & E4 & (G4 & A4 & _)).
  rewrite (bind_Ok _ _ _ _ _ _ _ _ E4).
  destruct (check_run env _ (proj1 (checkLang_run env))
              (proj2 (checkLang_run env)) w4 s4)
    as (w5 & s5 & E5 & (G5 & A5 & _)).
  rewrite (bind_Ok _ _ _ _ _ _ _ _ E5).
  destruct (check_run env _ (proj1 (checkLandmarks_run env))
              (proj2 (checkLandmarks_run env)) w5 s5)
    as (w6 & s6 & E6 & (G6 & A6 & _)).
  rewrite (bind_Ok _ _ _ _ _ _ _ _ E6).
  (* the overall finding *)
  unfold UXUITester.scoreAccessibility, bind, gets. rewrite addResult_run.
  assert (A : UXUITester.accessibilityIssues s6 = issues) by congruence.
  rewrite A. fold count.
  eexists. eexists. exists (UXUITester.results s6). eexists.
  split; [reflexivity|].
  cbn [UXUITester.accessibilityIssues UXUITester.results UXUITester.pushResult
       TestResult.test TestResult.status TestResult.score].
  unfold Audit.criticalCount in count. fold count.
  repeat split. exact A.
Qed.

(** A page with one critical violation, no earlier issues. *)
Lemma the_overall_accessibility_finding_counts_the_severe_violations_witness :
  exists w' s' before finding,
    UXUITester.testAccessibility (Fixture.quiet AuditFixture.page)
      World.initial UXUITester.new = (Ok tt, w', s')
    /\ UXUITester.results s' = (before ++ [finding])%list
    /\ TestResult.status finding = warning.
Proof.
  destruct (the_overall_accessibility_finding_counts_the_severe_violations
              (Fixture.quiet AuditFixture.page) World.initial UXUITester.new)
    as (w' & s' & before & finding & E & _ & Hr & _ & Hs & _).
  - intros n. reflexivity.
  - reflexivity.
  - exists w', s', before, finding. split; [exact E|]. split; [exact Hr|].
    exact Hs.
Defined.

(** X21. The keyboard walk of the accessibility probe presses Tab thirty
    times.  When no browser operation rejects, it appends one finding,
    Keyboard Navigation, which passes exactly when two of the thirty presses
    left the focus on elements with different descriptors, and fails
    otherwise, that is when the focus never moved. *)
Theorem the_keyboard_walk_passes_when_the_focus_moves :
  forall env w s,
    faultless env ->
    exists w' s' finding,
      UXUITester.checkTabOrder env w s = (Ok tt, w', s')
      /\ UXUITester.results s' = (UXUITester.results s ++ [finding])%list
      /\ TestResult.category finding = "Accessibility"
      /\ TestResult.test finding = "Keyboard Navigation"
      /\ (TestResult.status finding = pass
          <-> exists i j,
                i < 30 /\ j < 30
                /\ Focus.descriptor (Env.page env) i
                   <> Focus.descriptor (Env.page env) j)
      /\ (TestResult.status finding = fail
          <-> forall i,
                i < 30 ->
                Focus.descriptor (Env.page env) i = Focus.descriptor (Env.page env) 0)
      /\ TestResult.score finding
         = (if Status_eqb (TestResult.status finding) pass then 10 else 0)%Q.
Proof.
  intros env w s Hf. unfold UXUITester.checkTabOrder, tryCatch.
  destruct (pressTab_run env 30 Hf 0 [] w s) as (w1 & E & _).
  rewrite (bind_Ok _ _ _ _ _ _ _ _ E). cbv zeta. rewrite addResult_run.
  pose proof (walk_size (Env.page env)) as Hsize.
  destruct (Nat.ltb_spec 1 (length (Focus.walk (Env.page env) 30 0 []))) as [L|L];
    (eexists; eexists; eexists; split; [reflexivity|]);
    cbn [UXUITester.results UXUITester.pushResult TestResult.category
         TestResult.test TestResult.status TestResult.score Status_eqb].
  - repeat split; try reflexivity.
    + intros _. apply Hsize. exact L.
    + discriminate.
    + intros Hall. apply Hsize in L. destruct L as (i & j & Hi & Hj & Hne).
      exfalso. apply Hne. rewrite (Hall i Hi), (Hall j Hj). reflexivity.
  - repeat split; try reflexivity.
    + discriminate.
    + intros H. apply Hsize in H. lia.
    + intros _ i Hi.
      destruct (string_dec (Focus.descriptor (Env.page env) i)
                  (Focus.descriptor (Env.page env) 0)) as [Eq|Hne]; [exact Eq|].
      exfalso. assert (1 < length (Focus.walk (Env.page env) 30 0 [])); [|lia].
      apply Hsize. exists i, 0. repeat split; try lia. exact Hne.
Qed.

(** The scenario page, on which the focus alternates between a link and a
    button. *)
Lemma the_keyboard_walk_passes_when_the_focus_moves_witness :
  exists w' s' finding,
    UXUITester.checkTabOrder (Fixture.quiet Fixture.scenarioPage)
      World.initial UXUITester.new = (Ok tt, w', s')
    /\ UXUITester.results s' = [finding]
    /\ TestResult.test finding = "Keyboard Navigation".
Proof.
  destruct (the_keyboard_walk_passes_when_the_focus_moves
              (Fixture.quiet Fixture.scenarioPage) World.initial UXUITester.new)
    as (w' & s' & finding & E & Hr & _ & Ht & _).
  - intros n. reflexivity.
  - exists w', s', finding. repeat split; assumption.
Defined.

(** ** The probes that never fail a page *)

#[export] Instance neverFails_preorder : PreOrder Lenient.neverFails.
Proof.
  split.
  - intros s. exists []. split; [symmetry; apply app_nil_r|constructor].
  - intros a b c (d1 & H1 & F1) (d2 & H2 & F2). exists (d1 ++ d2)%list. split.
    + rewrite H2, H1, app_assoc. reflexivity.
    + apply Forall_app. split; assumption.
Qed.

(** The status of the finding that is pushed is not [fail]. *)
Ltac not_failing :=
  cbn [TestResult.status];
  repeat match goal with
         | |- context [if ?c then _ else _] => destruct c
         end;
  discriminate.

Ltac lenient_leaf :=
  intros;
  cbv [both Findings.anyWorld Lenient.neverFails anyAnalyzer];
  cbn [fst snd]; repeat split; try exact I;
  first [ exists []; split; [cbn; rewrite app_nil_r; reflexivity | constructor]
        | eexists; split;
          [ cbn; reflexivity
          | constructor; [not_failing | constructor] ] ].

Ltac lenient_helper :=
  lazymatch goal with
  | |- preserves _ (UXUITester.onAnalyzer _) =>
      apply (preserves_zoom _ _ anyAnalyzer); [|lenient_leaf]
  | _ => unfold_helper
  end.

Ltac preserves_lenient :=
  repeat first [ preserves_structure | preserves_leaf lenient_leaf | lenient_helper ].

Section LenientProbes.

Import UXUITester.

Lemma lenient_probes :
  Forall (fun p => preserves (both Findings.anyWorld Lenient.neverFails) p)
    Lenient.probes.
Proof.
  unfold Lenient.probes.
  repeat (apply Forall_cons; [cbv beta|]); [..|apply Forall_nil].
  - unfold testColorContrast. preserves_lenient.
  - unfold testReadability. preserves_lenient.
  - unfold testCTAButtons. preserves_lenient.
  - unfold testInteractiveElements. preserves_lenient.
  - unfold testKeyboardNavigation. preserves_lenient.
  - unfold testResponsive, testResponsiveOn.
    apply preserves_forEach; [typeclasses eauto|]. intros device.
    unfold testDevice. preserves_lenient.
Qed.

(** A finding that does not fail is in neither priority list. *)
Lemma notFailing_noPriority (r : TestResult.t) :
  TestResult.status r <> fail ->
  isHighPriority r = false /\ isMediumPriority r = false.
Proof.
  intros H. unfold isHighPriority, isMediumPriority.
  destruct (TestResult.status r); [| congruence |]; cbn [Status_eqb];
    rewrite !andb_false_r; split; reflexivity.
Qed.

End LenientProbes.

(** X22. Six probes never fail a page: the colour contrast, readability,
    call-to-action, interactive elements, keyboard navigation and
    responsive probes append only findings whose status is pass or warning,
    in every environment.  Whatever they find therefore never counts among
    the high priority or medium priority issues of the recommendations,
    which only take failed findings. *)
Theorem six_probes_never_fail_a_page :
  Forall
    (fun probe =>
       forall env w s,
       exists added,
         UXUITester.results (snd (probe env w s))
         = (UXUITester.results s ++ added)%list
         /\ Forall
              (fun r =>
                 (TestResult.status r = pass \/ TestResult.status r = warning)
                 /\ UXUITester.isHighPriority r = false
                 /\ UXUITester.isMediumPriority r = false)
              added)
    [ UXUITester.testColorContrast; UXUITester.testReadability;
      UXUITester.testCTAButtons; UXUITester.testInteractiveElements;
      UXUITester.testKeyboardNavigation; UXUITester.testResponsive ].
Proof.
  eapply Forall_impl; [|exact lenient_probes].
  intros p Hp env w s. destruct (Hp env w s) as [_ (added & Hr & Hf)].
  exists added. split; [exact Hr|].
  eapply Forall_impl; [|exact Hf]. cbv beta. intros r Hs.
  split; [|apply notFailing_noPriority; exact Hs].
  destruct (TestResult.status r); [left; reflexivity|congruence|right; reflexivity].
Qed.

(** ** What two findings say about the page *)

Section ProbeMeaning.

Import UXUITester.

Lemma filter_length_lt {A} (f : A -> bool) (l : list A) :
  length (filter f l) < length l <-> exists x, In x l /\ f x = false.
Proof.
  induction l as [|x rest IH]; cbn [filter length In].
  - split; [lia|intros (x & [] & _)].
  - pose proof (filter_length_le f rest) as Hle.
    destruct (f x) eqn:E; cbn [length].
    + rewrite <- Nat.succ_lt_mono, IH. split.
      * intros (y & Hy & Ey). exists y. split; [right; exact Hy|exact Ey].
      * intros (y & [<-|Hy] & Ey); [congruence|]. exists y. split; assumption.
    + split; [intros _; exists x; split; [left; reflexivity|exact E]|lia].
Qed.

Lemma filter_length_0 {A} (f : A -> bool) (l : list A) :
  length (filter f l) = 0 <-> forall x, In x l -> f x = false.
Proof.
  induction l as [|x rest IH]; cbn [filter length In].
  - split; [intros _ x []|reflexivity].
  - destruct (f x) eqn:E; cbn [length].
    + split; [lia|]. intros H. rewrite (H x (or_introl eq_refl)) in E.
      discriminate.
    + rewrite IH. split.
      * intros H y [<-|Hy]; [exact E|apply H; exact Hy].
      * intros H y Hy. apply H. right. exact Hy.
Qed.




End ProbeMeaning.

(** X23. The call-to-action finding says whether a call to action can be
    seen without scrolling.  When the page operation of the probe is
    accepted, the probe appends one finding, which passes exactly when some
    button with a call-to-action label lies within the first screen;
    otherwise it warns.  The score is 5 exactly when the page has no such
    button, and 10 exactly when it has some and all of them lie within the
    first screen.  Of the buttons counted, those that are too small, those
    that are out of sight and those with a label for assistive technology
    are never more than the buttons counted. *)
Theorem the_cta_finding_passes_when_a_cta_is_in_sight :
  forall env w s,
    Env.fault env (World.ops w) = false ->
    let page := Env.page env in
    let ctas := filter UXUITester.isCTA (Page.buttons page) in
    let analysis := UXUITester.buttonAnalysis page in
    exists w' s' finding,
      UXUITester.testCTAButtons env w s = (Ok tt, w', s')
      /\ UXUITester.results s' = (UXUITester.results s ++ [finding])%list
      /\ TestResult.test finding = "Call-to-Action Buttons"
      /\ (TestResult.status finding = pass
          <-> exists btn,
                In btn ctas
                /\ UXUITester.notVisibleCTA (Page.innerHeight page) btn = false)
      /\ (TestResult.status finding = pass \/ TestResult.status finding = warning)
      /\ (TestResult.score finding = 5%Q <-> ctas = [])
      /\ (TestResult.score finding = 10%Q
          <-> ctas <> []
              /\ forall btn,
                   In btn ctas ->
                   UXUITester.notVisibleCTA (Page.innerHeight page) btn = false)
      /\ UXUITester.ButtonAnalysis.smallCTAs analysis
         <= UXUITester.ButtonAnalysis.totalCTAs analysis
      /\ UXUITester.ButtonAnalysis.notVisible analysis
         <= UXUITester.ButtonAnalysis.totalCTAs analysis
      /\ UXUITester.ButtonAnalysis.withAriaLabel analysis
         <= UXUITester.ButtonAnalysis.totalCTAs analysis
      /\ length (UXUITester.ButtonAnalysis.smallCTASelectors analysis) <= 1.
Proof.
  intros env w s Hop page ctas analysis.
  unfold UXUITester.testCTAButtons. unfold_monad.
  rewrite pageOp_run, Hop. cbv beta iota.
  match goal with
  | |- context [UXUITester.recordEvidence ?items ?record env ?w0 ?s0] =>
      destruct (recordEvidence_run items record env w0 s0) as (w1 & s1 & E & R);
      rewrite E
  end.
  rewrite addResult_run.
  fold page. fold analysis.
  assert (Htotal : UXUITester.ButtonAnalysis.totalCTAs analysis = length ctas)
    by reflexivity.
  assert (Hnot : UXUITester.ButtonAnalysis.notVisible analysis
                 = length (filter (UXUITester.notVisibleCTA (Page.innerHeight page))
                             ctas))
    by reflexivity.
  pose proof (filter_length_le (UXUITester.notVisibleCTA (Page.innerHeight page)) ctas)
    as Hle.
  pose proof (filter_length_lt (UXUITester.notVisibleCTA (Page.innerHeight page)) ctas)
    as Hlt.
  pose proof (filter_length_0 (UXUITester.notVisibleCTA (Page.innerHeight page)) ctas)
    as H0.
  rewrite <- Hnot in Hle, Hlt, H0. rewrite <- Htotal in Hle, Hlt.
  assert (Hempty : UXUITester.ButtonAnalysis.totalCTAs analysis = 0 <-> ctas = []).
  { rewrite Htotal. split; [apply length_zero_iff_nil|intros ->; reflexivity]. }
  do 3 eexists. split; [reflexivity|].
  cbn [UXUITester.results UXUITester.pushResult TestResult.test TestResult.status
       TestResult.score]. rewrite R.
  split; [reflexivity|]. split; [reflexivity|].
  split; [|split; [|split; [|split; [|split; [|split; [|split]]]]]].
  - destruct (Nat.ltb_spec (UXUITester.ButtonAnalysis.notVisible analysis)
                (UXUITester.ButtonAnalysis.totalCTAs analysis)) as [L|L].
    + split; [intros _; apply Hlt; exact L|reflexivity].
    + split; [discriminate|]. intros H. apply Hlt in H. lia.
  - destruct (UXUITester.ButtonAnalysis.notVisible analysis
              <? UXUITester.ButtonAnalysis.totalCTAs analysis)%nat;
      [left|right]; reflexivity.
  - destruct (Nat.ltb_spec 0 (UXUITester.ButtonAnalysis.totalCTAs analysis)) as [L|L].
    + destruct (UXUITester.ButtonAnalysis.notVisible analysis =? 0)%nat;
        (split; [discriminate|]); intros H; apply Hempty in H; lia.
    + split; [intros _; apply Hempty; lia|reflexivity].
  - destruct (Nat.ltb_spec 0 (UXUITester.ButtonAnalysis.totalCTAs analysis)) as [L|L].
    + destruct (Nat.eqb_spec (UXUITester.ButtonAnalysis.notVisible analysis) 0)
        as [Z|Z].
      * split; [|reflexivity]. intros _. split.
        -- intros H. apply Hempty in H. lia.
        -- apply H0. exact Z.
      * split; [discriminate|]. intros [_ H]. apply H0 in H. contradiction.
    + split; [discriminate|]. intros [H _]. exfalso. apply H, Hempty. lia.
  - apply filter_length_le.
  - exact Hle.
  - apply filter_length_le.
  - unfold analysis, UXUITester.buttonAnalysis, JS.mapi, JS.slice0.
    cbn [UXUITester.ButtonAnalysis.smallCTASelectors].
    assert (L : forall {A B} (f : A -> nat -> B) l start,
               length (JS.mapi_from start f l) = length l).
    { intros A B f l. induction l as [|x rest IH]; intros start;
        cbn [JS.mapi_from length]; [reflexivity|rewrite IH; reflexivity]. }
    rewrite L, length_firstn. lia.
Qed.

(** The scenario page: its one call to action is in sight. *)
Lemma the_cta_finding_passes_when_a_cta_is_in_sight_witness :
  exists w' s' finding,
    UXUITester.testCTAButtons (Fixture.quiet Fixture.scenarioPage)
      World.initial UXUITester.new = (Ok tt, w', s')
    /\ UXUITester.results s' = [finding]
    /\ TestResult.status finding = pass.
Proof.
  destruct (the_cta_finding_passes_when_a_cta_is_in_sight
              (Fixture.quiet Fixture.scenarioPage) World.initial UXUITester.new
              eq_refl)
    as (w' & s' & finding & E & Hr & _ & Hs & _).
  exists w', s', finding. split; [exact E|]. split; [exact Hr|].
  apply Hs. exists Fixture.getStarted. split; [left; reflexivity|reflexivity].
Defined.


